(** * generic-object-storage: the S3 and GCS adapters, embedded and verified

    A shallow embedding of the Go package [object_storage]
    (utility.go, storage.go, the S3 backend and the GCS backend) together with
    the few functions of the Go standard library the package calls
    ([strings.Replace], [strings.Trim], [path.Join], [url.PathEscape]).

    Go strings are byte sequences: they are modelled by [string] (a list of
    [ascii] bytes).  [[]byte] is [list byte].  A Go pointer that may be nil is
    an [option].  The provider behind a client interface is an explicit state
    [W] threaded through every call. *)

From Stdlib Require Import ZArith Ascii String Strings.Byte Bool Lia.
From stdpp Require Import base option list gmap strings.

Open Scope Z_scope.

(** ** Go strings *)

Module GoString.

(** [len(s)] *)
Definition len (s : string) : nat := String.length s.

(** [s[i:j]] for [i <= j <= len(s)] *)
Definition slice (s : string) (i j : nat) : string :=
  String.substring i (j - i) s.

(** [s[i:]] *)
Fixpoint drop (n : nat) (s : string) : string :=
  match n, s with
  | O, _ => s
  | S _, "" => ""
  | S n', String _ s' => drop n' s'
  end.

(** [strings.HasPrefix(s, p)] *)
Fixpoint HasPrefix (s p : string) {struct p} : bool :=
  match p, s with
  | "", _ => true
  | String _ _, "" => false
  | String a p', String b s' => Ascii.eqb a b && HasPrefix s' p'
  end.

(** [strings.Index(s, substr)]: the index of the leftmost occurrence of
    [substr] in [s]; Go's [-1] is [None]. *)
Fixpoint Index (s substr : string) : option nat :=
  if HasPrefix s substr then Some O
  else match s with
       | "" => None
       | String _ s' => S <$> Index s' substr
       end.

(** [strings.Replace(s, old, new, 1)].  With [n = 1] the library returns [s]
    when [old == new] or when [old] does not occur, and otherwise writes
    [s[:j]], [new] and [s[j+len(old):]] for [j] the leftmost occurrence
    (for an empty [old], [j = 0]). *)
Definition Replace1 (s old new : string) : string :=
  if String.eqb old new then s
  else match Index s old with
       | None => s
       | Some j => slice s 0 j +:+ new +:+ drop (j + len old) s
       end.

Fixpoint in_cutset (c : ascii) (cutset : string) : bool :=
  match cutset with
  | "" => false
  | String d cutset' => Ascii.eqb c d || in_cutset c cutset'
  end.

Fixpoint TrimLeft (s cutset : string) : string :=
  match s with
  | "" => ""
  | String c s' => if in_cutset c cutset then TrimLeft s' cutset else s
  end.

Fixpoint TrimRight (s cutset : string) : string :=
  match s with
  | "" => ""
  | String c s' =>
      match TrimRight s' cutset with
      | "" => if in_cutset c cutset then "" else String c ""
      | r => String c r
      end
  end.

(** [strings.Trim(s, cutset)] for a cutset of single-byte characters *)
Definition Trim (s cutset : string) : string :=
  TrimRight (TrimLeft s cutset) cutset.

(** [fmt.Sprintf("%s/", s)] *)
Definition Sprintf_s_slash (s : string) : string := s +:+ "/".

End GoString.

(** ** Package [path] of the Go standard library *)

Module pathutil.

Definition slash : ascii := "/"%char.

(** The elements of a path: the maximal runs of bytes between slashes
    (as [strings.Split(path, "/")]). *)
Fixpoint elements (p : string) : list string :=
  match p with
  | "" => [""]
  | String c p' =>
      if Ascii.eqb c slash then "" :: elements p'
      else match elements p' with
           | e :: es => String c e :: es
           | [] => [String c ""]
           end
  end.

(** One iteration of the loop of [path.Clean], on a whole element.  [out]
    is the output buffer as a stack of elements, the last written first.
    An empty element and [.] are skipped; [..] removes the last real element
    when there is one, is dropped at the root of a rooted path, and is kept
    otherwise; any other element is appended. *)
Definition clean_element (rooted : bool) (out : list string) (e : string)
  : list string :=
  if String.eqb e "" then out
  else if String.eqb e "." then out
  else if String.eqb e ".." then
    match out with
    | top :: out' =>
        if String.eqb top ".." then (if rooted then out else e :: out)
        else out'
    | [] => if rooted then [] else [e]
    end
  else e :: out.

Fixpoint join_slash (es : list string) : string :=
  match es with
  | [] => ""
  | [e] => e
  | e :: es' => e +:+ "/" +:+ join_slash es'
  end.

Definition is_rooted (p : string) : bool :=
  match p with
  | String c _ => Ascii.eqb c slash
  | "" => false
  end.

(** [path.Clean] *)
Definition Clean (p : string) : string :=
  if String.eqb p "" then "."
  else
    let rooted := is_rooted p in
    let out := fold_left (clean_element rooted) (elements p) [] in
    if rooted then "/" +:+ join_slash (rev out)
    else match out with
         | [] => "."
         | _ => join_slash (rev out)
         end.

(** The buffer [path.Join] builds: an element is skipped while the buffer
    is empty and the element is empty; after that every element is appended
    behind a slash. *)
Fixpoint Join_buf (buf : string) (elem : list string) : string :=
  match elem with
  | [] => buf
  | e :: elem' =>
      if (0 <? GoString.len buf)%nat || negb (String.eqb e "") then
        Join_buf ((if (0 <? GoString.len buf)%nat then buf +:+ "/" else buf) +:+ e)
                 elem'
      else Join_buf buf elem'
  end.

(** [path.Join(elem...)] *)
Definition Join (elem : list string) : string :=
  if (foldr (fun e n => GoString.len e + n)%nat O elem =? 0)%nat then ""
  else Clean (Join_buf "" elem).

End pathutil.

(** ** [url.PathEscape] *)

Module url.

Definition between (lo hi c : ascii) : bool :=
  (N_of_ascii lo <=? N_of_ascii c)%N && (N_of_ascii c <=? N_of_ascii hi)%N.

(** [shouldEscape(c, encodePathSegment)]: letters, digits, the marks
    [-_.~] and the reserved characters [$&+:=@] are kept; every other byte
    (the slash included) is escaped. *)
Definition shouldEscape (c : ascii) : bool :=
  if between "a" "z" c || between "A" "Z" c || between "0" "9" c then false
  else if GoString.in_cutset c "-_.~" then false
  else if GoString.in_cutset c "$&+:=@" then false
  else true.

Definition upperhex (n : N) : ascii :=
  match String.get (N.to_nat n) "0123456789ABCDEF" with
  | Some c => c
  | None => "0"%char
  end.

(** [url.PathEscape(s)] *)
Fixpoint PathEscape (s : string) : string :=
  match s with
  | "" => ""
  | String c s' =>
      if shouldEscape c then
        String "%" (String (upperhex (N.shiftr (N_of_ascii c) 4))
                      (String (upperhex (N.land (N_of_ascii c) 15))
                         (PathEscape s')))
      else String c (PathEscape s')
  end.

End url.

(** ** utility.go *)

Definition cleanPrefix (prefix : string) : string :=
  GoString.Trim prefix "/".

Definition removePrefixFromObjectPath (prefix : string) (path : string) : string :=
  if String.eqb prefix "" then path
  else GoString.Replace1 path (GoString.Sprintf_s_slash prefix) "".

(** ** storage.go: the object model *)

Module time.
(** [time.Time], an instant; [zero] is the zero value [time.Time{}]. *)
Definition Time : Type := Z.
Definition zero : Time := 0.
End time.

(** Metadata contains additional information about the object *)
Record Metadata := { Name : string; Version : string }.

(** Object represents a storage object with its metadata and content *)
Record Object := {
  Meta : Metadata;
  Path : string;
  Content : list byte;
  LastModified : time.Time
}.

(** The zero value of [Object] ([var object Object]). *)
Definition Object_zero : Object :=
  {| Meta := {| Name := ""; Version := "" |}; Path := ""; Content := [];
     LastModified := time.zero |}.

Definition set_Path (o : Object) (p : string) : Object :=
  {| Meta := Meta o; Path := p; Content := Content o; LastModified := LastModified o |}.
Definition set_Content (o : Object) (c : list byte) : Object :=
  {| Meta := Meta o; Path := Path o; Content := c; LastModified := LastModified o |}.
Definition set_LastModified (o : Object) (t : time.Time) : Object :=
  {| Meta := Meta o; Path := Path o; Content := Content o; LastModified := t |}.

(** ** Errors *)

(** A Go [error] value.  [iterator_Done] is the sentinel [iterator.Done],
    which the code compares by identity; every other error is known by its
    text. *)
Inductive error :=
| iterator_Done
| errors_New (msg : string).

(** [err.Error()] *)
Definition Error (e : error) : string :=
  match e with
  | iterator_Done => "no more items in iterator"
  | errors_New msg => msg
  end.

(** [err == iterator.Done] *)
Definition is_iterator_Done (e : error) : bool :=
  match e with
  | iterator_Done => true
  | errors_New _ => false
  end.

Module http.
Definition StatusNotFound : Z := 404.
Definition StatusInternalServerError : Z := 500.
End http.

(** Package [app-error]: a custom error descriptor ([ae.GetCustomErr]) and the
    application error built from a cause, a descriptor and an HTTP code
    ([ae.GetAppErr], [SetHTTPCode]). *)
Module ae.
Record CustomErr := { Code : string; Message : string; Flag : bool }.
Definition GetCustomErr (code msg : string) (flag : bool) : CustomErr :=
  {| Code := code; Message := msg; Flag := flag |}.

Record AppError := { Cause : error; Custom : CustomErr; HTTPCode : Z }.
Definition GetAppErr (err : error) (ce : CustomErr) (httpCode : Z) : AppError :=
  {| Cause := err; Custom := ce; HTTPCode := httpCode |}.
Definition SetHTTPCode (a : AppError) (httpCode : Z) : AppError :=
  {| Cause := Cause a; Custom := Custom a; HTTPCode := httpCode |}.
End ae.

(** GCS (Google Cloud Storage) error definitions *)
Definition GoogleCSBackendClient := ae.GetCustomErr "ERR_OS_GCS_1000"
  "failed to initialise the gcs client" false.
Definition GCSGetObjects := ae.GetCustomErr "ERR_OS_GCS_1001"
  "error while getting objects from gcs bucket" false.
Definition GCSGetObject := ae.GetCustomErr "ERR_OS_GCS_1002"
  "error while getting object from gcs bucket" false.
Definition GCSPutObject := ae.GetCustomErr "ERR_OS_GCS_1003"
  "error while putting object to gcs bucket" false.
Definition GCSDeleteObject := ae.GetCustomErr "ERR_OS_GCS_1004"
  "error while deleting object from gcs bucket" false.
Definition GCSCopyObject := ae.GetCustomErr "ERR_OS_GCS_1005"
  "error while copying object in gcs bucket" false.

(** S3 (Amazon S3) error definitions *)
Definition S3BackendClient := ae.GetCustomErr "ERR_OS_S3_2000"
  "failed to initialise the s3 client" false.
Definition S3GetObjects := ae.GetCustomErr "ERR_OS_S3_2001"
  "error while getting objects from s3 bucket" false.
Definition S3GetObject := ae.GetCustomErr "ERR_OS_S3_2002"
  "error while getting object from s3 bucket" false.
Definition S3PutObject := ae.GetCustomErr "ERR_OS_S3_2003"
  "error while putting object to s3 bucket" false.
Definition S3DeleteObject := ae.GetCustomErr "ERR_OS_S3_2004"
  "error while deleting object from s3 bucket" false.
Definition S3CopyObject := ae.GetCustomErr "ERR_OS_S3_2005"
  "error while copying object in s3 bucket" false.

(** How a call that may panic or loop ends.  [OutOfFuel] is the embedding's
    reading of a loop that is still running when its fuel is spent. *)
Inductive Panic := NilPointerDereference | IndexOutOfRange.

Inductive Outcome (A : Type) :=
| Returned (a : A)
| Panicked (p : Panic)
| OutOfFuel.
Arguments Returned {A} a.
Arguments Panicked {A} p.
Arguments OutOfFuel {A}.

Module io.
(** An [io.ReadCloser] as the code uses it: what [io.ReadAll] yields and
    what [Close] returns. *)
Record ReadCloser := {
  data : list byte;
  read_err : option error;
  close_err : option error
}.
Definition ReadAll (r : ReadCloser) : list byte * option error :=
  (data r, read_err r).
Definition Close (r : ReadCloser) : option error := close_err r.
End io.

(** ** The AWS SDK types the S3 backend exchanges with its client *)

Module aws.
(** [aws.String(s)]: a pointer to [s], never nil. *)
Definition String (s : string) : option string := Some s.
End aws.

Module s3.
Module Object.
Record t := { Key : option string; LastModified : option time.Time }.
End Object.
Module ListObjectsInput.
Record t := {
  Bucket : option string;
  Prefix : option string;
  Marker : option string
}.
Definition set_Marker (i : t) (m : option string) : t :=
  {| Bucket := Bucket i; Prefix := Prefix i; Marker := m |}.
End ListObjectsInput.
Module ListObjectsOutput.
Record t := { Contents : list Object.t; IsTruncated : option bool }.
End ListObjectsOutput.
Module GetObjectInput.
Record t := { Bucket : option string; Key : option string }.
End GetObjectInput.
Module GetObjectOutput.
Record t := { Body : io.ReadCloser; LastModified : option time.Time }.
End GetObjectOutput.
Module DeleteObjectInput.
Record t := { Bucket : option string; Key : option string }.
End DeleteObjectInput.
Module CopyObjectInput.
Record t := {
  Bucket : option string;
  CopySource : option string;
  Key : option string
}.
End CopyObjectInput.
End s3.

Module s3manager.
Module UploadInput.
(** [Body] is [bytes.NewBuffer(content)]: the bytes to upload. *)
Record t := { Bucket : option string; Key : option string; Body : list byte }.
End UploadInput.
End s3manager.

(** IS3Client interface for S3 client operations - allows mocking in tests.
    [W] is the state of whatever stands behind the client. *)
Class IS3Client (W : Type) := {
  ListObjectsWithContext :
    s3.ListObjectsInput.t -> W -> (s3.ListObjectsOutput.t + error) * W;
  GetObjectWithContext :
    s3.GetObjectInput.t -> W -> (s3.GetObjectOutput.t + error) * W;
  DeleteObjectWithContext :
    s3.DeleteObjectInput.t -> W -> option error * W;
  CopyObjectWithContext :
    s3.CopyObjectInput.t -> W -> option error * W
}.

(** IS3Uploader interface for S3 upload operations - allows mocking in tests *)
Class IS3Uploader (W : Type) := {
  UploadWithContext : s3manager.UploadInput.t -> W -> option error * W
}.

(** ** The S3 backend *)

(** [for i := 0; i <= len(s)-len(substr); i++]: no iteration when the bound
    is negative, otherwise [i] runs over [0 .. len(s)-len(substr)] and the
    first match returns true. *)
Definition containsSubstring (s substr : string) : bool :=
  if (GoString.len s <? GoString.len substr)%nat then false
  else
    existsb
      (fun i => String.eqb (GoString.slice s i (i + GoString.len substr)) substr)
      (seq 0 (S (GoString.len s - GoString.len substr))).

Definition contains (s substr : string) : bool :=
  (GoString.len substr <=? GoString.len s)%nat
  && (String.eqb s substr
      || ((0 <? GoString.len s)%nat && containsSubstring s substr)).

(** isS3NotFoundError checks if the error is an S3 not found error *)
Definition isS3NotFoundError (err : option error) : bool :=
  match err with
  | None => false
  | Some e =>
      let errStr := Error e in
      contains errStr "NoSuchKey" || contains errStr "NotFound"
      || contains errStr "404"
  end.

(** S3Backend implements IStorageBackend for Amazon S3.  The [Downloader]
    field is set by the constructors and read by no method; it is left out. *)
Module S3Backend.

Record t (W : Type) := {
  Bucket : string;
  Client : IS3Client W;
  Prefix : string;
  Uploader : IS3Uploader W
}.
Arguments Bucket {W} _.
Arguments Client {W} _.
Arguments Prefix {W} _.
Arguments Uploader {W} _.

Section Methods.
Context {W : Type} (b : t W).

(** The error a failed client call is turned into: internal, or
    not-found when [isS3NotFoundError] says so. *)
Definition classify (err : error) (ce : ae.CustomErr) : ae.AppError :=
  let appErr := ae.GetAppErr err ce http.StatusInternalServerError in
  if isS3NotFoundError (Some err)
  then ae.SetHTTPCode appErr http.StatusNotFound
  else appErr.

(** GetObject retrieves an object from Amazon S3 bucket *)
Definition GetObject (path : string) (w : W)
  : (Object * option ae.AppError) * W :=
  let object := set_Path Object_zero path in
  let s3Input :=
    {| s3.GetObjectInput.Bucket := aws.String (Bucket b);
       s3.GetObjectInput.Key := aws.String (pathutil.Join [Prefix b; path]) |} in
  match @GetObjectWithContext W (Client b) s3Input w with
  | (inr err, w1) => ((object, Some (classify err S3GetObject)), w1)
  | (inl s3Result, w1) =>
      match io.ReadAll (s3.GetObjectOutput.Body s3Result) with
      | (_, Some err) =>
          ((object,
            Some (ae.GetAppErr err S3GetObject http.StatusInternalServerError)),
           w1)
      | (content, None) =>
          let object := set_Content object content in
          let object :=
            match s3.GetObjectOutput.LastModified s3Result with
            | Some lm => set_LastModified object lm
            | None => object
            end in
          ((object, None), w1)
      end
  end.

(** The body of [for _, obj := range s3Result.Contents]: one Object is
    appended per entry; [*obj.Key] and [*obj.LastModified] panic on a nil
    pointer ([None]). *)
Fixpoint range_Contents (fullPrefix : string) (contents : list s3.Object.t)
  (objects : list Object) : option (list Object) :=
  match contents with
  | [] => Some objects
  | obj :: contents' =>
      match s3.Object.Key obj, s3.Object.LastModified obj with
      | Some key, Some lm =>
          let path := removePrefixFromObjectPath fullPrefix key in
          let object :=
            {| Meta := Meta Object_zero; Path := path; Content := [];
               LastModified := lm |} in
          range_Contents fullPrefix contents' (objects ++ [object])
      | _, _ => None
      end
  end.

(** [s3Result.IsTruncated == nil || !*s3Result.IsTruncated] *)
Definition not_truncated (r : s3.ListObjectsOutput.t) : bool :=
  match s3.ListObjectsOutput.IsTruncated r with
  | None => true
  | Some t => negb t
  end.

(** The [for { ... }] loop of [GetObjects]; one unit of fuel per
    iteration. *)
Fixpoint GetObjects_loop (fuel : nat) (fullPrefix : string)
  (s3Input : s3.ListObjectsInput.t) (objects : list Object) (w : W)
  : Outcome (list Object * option ae.AppError) * W :=
  match fuel with
  | O => (OutOfFuel, w)
  | S fuel' =>
      match @ListObjectsWithContext W (Client b) s3Input w with
      | (inr err, w1) =>
          (Returned (objects, Some (classify err S3GetObjects)), w1)
      | (inl s3Result, w1) =>
          match range_Contents fullPrefix
                  (s3.ListObjectsOutput.Contents s3Result) objects with
          | None => (Panicked NilPointerDereference, w1)
          | Some objects' =>
              if not_truncated s3Result then (Returned (objects', None), w1)
              else
                match last (s3.ListObjectsOutput.Contents s3Result) with
                | None => (Panicked IndexOutOfRange, w1)
                | Some lastObj =>
                    GetObjects_loop fuel' fullPrefix
                      (s3.ListObjectsInput.set_Marker s3Input
                         (s3.Object.Key lastObj))
                      objects' w1
                end
          end
      end
  end.

(** GetObjects lists all objects in Amazon S3 bucket at the given prefix *)
Definition GetObjects (fuel : nat) (prefix : string) (w : W)
  : Outcome (list Object * option ae.AppError) * W :=
  let fullPrefix := pathutil.Join [Prefix b; prefix] in
  let s3Input :=
    {| s3.ListObjectsInput.Bucket := aws.String (Bucket b);
       s3.ListObjectsInput.Prefix := aws.String fullPrefix;
       s3.ListObjectsInput.Marker := None |} in
  GetObjects_loop fuel fullPrefix s3Input [] w.

(** PutObject uploads an object to Amazon S3 bucket *)
Definition PutObject (path : string) (content : list byte) (w : W)
  : option ae.AppError * W :=
  let s3Input :=
    {| s3manager.UploadInput.Bucket := aws.String (Bucket b);
       s3manager.UploadInput.Key := aws.String (pathutil.Join [Prefix b; path]);
       s3manager.UploadInput.Body := content |} in
  match @UploadWithContext W (Uploader b) s3Input w with
  | (Some err, w1) =>
      (Some (ae.GetAppErr err S3PutObject http.StatusInternalServerError), w1)
  | (None, w1) => (None, w1)
  end.

(** DeleteObject removes an object from Amazon S3 bucket *)
Definition DeleteObject (path : string) (w : W) : option ae.AppError * W :=
  let s3Input :=
    {| s3.DeleteObjectInput.Bucket := aws.String (Bucket b);
       s3.DeleteObjectInput.Key := aws.String (pathutil.Join [Prefix b; path]) |} in
  match @DeleteObjectWithContext W (Client b) s3Input w with
  | (Some err, w1) => (Some (classify err S3DeleteObject), w1)
  | (None, w1) => (None, w1)
  end.

(** CopyObject copies an object within Amazon S3 bucket *)
Definition CopyObject (srcPath dstPath : string) (w : W)
  : option ae.AppError * W :=
  let copySource := pathutil.Join [Bucket b; Prefix b; srcPath] in
  let copyObjectInput :=
    {| s3.CopyObjectInput.Bucket := aws.String (Bucket b);
       s3.CopyObjectInput.CopySource := aws.String (url.PathEscape copySource);
       s3.CopyObjectInput.Key := aws.String (pathutil.Join [Prefix b; dstPath]) |} in
  match @CopyObjectWithContext W (Client b) copyObjectInput w with
  | (Some err, w1) => (Some (classify err S3CopyObject), w1)
  | (None, w1) => (None, w1)
  end.

End Methods.
End S3Backend.

(** ** The Cloud Storage SDK types the GCS backend uses *)

Module storage.
(** [storage.ErrObjectNotExist] *)
Definition ErrObjectNotExist : error :=
  errors_New "storage: object doesn't exist".

Module Query.
Record t := { Prefix : string }.
End Query.
Module ObjectAttrs.
Record t := { Name : string; Updated : time.Time }.
End ObjectAttrs.

(** [*storage.ObjectHandle]: the object of the client's bucket it names. *)
Record ObjectHandle := { object : string }.

(** [*storage.Writer]: the handle written to and the bytes written so far. *)
Record Writer := { target : ObjectHandle; written : list byte }.

(** [*storage.ObjectIterator]: the results its calls of [Next] have still to
    give; an exhausted iterator gives [iterator.Done]. *)
Definition ObjectIterator : Type := list (ObjectAttrs.t + error).

Definition Next (it : ObjectIterator) : (ObjectAttrs.t + error) * ObjectIterator :=
  match it with
  | [] => (inr iterator_Done, [])
  | r :: it' => (r, it')
  end.
End storage.

(** IGCSClient this interface is added to make Client ins GCS BucketHandle
    mock compatible for tests.  [Client_Objects] and [Client_Object] are the
    interface's methods [Objects] and [Object]; the others are the SDK calls made on the handles they return. *)
Class IGCSClient (W : Type) := {
  Client_Objects : storage.Query.t -> W -> storage.ObjectIterator * W;
  Client_Object : string -> storage.ObjectHandle;
  Handle_Attrs : storage.ObjectHandle -> W -> (storage.ObjectAttrs.t + error) * W;
  Handle_NewReader : storage.ObjectHandle -> W -> (io.ReadCloser + error) * W;
  Handle_NewWriter : storage.ObjectHandle -> W -> storage.Writer * W;
  Writer_Write : storage.Writer -> list byte -> W -> (storage.Writer * option error) * W;
  Writer_Close : storage.Writer -> W -> option error * W;
  Handle_Delete : storage.ObjectHandle -> W -> option error * W;
  (** [dst.CopierFrom(src).Run(ctx)] *)
  Copier_Run : storage.ObjectHandle -> storage.ObjectHandle -> W -> option error * W
}.

(** ** The GCS backend *)

(** GoogleCSBackend is a storage backend for Google Cloud Storage *)
Module GoogleCSBackend.

Record t (W : Type) := {
  Prefix : string;
  Client : IGCSClient W
}.
Arguments Prefix {W} _.
Arguments Client {W} _.

Section Methods.
Context {W : Type} (b : t W).

(** [err.Error() == storage.ErrObjectNotExist.Error()] *)
Definition isNotExist (err : error) : bool :=
  String.eqb (Error err) (Error storage.ErrObjectNotExist).

(** The error a failed call is turned into where the code compares it
    with the sentinel: internal, or not-found on a match. *)
Definition classify (err : error) (ce : ae.CustomErr) : ae.AppError :=
  let appErr := ae.GetAppErr err ce http.StatusInternalServerError in
  if isNotExist err then ae.SetHTTPCode appErr http.StatusNotFound
  else appErr.

(** [errors.Wrap(err, msg)] of github.com/pkg/errors *)
Definition errors_Wrap (err : error) (msg : string) : error :=
  errors_New (msg +:+ ": " +:+ Error err).

(** GetObject retrieves an object from Google Cloud Storage bucket, at prefix *)
Definition GetObject (path : string) (w : W)
  : (Object * option ae.AppError) * W :=
  let object := set_Path Object_zero path in
  let objectHandle := @Client_Object W (Client b) (pathutil.Join [Prefix b; path]) in
  match @Handle_Attrs W (Client b) objectHandle w with
  | (inr err, w1) => ((object, Some (classify err GCSGetObject)), w1)
  | (inl attrs, w1) =>
      let object := set_LastModified object (storage.ObjectAttrs.Updated attrs) in
      match @Handle_NewReader W (Client b) objectHandle w1 with
      | (inr err, w2) =>
          ((object,
            Some (ae.GetAppErr err GCSGetObject http.StatusInternalServerError)),
           w2)
      | (inl rc, w2) =>
          match io.ReadAll rc with
          | (_, Some err) =>
              ((object,
                Some (ae.GetAppErr
                        (errors_Wrap err "failed to read from reader stream")
                        GCSGetObject http.StatusInternalServerError)),
               w2)
          | (content, None) =>
              match io.Close rc with
              | Some err =>
                  ((object,
                    Some (ae.GetAppErr err GCSGetObject
                            http.StatusInternalServerError)),
                   w2)
              | None => ((set_Content object content, None), w2)
              end
          end
      end
  end.

(** The [for { attrs, err := it.Next() ... }] loop of [GetObjects]. *)
Fixpoint GetObjects_loop (prefix : string) (it : storage.ObjectIterator)
  (objects : list Object) : list Object * option ae.AppError :=
  match it with
  | [] => (objects, None)
  | inr err :: it' =>
      if is_iterator_Done err then (objects, None)
      else (objects, Some (classify err GCSGetObjects))
  | inl attrs :: it' =>
      let path := removePrefixFromObjectPath prefix (storage.ObjectAttrs.Name attrs) in
      let object :=
        {| Meta := Meta Object_zero; Path := path; Content := [];
           LastModified := storage.ObjectAttrs.Updated attrs |} in
      GetObjects_loop prefix it' (objects ++ [object])
  end.

(** GetObjects lists all objects in Google Cloud Storage bucket, at prefix *)
Definition GetObjects (prefix : string) (w : W)
  : (list Object * option ae.AppError) * W :=
  let prefix := pathutil.Join [Prefix b; prefix] in
  let listQuery := {| storage.Query.Prefix := prefix |} in
  let '(it, w1) := @Client_Objects W (Client b) listQuery w in
  (GetObjects_loop prefix it [], w1).

(** PutObject uploads an object to Google Cloud Storage bucket, at prefix *)
Definition PutObject (path : string) (content : list byte) (w : W)
  : option ae.AppError * W :=
  let '(wc, w1) :=
    @Handle_NewWriter W (Client b)
      (@Client_Object W (Client b) (pathutil.Join [Prefix b; path])) w in
  match @Writer_Write W (Client b) wc content w1 with
  | ((_, Some err), w2) => (Some (classify err GCSPutObject), w2)
  | ((wc', None), w2) =>
      match @Writer_Close W (Client b) wc' w2 with
      | (Some err, w3) =>
          (Some (ae.GetAppErr err GCSPutObject http.StatusInternalServerError),
           w3)
      | (None, w3) => (None, w3)
      end
  end.

(** DeleteObject removes an object from Google Cloud Storage bucket, at prefix *)
Definition DeleteObject (path : string) (w : W) : option ae.AppError * W :=
  match @Handle_Delete W (Client b)
          (@Client_Object W (Client b) (pathutil.Join [Prefix b; path])) w with
  | (Some err, w1) => (Some (classify err GCSDeleteObject), w1)
  | (None, w1) => (None, w1)
  end.

(** CopyObject copy an object from Google Cloud Storage bucket one path to another *)
Definition CopyObject (srcPath dstPath : string) (w : W)
  : option ae.AppError * W :=
  let src := @Client_Object W (Client b) srcPath in
  let dst := @Client_Object W (Client b) dstPath in
  match @Copier_Run W (Client b) dst src w with
  | (Some err, w1) => (Some (classify err GCSCopyObject), w1)
  | (None, w1) => (None, w1)
  end.

End Methods.
End GoogleCSBackend.

(** ** Test doubles: clients that replay configured results *)

(** A mock S3 client in the manner of the repository's mocks: it records
    every call with its input and answers with the results it was configured
    with.  List results are given out in order, one per call. *)
Module MockS3.

Inductive Call :=
| ListObjects (input : s3.ListObjectsInput.t)
| GetObject (input : s3.GetObjectInput.t)
| DeleteObject (input : s3.DeleteObjectInput.t)
| CopyObject (input : s3.CopyObjectInput.t)
| Upload (input : s3manager.UploadInput.t).

Record World := {
  listResults : list (s3.ListObjectsOutput.t + error);
  getResult : s3.GetObjectOutput.t + error;
  deleteResult : option error;
  copyResult : option error;
  uploadResult : option error;
  calls : list Call
}.

Definition record (c : Call) (w : World) : World :=
  {| listResults := listResults w; getResult := getResult w;
     deleteResult := deleteResult w; copyResult := copyResult w;
     uploadResult := uploadResult w; calls := calls w ++ [c] |}.

Definition set_listResults (rs : list (s3.ListObjectsOutput.t + error))
  (w : World) : World :=
  {| listResults := rs; getResult := getResult w;
     deleteResult := deleteResult w; copyResult := copyResult w;
     uploadResult := uploadResult w; calls := calls w |}.

Definition unexpected : error := errors_New "mock: unexpected call".

#[export] Instance client : IS3Client World := {|
  ListObjectsWithContext input w :=
    match listResults w with
    | [] => (inr unexpected, record (ListObjects input) w)
    | r :: rs => (r, record (ListObjects input) (set_listResults rs w))
    end;
  GetObjectWithContext input w := (getResult w, record (GetObject input) w);
  DeleteObjectWithContext input w := (deleteResult w, record (DeleteObject input) w);
  CopyObjectWithContext input w := (copyResult w, record (CopyObject input) w)
|}.

#[export] Instance uploader : IS3Uploader World := {|
  UploadWithContext input w := (uploadResult w, record (Upload input) w)
|}.

Definition backend (bucket prefix : string) : S3Backend.t World :=
  {| S3Backend.Bucket := bucket; S3Backend.Client := client;
     S3Backend.Prefix := prefix; S3Backend.Uploader := uploader |}.

(** A mock with nothing recorded yet in which every call succeeds with an
    empty result. *)
Definition quiet : World :=
  {| listResults := [];
     getResult := inl {| s3.GetObjectOutput.Body :=
                           {| io.data := []; io.read_err := None;
                              io.close_err := None |};
                         s3.GetObjectOutput.LastModified := None |};
     deleteResult := None; copyResult := None; uploadResult := None;
     calls := [] |}.

(** A mock in which every call fails with [e]. *)
Definition failing (e : error) : World :=
  {| listResults := [inr e]; getResult := inr e; deleteResult := Some e;
     copyResult := Some e; uploadResult := Some e; calls := [] |}.

End MockS3.

(** The same for the GCS client. *)
Module MockGCS.

Inductive Call :=
| Objects (q : storage.Query.t)
| Attrs (h : storage.ObjectHandle)
| NewReader (h : storage.ObjectHandle)
| NewWriter (h : storage.ObjectHandle)
| WriterWrite (wc : storage.Writer) (p : list byte)
| WriterClose (wc : storage.Writer)
| Delete (h : storage.ObjectHandle)
| CopierRun (dst src : storage.ObjectHandle).

Record World := {
  objectsResult : storage.ObjectIterator;
  attrsResult : storage.ObjectAttrs.t + error;
  readerResult : io.ReadCloser + error;
  writeResult : option error;
  closeResult : option error;
  deleteResult : option error;
  copyResult : option error;
  calls : list Call
}.

Definition record (c : Call) (w : World) : World :=
  {| objectsResult := objectsResult w; attrsResult := attrsResult w;
     readerResult := readerResult w; writeResult := writeResult w;
     closeResult := closeResult w; deleteResult := deleteResult w;
     copyResult := copyResult w; calls := calls w ++ [c] |}.

#[export] Instance client : IGCSClient World := {|
  Client_Objects q w := (objectsResult w, record (Objects q) w);
  Client_Object name := {| storage.object := name |};
  Handle_Attrs h w := (attrsResult w, record (Attrs h) w);
  Handle_NewReader h w := (readerResult w, record (NewReader h) w);
  Handle_NewWriter h w :=
    ({| storage.target := h; storage.written := [] |}, record (NewWriter h) w);
  Writer_Write wc p w :=
    (({| storage.target := storage.target wc;
         storage.written := storage.written wc ++ p |}, writeResult w),
     record (WriterWrite wc p) w);
  Writer_Close wc w := (closeResult w, record (WriterClose wc) w);
  Handle_Delete h w := (deleteResult w, record (Delete h) w);
  Copier_Run dst src w := (copyResult w, record (CopierRun dst src) w)
|}.

Definition backend (prefix : string) : GoogleCSBackend.t World :=
  {| GoogleCSBackend.Prefix := prefix; GoogleCSBackend.Client := client |}.

Definition no_reader : io.ReadCloser :=
  {| io.data := []; io.read_err := None; io.close_err := None |}.

Definition quiet : World :=
  {| objectsResult := [];
     attrsResult := inl {| storage.ObjectAttrs.Name := "";
                           storage.ObjectAttrs.Updated := time.zero |};
     readerResult := inl no_reader;
     writeResult := None; closeResult := None; deleteResult := None;
     copyResult := None; calls := [] |}.

Definition set_objectsResult (it : storage.ObjectIterator) (w : World) : World :=
  {| objectsResult := it; attrsResult := attrsResult w;
     readerResult := readerResult w; writeResult := writeResult w;
     closeResult := closeResult w; deleteResult := deleteResult w;
     copyResult := copyResult w; calls := calls w |}.

Definition set_writeResult (r : option error) (w : World) : World :=
  {| objectsResult := objectsResult w; attrsResult := attrsResult w;
     readerResult := readerResult w; writeResult := r;
     closeResult := closeResult w; deleteResult := deleteResult w;
     copyResult := copyResult w; calls := calls w |}.

Definition set_closeResult (r : option error) (w : World) : World :=
  {| objectsResult := objectsResult w; attrsResult := attrsResult w;
     readerResult := readerResult w; writeResult := writeResult w;
     closeResult := r; deleteResult := deleteResult w;
     copyResult := copyResult w; calls := calls w |}.

End MockGCS.

(** ** An in-memory provider: a bucket as a key-value map *)

(** The provider as a finite map from object keys to stored bytes, updated by
    uploads, copies and deletes.  A listing answers with every matching key in
    one page (so it is never truncated). *)
Module MemBucket.

Record Entry := { bytes : list byte; modified : time.Time }.

Record World := {
  bucket : string;
  objects : gmap string Entry;
  clock : time.Time
}.

Definition store (k : string) (c : list byte) (w : World) : World :=
  {| bucket := bucket w;
     objects := <[k := {| bytes := c; modified := clock w |}]> (objects w);
     clock := clock w + 1 |}.

Definition remove (k : string) (w : World) : World :=
  {| bucket := bucket w; objects := delete k (objects w); clock := clock w |}.

(** The stored keys that start with [prefix] and come after [marker]. *)
Definition matching (prefix : string) (marker : option string) (w : World)
  : list (string * Entry) :=
  List.filter
    (fun kv : string * Entry =>
       GoString.HasPrefix kv.1 prefix
       && match marker with
          | None => true
          | Some m => String.ltb m kv.1
          end)
    (map_to_list (objects w)).

Definition NoSuchBucket : error :=
  errors_New "NoSuchBucket: The specified bucket does not exist".
Definition NoSuchKey : error :=
  errors_New "NoSuchKey: The specified key does not exist.".
Definition InvalidRequest : error :=
  errors_New "InvalidParameter: missing required field".

Definition is_bucket (name : option string) (w : World) : bool :=
  match name with
  | Some n => String.eqb n (bucket w)
  | None => false
  end.

Definition reader (e : Entry) : io.ReadCloser :=
  {| io.data := bytes e; io.read_err := None; io.close_err := None |}.

#[export] Instance s3_client : IS3Client World := {|
  ListObjectsWithContext input w :=
    if is_bucket (s3.ListObjectsInput.Bucket input) w then
      (inl {| s3.ListObjectsOutput.Contents :=
                (fun kv : string * Entry =>
                   {| s3.Object.Key := Some kv.1;
                      s3.Object.LastModified := Some (modified kv.2) |})
                  <$> matching (default "" (s3.ListObjectsInput.Prefix input))
                        (s3.ListObjectsInput.Marker input) w;
              s3.ListObjectsOutput.IsTruncated := Some false |}, w)
    else (inr NoSuchBucket, w);
  GetObjectWithContext input w :=
    if is_bucket (s3.GetObjectInput.Bucket input) w then
      match s3.GetObjectInput.Key input with
      | None => (inr InvalidRequest, w)
      | Some k =>
          match objects w !! k with
          | Some e =>
              (inl {| s3.GetObjectOutput.Body := reader e;
                      s3.GetObjectOutput.LastModified := Some (modified e) |}, w)
          | None => (inr NoSuchKey, w)
          end
      end
    else (inr NoSuchBucket, w);
  DeleteObjectWithContext input w :=
    if is_bucket (s3.DeleteObjectInput.Bucket input) w then
      match s3.DeleteObjectInput.Key input with
      | None => (Some InvalidRequest, w)
      | Some k => (None, remove k w)
      end
    else (Some NoSuchBucket, w);
  CopyObjectWithContext input w :=
    if is_bucket (s3.CopyObjectInput.Bucket input) w then
      match s3.CopyObjectInput.CopySource input, s3.CopyObjectInput.Key input with
      | Some src, Some dst =>
          match
            List.find
              (fun kv : string * Entry =>
                 String.eqb (url.PathEscape (bucket w +:+ "/" +:+ kv.1)) src)
              (map_to_list (objects w))
          with
          | Some kv => (None, store dst (bytes kv.2) w)
          | None => (Some NoSuchKey, w)
          end
      | _, _ => (Some InvalidRequest, w)
      end
    else (Some NoSuchBucket, w)
|}.

#[export] Instance s3_uploader : IS3Uploader World := {|
  UploadWithContext input w :=
    if is_bucket (s3manager.UploadInput.Bucket input) w then
      match s3manager.UploadInput.Key input with
      | None => (Some InvalidRequest, w)
      | Some k => (None, store k (s3manager.UploadInput.Body input) w)
      end
    else (Some NoSuchBucket, w)
|}.

Definition s3_backend (bucket prefix : string) : S3Backend.t World :=
  {| S3Backend.Bucket := bucket; S3Backend.Client := s3_client;
     S3Backend.Prefix := prefix; S3Backend.Uploader := s3_uploader |}.

Definition EmptyName : error := errors_New "storage: object name is empty".

#[export] Instance gcs_client : IGCSClient World := {|
  Client_Objects q w :=
    ((fun kv : string * Entry =>
        inl {| storage.ObjectAttrs.Name := kv.1;
               storage.ObjectAttrs.Updated := modified kv.2 |})
       <$> matching (storage.Query.Prefix q) None w, w);
  Client_Object name := {| storage.object := name |};
  Handle_Attrs h w :=
    match objects w !! storage.object h with
    | Some e =>
        (inl {| storage.ObjectAttrs.Name := storage.object h;
                storage.ObjectAttrs.Updated := modified e |}, w)
    | None => (inr storage.ErrObjectNotExist, w)
    end;
  Handle_NewReader h w :=
    match objects w !! storage.object h with
    | Some e => (inl (reader e), w)
    | None => (inr storage.ErrObjectNotExist, w)
    end;
  Handle_NewWriter h w := ({| storage.target := h; storage.written := [] |}, w);
  Writer_Write wc p w :=
    if String.eqb (storage.object (storage.target wc)) "" then ((wc, Some EmptyName), w)
    else (({| storage.target := storage.target wc;
              storage.written := storage.written wc ++ p |}, None), w);
  Writer_Close wc w :=
    (None, store (storage.object (storage.target wc)) (storage.written wc) w);
  Handle_Delete h w :=
    match objects w !! storage.object h with
    | Some _ => (None, remove (storage.object h) w)
    | None => (Some storage.ErrObjectNotExist, w)
    end;
  Copier_Run dst src w :=
    match objects w !! storage.object src with
    | Some e => (None, store (storage.object dst) (bytes e) w)
    | None => (Some storage.ErrObjectNotExist, w)
    end
|}.

Definition gcs_backend (prefix : string) : GoogleCSBackend.t World :=
  {| GoogleCSBackend.Prefix := prefix; GoogleCSBackend.Client := gcs_client |}.

Definition empty (name : string) : World :=
  {| bucket := name; objects := ∅; clock := 1 |}.

End MemBucket.

(** ** Notions the statements below are phrased with *)

(** [sub] occurs in [s] at byte offset [i]. *)
Definition occurs_at (sub s : string) (i : nat) : Prop :=
  exists a c, s = a +:+ sub +:+ c /\ GoString.len a = i.

(** [sub] is a substring of [s]. *)
Definition occurs (sub s : string) : Prop :=
  exists i, occurs_at sub s i.

(** The text of an error names a missing object, as the S3 backend reads it. *)
Definition not_found_text (t : string) : Prop :=
  occurs "NoSuchKey" t \/ occurs "NotFound" t \/ occurs "404" t.

(** [a] is the application error for the client error [e] under the
    descriptor [ce]: not-found (404) when the text of [e] says so, internal
    (500) otherwise. *)
Definition s3_classified (e : error) (ce : ae.CustomErr) (a : ae.AppError) : Prop :=
  ae.Cause a = e /\ ae.Custom a = ce /\
  ((not_found_text (Error e) /\ ae.HTTPCode a = http.StatusNotFound)
   \/ (~ not_found_text (Error e) /\ ae.HTTPCode a = http.StatusInternalServerError)).

(** *** Listing pages *)

(** The Object [GetObjects] derives from one entry of a page. *)
Definition entry_object (fullPrefix : string) (e : s3.Object.t) : Object :=
  {| Meta := Meta Object_zero;
     Path := removePrefixFromObjectPath fullPrefix (default "" (s3.Object.Key e));
     Content := [];
     LastModified := default time.zero (s3.Object.LastModified e) |}.

Definition page_objects (fullPrefix : string) (p : s3.ListObjectsOutput.t)
  : list Object :=
  entry_object fullPrefix <$> s3.ListObjectsOutput.Contents p.

(** The Objects of a sequence of pages, in order. *)
Definition pages_objects (fullPrefix : string) (ps : list s3.ListObjectsOutput.t)
  : list Object :=
  concat (page_objects fullPrefix <$> ps).

(** An entry as S3 sends it: its key and its date are present. *)
Definition entry_ok (e : s3.Object.t) : Prop :=
  is_Some (s3.Object.Key e) /\ is_Some (s3.Object.LastModified e).

Definition page_ok (p : s3.ListObjectsOutput.t) : Prop :=
  Forall entry_ok (s3.ListObjectsOutput.Contents p).

Definition truncated (p : s3.ListObjectsOutput.t) : Prop :=
  s3.ListObjectsOutput.IsTruncated p = Some true.

(** A page after which the listing goes on: truncated, with entries. *)
Definition continued_page (p : s3.ListObjectsOutput.t) : Prop :=
  truncated p /\ s3.ListObjectsOutput.Contents p <> [] /\ page_ok p.

(** The key of the last entry of a page. *)
Definition last_key (p : s3.ListObjectsOutput.t) : option string :=
  last (s3.ListObjectsOutput.Contents p) ≫= s3.Object.Key.

Definition list_request (bucket fullPrefix : string) (marker : option string)
  : s3.ListObjectsInput.t :=
  {| s3.ListObjectsInput.Bucket := Some bucket;
     s3.ListObjectsInput.Prefix := Some fullPrefix;
     s3.ListObjectsInput.Marker := marker |}.

(** The list requests marker-based pagination sends when the client answers
    with [ps] and then once more: the first without a marker, and one after
    every page of [ps], with that page's last key as its marker. *)
Definition paged_requests (bucket fullPrefix : string)
  (ps : list s3.ListObjectsOutput.t) : list s3.ListObjectsInput.t :=
  list_request bucket fullPrefix None
    :: ((fun p => list_request bucket fullPrefix (last_key p)) <$> ps).

(** The same requests, told along the pages: starting with the marker [m],
    one request per page of [ps]; and the marker in force after [ps]. *)
Fixpoint requests_from (bucket fullPrefix : string) (m : option string)
  (ps : list s3.ListObjectsOutput.t) : list s3.ListObjectsInput.t :=
  match ps with
  | [] => []
  | p :: ps' =>
      list_request bucket fullPrefix m
        :: requests_from bucket fullPrefix (last_key p) ps'
  end.

Fixpoint marker_after (m : option string) (ps : list s3.ListObjectsOutput.t)
  : option string :=
  match ps with
  | [] => m
  | p :: ps' => marker_after (last_key p) ps'
  end.

(** The mock after it has given out results down to [rest] and recorded the
    calls [cs]. *)
Definition mock_after (w : MockS3.World)
  (rest : list (s3.ListObjectsOutput.t + error)) (cs : list MockS3.Call)
  : MockS3.World :=
  {| MockS3.listResults := rest; MockS3.getResult := MockS3.getResult w;
     MockS3.deleteResult := MockS3.deleteResult w;
     MockS3.copyResult := MockS3.copyResult w;
     MockS3.uploadResult := MockS3.uploadResult w;
     MockS3.calls := MockS3.calls w ++ cs |}.

(** The Object the GCS backend derives from one result of the iterator. *)
Definition attrs_object (prefix : string) (a : storage.ObjectAttrs.t) : Object :=
  {| Meta := Meta Object_zero;
     Path := removePrefixFromObjectPath prefix (storage.ObjectAttrs.Name a);
     Content := [];
     LastModified := storage.ObjectAttrs.Updated a |}.

(** *** The keys a recorded call addresses *)

Definition s3_call_keys (c : MockS3.Call) : list (option string) :=
  match c with
  | MockS3.ListObjects i => [s3.ListObjectsInput.Prefix i]
  | MockS3.GetObject i => [s3.GetObjectInput.Key i]
  | MockS3.DeleteObject i => [s3.DeleteObjectInput.Key i]
  | MockS3.CopyObject i => [s3.CopyObjectInput.CopySource i; s3.CopyObjectInput.Key i]
  | MockS3.Upload i => [s3manager.UploadInput.Key i]
  end.

Definition gcs_call_keys (c : MockGCS.Call) : list string :=
  match c with
  | MockGCS.Objects q => [storage.Query.Prefix q]
  | MockGCS.Attrs h | MockGCS.NewReader h | MockGCS.NewWriter h
  | MockGCS.Delete h => [storage.object h]
  | MockGCS.WriterWrite wc _ | MockGCS.WriterClose wc =>
      [storage.object (storage.target wc)]
  | MockGCS.CopierRun dst src => [storage.object src; storage.object dst]
  end.

(** The record [after] extends [before] by at least one call, and every call
    added addresses exactly [keys]. *)
Definition calls_added {C K : Type} (keys_of : C -> list K)
  (before after : list C) (keys : list K) : Prop :=
  exists new, after = before ++ new /\ new <> []
              /\ Forall (fun c => keys_of c = keys) new.

(** *** Sample data *)

Definition sample_entry (key : string) (t : time.Time) : s3.Object.t :=
  {| s3.Object.Key := Some key; s3.Object.LastModified := Some t |}.

Definition sample_page_ab : s3.ListObjectsOutput.t :=
  {| s3.ListObjectsOutput.Contents :=
       [sample_entry "pre/test/a" 1; sample_entry "pre/test/b" 2];
     s3.ListObjectsOutput.IsTruncated := Some true |}.

Definition sample_page_c : s3.ListObjectsOutput.t :=
  {| s3.ListObjectsOutput.Contents := [sample_entry "pre/test/c" 3];
     s3.ListObjectsOutput.IsTruncated := Some true |}.

Definition sample_page_d : s3.ListObjectsOutput.t :=
  {| s3.ListObjectsOutput.Contents := [sample_entry "pre/test/d" 4];
     s3.ListObjectsOutput.IsTruncated := None |}.

(** A truncated page without entries. *)
Definition sample_page_hollow : s3.ListObjectsOutput.t :=
  {| s3.ListObjectsOutput.Contents := [];
     s3.ListObjectsOutput.IsTruncated := Some true |}.

Definition sample_object (path : string) (t : time.Time) : Object :=
  {| Meta := Meta Object_zero; Path := path; Content := []; LastModified := t |}.

Definition sample_attrs (name : string) (t : time.Time) : storage.ObjectAttrs.t :=
  {| storage.ObjectAttrs.Name := name; storage.ObjectAttrs.Updated := t |}.

Definition hello : list byte :=
  String.list_byte_of_string "Hello, World!".

(** *** Slashes at the ends of a prefix *)

(** [n] slashes. *)
Fixpoint slashes (n : nat) : string :=
  match n with
  | O => ""
  | S n' => String "/" (slashes n')
  end.

Definition no_leading_slash (s : string) : Prop :=
  forall r, s <> "/" +:+ r.

Definition no_trailing_slash (s : string) : Prop :=
  forall r, s <> r +:+ "/".

(** *** Classification by the GCS backend *)

(** [a] is the application error for the error [e] under the descriptor
    [ce] as the GCS backend classifies it: not-found (404) when the text of
    [e] is that of [storage.ErrObjectNotExist], internal (500) otherwise. *)
Definition gcs_classified (e : error) (ce : ae.CustomErr) (a : ae.AppError) : Prop :=
  ae.Cause a = e /\ ae.Custom a = ce /\
  ((Error e = "storage: object doesn't exist"
    /\ ae.HTTPCode a = http.StatusNotFound)
   \/ (Error e <> "storage: object doesn't exist"
       /\ ae.HTTPCode a = http.StatusInternalServerError)).

(** [a] is the internal error (500) for [e] under [ce], whatever [e] says. *)
Definition internal_error (e : error) (ce : ae.CustomErr) (a : ae.AppError) : Prop :=
  a = {| ae.Cause := e; ae.Custom := ce;
         ae.HTTPCode := http.StatusInternalServerError |}.

(** A GCS mock whose Attrs call succeeds and whose reader cannot be
    opened. *)
Definition sample_gcs_reader_fails : MockGCS.World :=
  {| MockGCS.objectsResult := [];
     MockGCS.attrsResult := inl (sample_attrs "pre/a.txt" 7);
     MockGCS.readerResult := inr storage.ErrObjectNotExist;
     MockGCS.writeResult := None; MockGCS.closeResult := None;
     MockGCS.deleteResult := None; MockGCS.copyResult := None;
     MockGCS.calls := [] |}.

(** An S3 mock whose GetObject succeeds with a body that fails to be read,
    with an error text that speaks of 404. *)
Definition sample_s3_body_fails : MockS3.World :=
  {| MockS3.listResults := [];
     MockS3.getResult :=
       inl {| s3.GetObjectOutput.Body :=
                {| io.data := []; io.read_err := Some (errors_New "read: 404 NotFound");
                   io.close_err := None |};
              s3.GetObjectOutput.LastModified := Some 9 |};
     MockS3.deleteResult := None; MockS3.copyResult := None;
     MockS3.uploadResult := None; MockS3.calls := [] |}.

(** ** A client that never stops paging *)

(** An S3 client that answers every list call with the same page, and every
    other call with an error. *)
Module RepeatS3.

Definition unsupported : error := errors_New "repeat: unsupported call".

Definition client (page : s3.ListObjectsOutput.t) : IS3Client unit := {|
  ListObjectsWithContext _ w := (inl page, w);
  GetObjectWithContext _ w := (inr unsupported, w);
  DeleteObjectWithContext _ w := (Some unsupported, w);
  CopyObjectWithContext _ w := (Some unsupported, w)
|}.

Definition uploader : IS3Uploader unit := {|
  UploadWithContext _ w := (Some unsupported, w)
|}.

Definition backend (page : s3.ListObjectsOutput.t) (bucket prefix : string)
  : S3Backend.t unit :=
  {| S3Backend.Bucket := bucket; S3Backend.Client := client page;
     S3Backend.Prefix := prefix; S3Backend.Uploader := uploader |}.

End RepeatS3.

(** A page with an entry whose key is missing. *)
Definition sample_page_keyless : s3.ListObjectsOutput.t :=
  {| s3.ListObjectsOutput.Contents :=
       [sample_entry "pre/test/e" 5;
        {| s3.Object.Key := None; s3.Object.LastModified := Some 6 |}];
     s3.ListObjectsOutput.IsTruncated := Some false |}.

(** The Object a listing with an empty full prefix derives from an entry:
    the key as it is. *)
Definition verbatim_object (key : string) (t : time.Time) : Object :=
  {| Meta := Meta Object_zero; Path := key; Content := []; LastModified := t |}.

(** *** What every application error of the package looks like *)

(** [a] carries the descriptor [ce] and one of the two HTTP codes the
    package uses. *)
Definition error_of (ce : ae.CustomErr) (a : ae.AppError) : Prop :=
  ae.Custom a = ce
  /\ (ae.HTTPCode a = http.StatusNotFound
      \/ ae.HTTPCode a = http.StatusInternalServerError).

(** The descriptors of the package, in the order of their codes. *)
Definition descriptors : list ae.CustomErr :=
  [GoogleCSBackendClient; GCSGetObjects; GCSGetObject; GCSPutObject;
   GCSDeleteObject; GCSCopyObject;
   S3BackendClient; S3GetObjects; S3GetObject; S3PutObject; S3DeleteObject;
   S3CopyObject].

(** * Properties *)

Example Join_ex1 : pathutil.Join ["pre"; "test/hello.txt"] = "pre/test/hello.txt".
Proof. reflexivity. Qed.
Example Join_ex2 : pathutil.Join ["pre"; "test/"] = "pre/test".
Proof. reflexivity. Qed.
Example Join_ex3 : pathutil.Join [""; ""] = "".
Proof. reflexivity. Qed.
Example Join_ex4 : pathutil.Join ["a/../../b"; "./c//d/.."] = "../b/c".
Proof. reflexivity. Qed.
Example Join_ex5 : pathutil.Join ["/a/../.."; ""] = "/".
Proof. reflexivity. Qed.
Example Clean_ex1 : pathutil.Clean "a/.." = ".".
Proof. reflexivity. Qed.
Example Esc_ex : url.PathEscape "bucket/pre/a b" = "bucket%2Fpre%2Fa%20b".
Proof. reflexivity. Qed.
Example Replace_ex : GoString.Replace1 "x/a/b/a/c" "a/" "" = "x/b/a/c".
Proof. reflexivity. Qed.
Example cleanPrefix_ex : cleanPrefix "//a/b/" = "a/b".
Proof. reflexivity. Qed.

(** ** Byte strings *)

Section StringFacts.
Import GoString.
Local Open Scope nat_scope.

Lemma str_app_nil_l (s : string) : "" +:+ s = s.
Proof. reflexivity. Qed.

Lemma str_app_cons (c : ascii) (a b : string) :
  String c a +:+ b = String c (a +:+ b).
Proof. reflexivity. Qed.

Lemma str_app_nil_r (s : string) : s +:+ "" = s.
Proof. induction s as [|c s IH]; [reflexivity|]. now rewrite str_app_cons, IH. Qed.

Lemma str_app_assoc (a b c : string) : (a +:+ b) +:+ c = a +:+ b +:+ c.
Proof.
  induction a as [|x a IH]; [reflexivity|].
  now rewrite !str_app_cons, IH.
Qed.

Lemma len_app (a b : string) : len (a +:+ b) = len a + len b.
Proof.
  unfold len. induction a as [|x a IH]; [reflexivity|].
  rewrite str_app_cons. simpl. now rewrite IH.
Qed.

Lemma len_zero (s : string) : len s = 0 -> s = "".
Proof. destruct s; [reflexivity | discriminate]. Qed.

Lemma HasPrefix_app (p r : string) : HasPrefix (p +:+ r) p = true.
Proof.
  induction p as [|x p IH]; [reflexivity|].
  rewrite str_app_cons. simpl. now rewrite Ascii.eqb_refl, IH.
Qed.

Lemma HasPrefix_inv (s p : string) :
  HasPrefix s p = true -> exists r, s = p +:+ r.
Proof.
  revert s. induction p as [|x p IH]; intros s H.
  - now exists s.
  - destruct s as [|y s]; [discriminate|]. simpl in H.
    apply andb_true_iff in H as [Hxy Hp].
    apply Ascii.eqb_eq in Hxy as ->.
    destruct (IH _ Hp) as [r ->]. now exists r.
Qed.

Lemma slice_app_l (a r : string) : slice (a +:+ r) 0 (len a) = a.
Proof.
  unfold slice, len. rewrite Nat.sub_0_r.
  induction a as [|x a IH]; simpl.
  - now destruct r.
  - now rewrite IH.
Qed.

Lemma drop_app (a r : string) : drop (len a) (a +:+ r) = r.
Proof.
  unfold len. induction a as [|x a IH]; simpl; [now destruct r|].
  exact IH.
Qed.

Lemma substring_0_app (b c : string) :
  String.substring 0 (String.length b) (b +:+ c) = b.
Proof.
  induction b as [|x b IH]; simpl; [now destruct c|].
  now rewrite IH.
Qed.

Lemma substring_app_mid (a b c : string) :
  String.substring (len a) (len b) (a +:+ b +:+ c) = b.
Proof.
  unfold len. induction a as [|x a IH].
  - rewrite str_app_nil_l. apply substring_0_app.
  - simpl. exact IH.
Qed.

Lemma substring_split (s : string) (i m : nat) :
  i + m <= len s ->
  s = String.substring 0 i s +:+ String.substring i m s +:+ drop (i + m) s
  /\ len (String.substring 0 i s) = i.
Proof.
  unfold len. revert i. induction s as [|x s IH]; intros i H; simpl in H.
  - assert (i = 0) as -> by lia. assert (m = 0) as -> by lia. now split.
  - destruct i as [|i].
    + simpl. clear IH. revert x s H. induction m as [|m IHm]; intros x s H.
      * now split.
      * destruct s as [|y s]; simpl in *.
        -- assert (m = 0) as -> by lia. now split.
        -- destruct (IHm y s ltac:(lia)) as [E _]. simpl in E.
           split; [|reflexivity]. rewrite !str_app_nil_l in *.
           rewrite str_app_cons. now rewrite <- E.
    + destruct (IH i ltac:(simpl; lia)) as [E L]. split.
      * cbn [String.substring plus drop]. rewrite str_app_cons. now rewrite <- E.
      * cbn [String.substring String.length]. now rewrite L.
Qed.

Lemma Index_unfold (s sub : string) :
  Index s sub =
    if HasPrefix s sub then Some 0
    else match s with
         | "" => None
         | String _ s' => S <$> Index s' sub
         end.
Proof. now destruct s. Qed.

Lemma Index_Some (s sub : string) (j : nat) :
  Index s sub = Some j -> occurs_at sub s j.
Proof.
  revert j. induction s as [|x s IH]; intros j; rewrite Index_unfold;
    destruct (HasPrefix _ sub) eqn:Hp.
  - intros [= <-]. destruct (HasPrefix_inv _ _ Hp) as [r ->]. now exists "", r.
  - discriminate.
  - intros [= <-]. destruct (HasPrefix_inv _ _ Hp) as [r ->]. now exists "", r.
  - destruct (Index s sub) as [j'|]; [|discriminate].
    intros [= <-]. destruct (IH j' eq_refl) as (a & c & -> & L).
    exists (String x a), c. split; [reflexivity|]. unfold len in *. simpl. now rewrite L.
Qed.

Lemma Index_leftmost (s sub : string) (j : nat) :
  Index s sub = Some j -> forall i, occurs_at sub s i -> j <= i.
Proof.
  revert j. induction s as [|x s IH]; intros j; rewrite Index_unfold;
    destruct (HasPrefix _ sub) eqn:Hp; try discriminate;
    try (intros [= <-] i _; lia).
  destruct (Index s sub) as [j'|]; [|discriminate].
  intros [= <-] i (a & c & E & L). destruct a as [|y a].
  - rewrite str_app_nil_l in E. rewrite E, HasPrefix_app in Hp. discriminate.
  - rewrite str_app_cons in E. injection E as -> E.
    unfold len in L. simpl in L. subst i.
    apply le_n_S, (IH j' eq_refl). now exists a, c.
Qed.

Lemma Index_None (s sub : string) :
  Index s sub = None -> ~ occurs sub s.
Proof.
  induction s as [|x s IH]; rewrite Index_unfold;
    destruct (HasPrefix _ sub) eqn:Hp; try discriminate.
  - intros _ (i & a & c & E & _). destruct a; [|discriminate].
    rewrite str_app_nil_l in E. rewrite E, HasPrefix_app in Hp. discriminate.
  - destruct (Index s sub) as [j'|]; [discriminate|].
    intros _ (i & a & c & E & _). destruct a as [|y a].
    + rewrite str_app_nil_l in E. rewrite E, HasPrefix_app in Hp. discriminate.
    + rewrite str_app_cons in E. injection E as -> E.
      apply IH; [reflexivity|]. now exists (len a), a, c.
Qed.

End StringFacts.

(** ** utility.go *)

Section Utility.
Import GoString.
Local Open Scope nat_scope.

Lemma Index_occurs (s sub : string) (i : nat) :
  occurs_at sub s i -> exists j, Index s sub = Some j /\ j <= i.
Proof.
  intros H. destruct (Index s sub) as [j|] eqn:E.
  - exists j. split; [reflexivity|]. eapply Index_leftmost; eauto.
  - exfalso. eapply Index_None; eauto. now exists i.
Qed.

Lemma Replace1_absent (s old new : string) :
  ~ occurs old s -> Replace1 s old new = s.
Proof.
  intros H. unfold Replace1. destruct (String.eqb old new); [reflexivity|].
  destruct (Index s old) as [j|] eqn:E; [|reflexivity].
  exfalso. apply H. exists j. now apply Index_Some.
Qed.

Lemma Replace1_first (a old c new : string) :
  old <> new ->
  (forall i, occurs_at old (a +:+ old +:+ c) i -> len a <= i) ->
  Replace1 (a +:+ old +:+ c) old new = a +:+ new +:+ c.
Proof.
  intros Hne Hfirst. unfold Replace1.
  apply String.eqb_neq in Hne. rewrite Hne.
  destruct (Index_occurs (a +:+ old +:+ c) old (len a)) as (j & E & Hj).
  { now exists a, c. }
  rewrite E. assert (j = len a) as ->.
  { apply Nat.le_antisymm; [exact Hj|]. apply Hfirst. now apply Index_Some. }
  rewrite slice_app_l. rewrite <- len_app, <- (str_app_assoc a old c).
  now rewrite drop_app.
Qed.

Lemma slash_nonempty (p : string) : p +:+ "/" <> "".
Proof. destruct p; discriminate. Qed.

Lemma removePrefix_leading (p r : string) :
  p <> "" -> removePrefixFromObjectPath p (p +:+ "/" +:+ r) = r.
Proof.
  intros Hp. unfold removePrefixFromObjectPath, Sprintf_s_slash.
  apply String.eqb_neq in Hp. rewrite Hp.
  rewrite <- str_app_assoc.
  rewrite <- (str_app_nil_l ((p +:+ "/") +:+ r)).
  rewrite Replace1_first.
  - reflexivity.
  - apply slash_nonempty.
  - intros i _. simpl. lia.
Qed.

End Utility.

(** C10.  For a non-empty prefix [p], [removePrefixFromObjectPath p k] removes
    the first occurrence of [p ++ "/"] from [k], wherever in [k] it stands:
    [k] is returned unchanged when [p ++ "/"] does not occur in it (and
    whenever [p] is empty); when the leftmost occurrence splits [k] as
    [a ++ p ++ "/" ++ c] the result is [a ++ c], which for an [a] that is not
    empty alters a key that merely contains the pattern; and
    [p ++ "/" ++ r] gives [r]. *)
Theorem removePrefixFromObjectPath_first_occurrence (p k : string) :
  (p = "" -> removePrefixFromObjectPath p k = k)
  /\ (p <> "" -> ~ occurs (p +:+ "/") k -> removePrefixFromObjectPath p k = k)
  /\ (p <> "" ->
      forall a c : string,
        k = a +:+ (p +:+ "/") +:+ c ->
        (forall i, occurs_at (p +:+ "/") k i -> (GoString.len a <= i)%nat) ->
        removePrefixFromObjectPath p k = a +:+ c
        /\ (removePrefixFromObjectPath p k <> k))
  /\ (p <> "" -> forall r : string, k = p +:+ "/" +:+ r ->
      removePrefixFromObjectPath p k = r).
Proof.
  split; [|split; [|split]].
  - intros ->. reflexivity.
  - intros Hp Habs. unfold removePrefixFromObjectPath.
    apply String.eqb_neq in Hp. rewrite Hp. now apply Replace1_absent.
  - intros Hp a c -> Hfirst.
    unfold removePrefixFromObjectPath, GoString.Sprintf_s_slash.
    apply String.eqb_neq in Hp. rewrite Hp.
    rewrite Replace1_first; [| apply slash_nonempty | assumption].
    rewrite str_app_nil_l. split; [reflexivity|]. intros E.
    apply (f_equal GoString.len) in E. rewrite !len_app in E.
    unfold GoString.len in E. simpl in E. lia.
  - intros Hp r ->. now apply removePrefix_leading.
Qed.

(** A key that contains the pattern in the middle: ["x/a/b"] under the
    prefix ["a"] loses its inner ["a/"]. *)
Lemma removePrefixFromObjectPath_first_occurrence_witness :
  removePrefixFromObjectPath "a" "x/a/b" = "x/" +:+ "b"
  /\ removePrefixFromObjectPath "a" "x/a/b" <> "x/a/b".
Proof.
  refine (proj1 (proj2 (proj2
            (removePrefixFromObjectPath_first_occurrence "a" "x/a/b")))
            _ "x/" "b" eq_refl _).
  - discriminate.
  - exact (Index_leftmost "x/a/b" "a/" 2 eq_refl).
Defined.

(** ** The S3 backend: not-found classification *)

Section Contains.
Import GoString.
Local Open Scope nat_scope.

Lemma containsSubstring_occurs (s sub : string) :
  containsSubstring s sub = true -> occurs sub s.
Proof.
  unfold containsSubstring.
  destruct (len s <? len sub) eqn:Hlt; [discriminate|].
  apply Nat.ltb_ge in Hlt. intros H.
  apply existsb_exists in H as (i & Hi & E).
  apply in_seq in Hi. apply String.eqb_eq in E.
  unfold slice in E. replace (i + len sub - i) with (len sub) in E by lia.
  destruct (substring_split s i (len sub) ltac:(lia)) as [Hs Hl].
  exists i, (String.substring 0 i s), (drop (i + len sub) s).
  rewrite E in Hs. now split.
Qed.

Lemma occurs_containsSubstring (s sub : string) :
  occurs sub s -> containsSubstring s sub = true.
Proof.
  intros (i & a & c & -> & <-). unfold containsSubstring.
  rewrite !len_app.
  destruct (len a + (len sub + len c) <? len sub) eqn:Hlt.
  { apply Nat.ltb_lt in Hlt. lia. }
  apply existsb_exists. exists (len a). split.
  - apply in_seq. lia.
  - apply String.eqb_eq. unfold slice.
    replace (len a + len sub - len a) with (len sub) by lia.
    apply substring_app_mid.
Qed.

Lemma contains_occurs (s sub : string) :
  contains s sub = true <-> occurs sub s.
Proof.
  unfold contains. split.
  - intros H. apply andb_true_iff in H as [_ H].
    apply orb_true_iff in H as [H|H].
    + apply String.eqb_eq in H as ->. exists 0, "", "".
      now rewrite str_app_nil_l, str_app_nil_r.
    + apply andb_true_iff in H as [_ H]. now apply containsSubstring_occurs.
  - intros H. pose proof (occurs_containsSubstring _ _ H) as Hc.
    destruct H as (i & a & c & -> & <-).
    apply andb_true_iff. split.
    + apply Nat.leb_le. rewrite !len_app. lia.
    + rewrite Hc, andb_true_r.
      destruct (String.eqb (a +:+ sub +:+ c) sub) eqn:He; [reflexivity|].
      simpl. apply Nat.ltb_lt.
      destruct (len (a +:+ sub +:+ c)) eqn:Hl; [|lia].
      exfalso. apply String.eqb_neq in He. apply He.
      rewrite !len_app in Hl.
      assert (a = "") as -> by (apply len_zero; lia).
      assert (c = "") as -> by (apply len_zero; lia).
      now rewrite str_app_nil_l, str_app_nil_r.
Qed.

Lemma isS3NotFoundError_spec (e : error) :
  isS3NotFoundError (Some e) = true <-> not_found_text (Error e).
Proof.
  unfold isS3NotFoundError, not_found_text.
  rewrite !orb_true_iff, !contains_occurs. tauto.
Qed.

Lemma classify_s3_classified (e : error) (ce : ae.CustomErr) :
  s3_classified e ce (S3Backend.classify e ce).
Proof.
  unfold s3_classified, S3Backend.classify.
  destruct (isS3NotFoundError (Some e)) eqn:H; simpl;
    (split; [reflexivity|]; split; [reflexivity|]).
  - left. split; [now apply isS3NotFoundError_spec | reflexivity].
  - right. split; [|reflexivity].
    intros Hn. apply isS3NotFoundError_spec in Hn. congruence.
Qed.

End Contains.

Section S3Errors.
Context {W : Type} (b : S3Backend.t W).

(** Every error [GetObjects] returns is an error of a list call of the
    client, classified. *)
Lemma GetObjects_loop_error (fuel : nat) (fullPrefix : string)
  (input : s3.ListObjectsInput.t) (objects : list Object) (w : W)
  (objs : list Object) (appErr : ae.AppError) (w' : W) :
  S3Backend.GetObjects_loop b fuel fullPrefix input objects w
    = (Returned (objs, Some appErr), w') ->
  exists input' w0 err,
    @ListObjectsWithContext W (S3Backend.Client b) input' w0 = (inr err, w')
    /\ s3_classified err S3GetObjects appErr.
Proof.
  revert input objects w. induction fuel as [|fuel IH]; intros input objects w.
  - discriminate.
  - simpl.
    destruct (ListObjectsWithContext input w) as [[page|err] w1] eqn:Hcall.
    + destruct (S3Backend.range_Contents _ _ _) as [objects'|]; [|discriminate].
      destruct (S3Backend.not_truncated page); [discriminate|].
      destruct (last _) as [lastObj|]; [|discriminate].
      apply IH.
    + intros [= <- <- <-]. exists input, w, err. split; [assumption|].
      apply classify_s3_classified.
Qed.

End S3Errors.

(** C4.  Whenever the S3 client fails on GetObject, DeleteObject or
    CopyObject, and whenever GetObjects returns an error (which is then the
    error of one of its list calls), the application error handed back wraps
    that client error and is not-found (HTTP 404) exactly when the text of
    the error contains "NoSuchKey", "NotFound" or "404"; otherwise it is
    internal (HTTP 500). *)
Theorem s3_not_found_classification {W : Type} (b : S3Backend.t W) (w : W) :
  (forall path input err w1,
      input = {| s3.GetObjectInput.Bucket := Some (S3Backend.Bucket b);
                 s3.GetObjectInput.Key :=
                   Some (pathutil.Join [S3Backend.Prefix b; path]) |} ->
      @GetObjectWithContext W (S3Backend.Client b) input w = (inr err, w1) ->
      exists appErr,
        S3Backend.GetObject b path w
          = ((set_Path Object_zero path, Some appErr), w1)
        /\ s3_classified err S3GetObject appErr)
  /\ (forall fuel prefix objs appErr w1,
         S3Backend.GetObjects b fuel prefix w = (Returned (objs, Some appErr), w1) ->
         exists input w0 err,
           @ListObjectsWithContext W (S3Backend.Client b) input w0 = (inr err, w1)
           /\ s3_classified err S3GetObjects appErr)
  /\ (forall fuel prefix input err w1,
         input = list_request (S3Backend.Bucket b)
                   (pathutil.Join [S3Backend.Prefix b; prefix]) None ->
         @ListObjectsWithContext W (S3Backend.Client b) input w = (inr err, w1) ->
         exists appErr,
           S3Backend.GetObjects b (S fuel) prefix w
             = (Returned ([], Some appErr), w1)
           /\ s3_classified err S3GetObjects appErr)
  /\ (forall path input err w1,
         input = {| s3.DeleteObjectInput.Bucket := Some (S3Backend.Bucket b);
                    s3.DeleteObjectInput.Key :=
                      Some (pathutil.Join [S3Backend.Prefix b; path]) |} ->
         @DeleteObjectWithContext W (S3Backend.Client b) input w = (Some err, w1) ->
         exists appErr,
           S3Backend.DeleteObject b path w = (Some appErr, w1)
           /\ s3_classified err S3DeleteObject appErr)
  /\ (forall srcPath dstPath input err w1,
         input = {| s3.CopyObjectInput.Bucket := Some (S3Backend.Bucket b);
                    s3.CopyObjectInput.CopySource :=
                      Some (url.PathEscape
                              (pathutil.Join [S3Backend.Bucket b; S3Backend.Prefix b;
                                              srcPath]));
                    s3.CopyObjectInput.Key :=
                      Some (pathutil.Join [S3Backend.Prefix b; dstPath]) |} ->
         @CopyObjectWithContext W (S3Backend.Client b) input w = (Some err, w1) ->
         exists appErr,
           S3Backend.CopyObject b srcPath dstPath w = (Some appErr, w1)
           /\ s3_classified err S3CopyObject appErr).
Proof.
  split; [|split; [|split; [|split]]].
  - intros path input err w1 -> Hcall. eexists. split.
    + unfold S3Backend.GetObject, aws.String. rewrite Hcall. reflexivity.
    + apply classify_s3_classified.
  - intros fuel prefix objs appErr w1 Hrun.
    eapply GetObjects_loop_error. exact Hrun.
  - intros fuel prefix input err w1 -> Hcall. eexists. split.
    + unfold S3Backend.GetObjects. cbn [S3Backend.GetObjects_loop].
      unfold list_request, aws.String in *. rewrite Hcall. reflexivity.
    + apply classify_s3_classified.
  - intros path input err w1 -> Hcall. eexists. split.
    + unfold S3Backend.DeleteObject, aws.String. rewrite Hcall. reflexivity.
    + apply classify_s3_classified.
  - intros srcPath dstPath input err w1 -> Hcall. eexists. split.
    + unfold S3Backend.CopyObject, aws.String. rewrite Hcall. reflexivity.
    + apply classify_s3_classified.
Qed.

(** A missing key on GetObject, and a bucket that cannot be read on
    GetObjects: the first is classified by the word NoSuchKey in its text,
    the second has none of the three words. *)
Lemma s3_not_found_classification_witness :
  (exists appErr,
      S3Backend.GetObject (MockS3.backend "bkt" "pre") "a.txt"
        (MockS3.failing MemBucket.NoSuchKey)
      = ((set_Path Object_zero "a.txt", Some appErr),
         MockS3.record
           (MockS3.GetObject
              {| s3.GetObjectInput.Bucket := Some "bkt";
                 s3.GetObjectInput.Key := Some "pre/a.txt" |})
           (MockS3.failing MemBucket.NoSuchKey))
      /\ s3_classified MemBucket.NoSuchKey S3GetObject appErr)
  /\ (exists appErr,
         S3Backend.GetObjects (MockS3.backend "bkt" "pre") 1 "test"
           (MockS3.failing (errors_New "AccessDenied: Access Denied"))
         = (Returned ([], Some appErr),
            MockS3.record
              (MockS3.ListObjects (list_request "bkt" "pre/test" None))
              (MockS3.set_listResults []
                 (MockS3.failing (errors_New "AccessDenied: Access Denied"))))
         /\ s3_classified (errors_New "AccessDenied: Access Denied")
              S3GetObjects appErr).
Proof.
  split.
  - exact (proj1 (s3_not_found_classification (MockS3.backend "bkt" "pre")
                    (MockS3.failing MemBucket.NoSuchKey))
             "a.txt" _ MemBucket.NoSuchKey _ eq_refl eq_refl).
  - exact (proj1 (proj2 (proj2 (s3_not_found_classification
                                  (MockS3.backend "bkt" "pre")
                                  (MockS3.failing
                                     (errors_New "AccessDenied: Access Denied")))))
             0%nat "test" _ (errors_New "AccessDenied: Access Denied") _
             eq_refl eq_refl).
Defined.

(** ** The S3 backend: listing *)

Section S3Listing.
Context {W : Type} (b : S3Backend.t W).

Lemma range_Contents_ok (fullPrefix : string) (cs : list s3.Object.t)
  (objects : list Object) :
  Forall entry_ok cs ->
  S3Backend.range_Contents fullPrefix cs objects
    = Some (objects ++ (entry_object fullPrefix <$> cs)).
Proof.
  intros H. revert objects. induction H as [|e cs [[k Hk] [t Ht]] _ IH];
    intros objects; simpl.
  - now rewrite app_nil_r.
  - rewrite Hk, Ht, IH, <- app_assoc. simpl.
    unfold entry_object. now rewrite Hk, Ht.
Qed.

Lemma range_Contents_Some (fullPrefix : string) (cs : list s3.Object.t)
  (objects objects' : list Object) :
  S3Backend.range_Contents fullPrefix cs objects = Some objects' ->
  Forall entry_ok cs /\ objects' = objects ++ (entry_object fullPrefix <$> cs).
Proof.
  revert objects. induction cs as [|e cs IH]; intros objects; simpl.
  - intros [= <-]. split; [constructor | now rewrite app_nil_r].
  - destruct (s3.Object.Key e) as [k|] eqn:Hk; [|discriminate].
    destruct (s3.Object.LastModified e) as [t|] eqn:Ht; [|discriminate].
    intros H. destruct (IH _ H) as [Hok ->]. split.
    + constructor; [|assumption]. split; eauto.
    + rewrite <- app_assoc. simpl. unfold entry_object. now rewrite Hk, Ht.
Qed.

(** What one iteration of the loop does with a page whose entries could
    all be read. *)
Lemma GetObjects_loop_page (fuel : nat) (fullPrefix : string)
  (input : s3.ListObjectsInput.t) (objects objects' : list Object) (w w1 : W)
  (page : s3.ListObjectsOutput.t) :
  @ListObjectsWithContext W (S3Backend.Client b) input w = (inl page, w1) ->
  S3Backend.range_Contents fullPrefix (s3.ListObjectsOutput.Contents page) objects
    = Some objects' ->
  S3Backend.GetObjects_loop b (S fuel) fullPrefix input objects w =
    if S3Backend.not_truncated page then (Returned (objects', None), w1)
    else match last (s3.ListObjectsOutput.Contents page) with
         | None => (Panicked IndexOutOfRange, w1)
         | Some lastObj =>
             S3Backend.GetObjects_loop b fuel fullPrefix
               (s3.ListObjectsInput.set_Marker input (s3.Object.Key lastObj))
               objects' w1
         end.
Proof. intros Hcall Hrange. simpl. now rewrite Hcall, Hrange. Qed.

Lemma GetObjects_loop_failed_page (fuel : nat) (fullPrefix : string)
  (input : s3.ListObjectsInput.t) (objects : list Object) (w w1 : W)
  (err : error) :
  @ListObjectsWithContext W (S3Backend.Client b) input w = (inr err, w1) ->
  S3Backend.GetObjects_loop b (S fuel) fullPrefix input objects w
    = (Returned (objects, Some (S3Backend.classify err S3GetObjects)), w1).
Proof. intros Hcall. simpl. now rewrite Hcall. Qed.

(** No out-of-range panic when the client never answers with a truncated
    page that holds no entry. *)
Lemma GetObjects_loop_in_bounds (fuel : nat) (fullPrefix : string) :
  (forall input w page w1,
      @ListObjectsWithContext W (S3Backend.Client b) input w = (inl page, w1) ->
      truncated page -> s3.ListObjectsOutput.Contents page <> []) ->
  forall input objects w,
    (S3Backend.GetObjects_loop b fuel fullPrefix input objects w).1
      <> Panicked IndexOutOfRange.
Proof.
  intros Hclient. induction fuel as [|fuel IH]; intros input objects w; simpl.
  - discriminate.
  - destruct (ListObjectsWithContext input w) as [[page|err] w1] eqn:Hcall;
      [|discriminate].
    destruct (S3Backend.range_Contents _ _ _) as [objects'|]; [|discriminate].
    destruct (S3Backend.not_truncated page) eqn:Ht; [discriminate|].
    destruct (last _) as [lastObj|] eqn:Hlast; [apply IH|].
    exfalso. apply (Hclient _ _ _ _ Hcall).
    + unfold S3Backend.not_truncated, truncated in *.
      destruct (s3.ListObjectsOutput.IsTruncated page) as [[]|]; now try discriminate.
    + now apply last_None.
Qed.

(** Every Object the loop adds has no content. *)
Lemma range_Contents_empty_content (fullPrefix : string) (cs : list s3.Object.t)
  (objects objects' : list Object) :
  Forall (fun o => Content o = []) objects ->
  S3Backend.range_Contents fullPrefix cs objects = Some objects' ->
  Forall (fun o => Content o = []) objects'.
Proof.
  revert objects. induction cs as [|e cs IH]; intros objects Hall; simpl.
  - now intros [= <-].
  - destruct (s3.Object.Key e), (s3.Object.LastModified e); try discriminate.
    apply IH. apply Forall_app. split; [assumption|]. now constructor.
Qed.

Lemma GetObjects_loop_empty_content (fuel : nat) (fullPrefix : string)
  (input : s3.ListObjectsInput.t) (objects : list Object) (w : W)
  (objs : list Object) (r : option ae.AppError) (w' : W) :
  Forall (fun o => Content o = []) objects ->
  S3Backend.GetObjects_loop b fuel fullPrefix input objects w
    = (Returned (objs, r), w') ->
  Forall (fun o => Content o = []) objs.
Proof.
  revert input objects w. induction fuel as [|fuel IH];
    intros input objects w Hall; simpl; [discriminate|].
  destruct (ListObjectsWithContext input w) as [[page|err] w1].
  - destruct (S3Backend.range_Contents _ _ _) as [objects'|] eqn:Hr;
      [|discriminate].
    pose proof (range_Contents_empty_content _ _ _ _ Hall Hr) as Hall'.
    destruct (S3Backend.not_truncated page).
    + now intros [= <- <- <-].
    + destruct (last _); [|discriminate]. now apply IH.
  - now intros [= <- <- <-].
Qed.

End S3Listing.

(** *** Listing against the mock: the requests sent and the pages read *)

Section S3Pagination.
Variables bucket prefix : string.

Let b := MockS3.backend bucket prefix.

Lemma mock_after_record (c : MockS3.Call)
  (rs rest : list (s3.ListObjectsOutput.t + error)) (cs : list MockS3.Call)
  (w : MockS3.World) :
  mock_after (MockS3.record c (MockS3.set_listResults rs w)) rest cs
    = mock_after w rest (c :: cs).
Proof. unfold mock_after. simpl. now rewrite <- app_assoc. Qed.

Lemma mock_after_step (c : MockS3.Call)
  (rs rest : list (s3.ListObjectsOutput.t + error)) (cs : list MockS3.Call)
  (w : MockS3.World) :
  MockS3.record c (MockS3.set_listResults rest (mock_after w rs cs))
    = mock_after w rest (cs ++ [c]).
Proof. unfold mock_after, MockS3.record. simpl. now rewrite <- app_assoc. Qed.

Lemma mock_after_nil (w : MockS3.World) :
  mock_after w (MockS3.listResults w) [] = w.
Proof. destruct w. unfold mock_after. simpl. now rewrite app_nil_r. Qed.

Lemma requests_from_snoc (fullPrefix : string) (m : option string)
  (ps : list s3.ListObjectsOutput.t) :
  requests_from bucket fullPrefix m ps
    ++ [list_request bucket fullPrefix (marker_after m ps)]
  = list_request bucket fullPrefix m
      :: ((fun p => list_request bucket fullPrefix (last_key p)) <$> ps).
Proof.
  revert m. induction ps as [|p ps IH]; intros m; simpl; [reflexivity|].
  now rewrite IH.
Qed.

Lemma paged_requests_calls (fullPrefix : string)
  (ps : list s3.ListObjectsOutput.t) :
  (MockS3.ListObjects <$> requests_from bucket fullPrefix None ps)
    ++ [MockS3.ListObjects
          (list_request bucket fullPrefix (marker_after None ps))]
  = MockS3.ListObjects <$> paged_requests bucket fullPrefix ps.
Proof.
  unfold paged_requests. rewrite <- requests_from_snoc.
  now rewrite fmap_app.
Qed.

(** The loop over pages after each of which the listing goes on. *)
Lemma GetObjects_loop_continued (fullPrefix : string)
  (ps : list s3.ListObjectsOutput.t) :
  Forall continued_page ps ->
  forall (k : nat) (m : option string) (objects : list Object)
         (w : MockS3.World) (rest : list (s3.ListObjectsOutput.t + error)),
    MockS3.listResults w = (inl <$> ps) ++ rest ->
    S3Backend.GetObjects_loop b (length ps + k) fullPrefix
      (list_request bucket fullPrefix m) objects w
    = S3Backend.GetObjects_loop b k fullPrefix
        (list_request bucket fullPrefix (marker_after m ps))
        (objects ++ pages_objects fullPrefix ps)
        (mock_after w rest
           (MockS3.ListObjects <$> requests_from bucket fullPrefix m ps)).
Proof.
  induction 1 as [|p ps (Ht & Hne & Hok) _ IH]; intros k m objects w rest Hw.
  - simpl in *. unfold pages_objects. simpl. rewrite app_nil_r.
    now rewrite <- Hw, mock_after_nil.
  - cbn [length plus].
    erewrite GetObjects_loop_page; cycle 1.
    + simpl. rewrite Hw. reflexivity.
    + now apply range_Contents_ok.
    + unfold S3Backend.not_truncated. unfold truncated in Ht. rewrite Ht. simpl.
      destruct (last (s3.ListObjectsOutput.Contents p)) as [lastObj|] eqn:Hl.
      * change (s3.ListObjectsInput.set_Marker (list_request bucket fullPrefix m)
                  (s3.Object.Key lastObj))
          with (list_request bucket fullPrefix (s3.Object.Key lastObj)).
        rewrite (IH k (s3.Object.Key lastObj) _ _ rest); [|reflexivity].
        rewrite mock_after_record. unfold last_key. rewrite Hl. simpl.
        unfold pages_objects. simpl. now rewrite app_assoc.
      * now apply last_None in Hl.
Qed.

(** A run that returns without an error has read pages of just that
    shape. *)
Lemma GetObjects_loop_returned (fullPrefix : string) (fuel : nat) :
  forall (m : option string) (objects : list Object) (w : MockS3.World)
         (objs : list Object) (w' : MockS3.World),
    S3Backend.GetObjects_loop b fuel fullPrefix
      (list_request bucket fullPrefix m) objects w
    = (Returned (objs, None), w') ->
    exists ps lastp rest,
      MockS3.listResults w = (inl <$> ps ++ [lastp]) ++ rest
      /\ Forall continued_page ps
      /\ page_ok lastp /\ ~ truncated lastp
      /\ objs = objects ++ pages_objects fullPrefix (ps ++ [lastp])
      /\ w' = mock_after w rest
                 (MockS3.ListObjects
                    <$> (requests_from bucket fullPrefix m ps
                           ++ [list_request bucket fullPrefix (marker_after m ps)])).
Proof.
  induction fuel as [|fuel IH]; intros m objects w objs w'; [discriminate|].
  cbn [S3Backend.GetObjects_loop].
  change (@ListObjectsWithContext _ (S3Backend.Client b)
            (list_request bucket fullPrefix m) w)
    with (match MockS3.listResults w with
          | [] => (inr MockS3.unexpected,
                   MockS3.record
                     (MockS3.ListObjects (list_request bucket fullPrefix m)) w)
          | r :: rs =>
              (r, MockS3.record
                    (MockS3.ListObjects (list_request bucket fullPrefix m))
                    (MockS3.set_listResults rs w))
          end).
  destruct (MockS3.listResults w) as [|[page|err] rs] eqn:Hw; try discriminate.
  destruct (S3Backend.range_Contents _ _ _) as [objects'|] eqn:Hr;
    [|discriminate].
  apply range_Contents_Some in Hr as [Hok ->].
  destruct (S3Backend.not_truncated page) eqn:Ht.
  - intros [= <- <-]. exists [], page, rs.
    split; [reflexivity|]. split; [constructor|]. split; [exact Hok|].
    split; [|split].
    + unfold truncated, S3Backend.not_truncated in *.
      destruct (s3.ListObjectsOutput.IsTruncated page) as [[]|];
        simpl in Ht; congruence.
    + unfold pages_objects. simpl. now rewrite app_nil_r.
    + reflexivity.
  - destruct (last _) as [lastObj|] eqn:Hl; [|discriminate].
    change (s3.ListObjectsInput.set_Marker (list_request bucket fullPrefix m)
              (s3.Object.Key lastObj))
      with (list_request bucket fullPrefix (s3.Object.Key lastObj)).
    intros Hrun.
    destruct (IH _ _ _ _ _ Hrun) as (ps & lastp & rest & Hrs & Hps & Hlok & Hlt
                                        & -> & ->).
    simpl in Hrs. subst rs.
    assert (Hlk : last_key page = s3.Object.Key lastObj)
      by (unfold last_key; now rewrite Hl).
    exists (page :: ps), lastp, rest.
    split; [reflexivity|]. split; [|split; [exact Hlok|split; [exact Hlt|split]]].
    + constructor; [|assumption]. split; [|split; [|exact Hok]].
      * unfold truncated, S3Backend.not_truncated in *.
        destruct (s3.ListObjectsOutput.IsTruncated page) as [[]|];
          simpl in Ht; congruence.
      * intros E. rewrite E in Hl. discriminate.
    + unfold pages_objects. simpl. now rewrite app_assoc.
    + rewrite mock_after_record. simpl. now rewrite Hlk.
Qed.

End S3Pagination.

(** The listing over pages of the expected shape. *)
Lemma GetObjects_pages_run (bucket prefix listing : string)
  (ps : list s3.ListObjectsOutput.t) (lastp : s3.ListObjectsOutput.t)
  (rest : list (s3.ListObjectsOutput.t + error)) (w : MockS3.World) (fuel : nat) :
  Forall continued_page ps ->
  page_ok lastp ->
  (s3.ListObjectsOutput.IsTruncated lastp = None
   \/ s3.ListObjectsOutput.IsTruncated lastp = Some false) ->
  MockS3.listResults w = (inl <$> ps ++ [lastp]) ++ rest ->
  (length ps < fuel)%nat ->
  S3Backend.GetObjects (MockS3.backend bucket prefix) fuel listing w
  = (Returned (pages_objects (pathutil.Join [prefix; listing]) (ps ++ [lastp]), None),
     mock_after w rest
       (MockS3.ListObjects
          <$> paged_requests bucket (pathutil.Join [prefix; listing]) ps)).
Proof.
  intros Hps Hok Hlast Hw Hfuel.
  unfold S3Backend.GetObjects. simpl S3Backend.Prefix. simpl S3Backend.Bucket.
  set (fp := pathutil.Join [prefix; listing]).
  replace fuel with (length ps + S (fuel - S (length ps)))%nat by lia.
  change {| s3.ListObjectsInput.Bucket := aws.String bucket;
            s3.ListObjectsInput.Prefix := aws.String fp;
            s3.ListObjectsInput.Marker := None |}
    with (list_request bucket fp None).
  rewrite fmap_app, <- app_assoc in Hw.
  rewrite (GetObjects_loop_continued bucket prefix fp ps Hps _ None [] w _ Hw).
  erewrite GetObjects_loop_page; cycle 1.
  - simpl. reflexivity.
  - now apply range_Contents_ok.
  - assert (S3Backend.not_truncated lastp = true) as ->.
    { unfold S3Backend.not_truncated. now destruct Hlast as [-> | ->]. }
    f_equal.
    + unfold pages_objects. rewrite fmap_app, concat_app. simpl.
      now rewrite app_nil_r.
    + rewrite mock_after_step. f_equal. apply paged_requests_calls.
Qed.

(** C2.  Marker-based pagination, against the mock client.  Let the client
    answer the list calls with the pages [ps], after each of which the
    listing goes on (truncated, with entries), and then with a page [lastp]
    whose IsTruncated is nil or false.  Then GetObjects, given fuel for these
    iterations, sends exactly one request per page, the first without a
    marker and each later one with the last key of the page before it as its
    Marker; it stops at [lastp], leaving whatever the client would have
    answered next untouched; and it returns the Objects of all these pages,
    in order, and no error.  Conversely, whatever the client answers, a call
    that returns without an error has stopped at a page whose IsTruncated is
    nil or false, after truncated pages only, with these requests and these
    Objects. *)
Theorem GetObjects_marker_pagination (bucket prefix listing : string)
  (w : MockS3.World) (fuel : nat) :
  (forall (ps : list s3.ListObjectsOutput.t) (lastp : s3.ListObjectsOutput.t)
          (rest : list (s3.ListObjectsOutput.t + error)),
      Forall continued_page ps ->
      page_ok lastp ->
      (s3.ListObjectsOutput.IsTruncated lastp = None
       \/ s3.ListObjectsOutput.IsTruncated lastp = Some false) ->
      MockS3.listResults w = (inl <$> ps ++ [lastp]) ++ rest ->
      (length ps < fuel)%nat ->
      S3Backend.GetObjects (MockS3.backend bucket prefix) fuel listing w
      = (Returned (pages_objects (pathutil.Join [prefix; listing]) (ps ++ [lastp]),
                   None),
         mock_after w rest
           (MockS3.ListObjects
              <$> paged_requests bucket (pathutil.Join [prefix; listing]) ps)))
  /\ (forall (objs : list Object) (w' : MockS3.World),
         S3Backend.GetObjects (MockS3.backend bucket prefix) fuel listing w
         = (Returned (objs, None), w') ->
         exists ps lastp rest,
           MockS3.listResults w = (inl <$> ps ++ [lastp]) ++ rest
           /\ Forall continued_page ps
           /\ page_ok lastp
           /\ (s3.ListObjectsOutput.IsTruncated lastp = None
               \/ s3.ListObjectsOutput.IsTruncated lastp = Some false)
           /\ objs = pages_objects (pathutil.Join [prefix; listing]) (ps ++ [lastp])
           /\ w' = mock_after w rest
                     (MockS3.ListObjects
                        <$> paged_requests bucket (pathutil.Join [prefix; listing])
                              ps)).
Proof.
  split.
  - intros ps lastp rest. apply GetObjects_pages_run.
  - intros objs w' Hrun. unfold S3Backend.GetObjects in Hrun.
    apply (GetObjects_loop_returned bucket prefix) in Hrun
      as (ps & lastp & rest & Hw & Hps & Hok & Hlt & -> & ->).
    exists ps, lastp, rest.
    split; [exact Hw|]. split; [exact Hps|]. split; [exact Hok|].
    split; [|split].
    + unfold truncated in Hlt.
      destruct (s3.ListObjectsOutput.IsTruncated lastp) as [[]|]; auto.
      now contradiction Hlt.
    + reflexivity.
    + now rewrite requests_from_snoc.
Qed.

(** ** The GCS backend: listing *)

Section GCSListing.

(** The loop over results of the iterator that are objects. *)
Lemma GetObjects_loop_steps (prefix : string) (steps : list storage.ObjectAttrs.t)
  (it : storage.ObjectIterator) (objects : list Object) :
  GoogleCSBackend.GetObjects_loop prefix ((inl <$> steps) ++ it) objects
  = GoogleCSBackend.GetObjects_loop prefix it
      (objects ++ (attrs_object prefix <$> steps)).
Proof.
  revert objects. induction steps as [|a steps IH]; intros objects; simpl.
  - now rewrite app_nil_r.
  - rewrite IH, <- app_assoc. reflexivity.
Qed.

Lemma GetObjects_loop_gcs_empty_content (prefix : string)
  (it : storage.ObjectIterator) (objects : list Object) :
  Forall (fun o => Content o = []) objects ->
  Forall (fun o => Content o = [])
    (GoogleCSBackend.GetObjects_loop prefix it objects).1.
Proof.
  revert objects. induction it as [|[a|err] it IH]; intros objects Hall; simpl.
  - assumption.
  - apply IH. apply Forall_app. split; [assumption|]. now constructor.
  - now destruct (is_iterator_Done err).
Qed.

(** The loop, told with [Next] as the source has it. *)
Lemma GetObjects_loop_Next (prefix : string) (it : storage.ObjectIterator)
  (objects : list Object) :
  GoogleCSBackend.GetObjects_loop prefix it objects
  = match storage.Next it with
    | (inr err, _) =>
        if is_iterator_Done err then (objects, None)
        else (objects, Some (GoogleCSBackend.classify err GCSGetObjects))
    | (inl attrs, it') =>
        GoogleCSBackend.GetObjects_loop prefix it'
          (objects ++ [attrs_object prefix attrs])
    end.
Proof. destruct it as [|[a|err] it]; reflexivity. Qed.

End GCSListing.

(** C7.  A failed page fetch (S3) or iterator step (GCS) ends the listing at
    once: the call returns the client's error together with the Objects of
    the pages or steps that came before it, and asks the client nothing
    more. *)
Theorem GetObjects_failure_keeps_partial :
  (forall (bucket prefix listing : string) (ps : list s3.ListObjectsOutput.t)
          (err : error) (rest : list (s3.ListObjectsOutput.t + error))
          (w : MockS3.World) (fuel : nat),
      Forall continued_page ps ->
      MockS3.listResults w = (inl <$> ps) ++ inr err :: rest ->
      (length ps < fuel)%nat ->
      exists appErr,
        S3Backend.GetObjects (MockS3.backend bucket prefix) fuel listing w
        = (Returned (pages_objects (pathutil.Join [prefix; listing]) ps, Some appErr),
           mock_after w rest
             (MockS3.ListObjects
                <$> paged_requests bucket (pathutil.Join [prefix; listing]) ps))
        /\ ae.Cause appErr = err /\ ae.Custom appErr = S3GetObjects)
  /\ (forall (W : Type) (b : GoogleCSBackend.t W) (listing : string) (w w1 : W)
             (steps : list storage.ObjectAttrs.t) (err : error)
             (rest : storage.ObjectIterator),
         @Client_Objects W (GoogleCSBackend.Client b)
           {| storage.Query.Prefix :=
                pathutil.Join [GoogleCSBackend.Prefix b; listing] |} w
         = ((inl <$> steps) ++ inr err :: rest, w1) ->
         err <> iterator_Done ->
         exists appErr,
           GoogleCSBackend.GetObjects b listing w
           = ((attrs_object (pathutil.Join [GoogleCSBackend.Prefix b; listing])
                 <$> steps, Some appErr), w1)
           /\ ae.Cause appErr = err /\ ae.Custom appErr = GCSGetObjects).
Proof.
  split.
  - intros bucket prefix listing ps err rest w fuel Hps Hw Hfuel.
    exists (S3Backend.classify err S3GetObjects). split.
    + unfold S3Backend.GetObjects. simpl S3Backend.Prefix. simpl S3Backend.Bucket.
      set (fp := pathutil.Join [prefix; listing]).
      replace fuel with (length ps + S (fuel - S (length ps)))%nat by lia.
      change {| s3.ListObjectsInput.Bucket := aws.String bucket;
                s3.ListObjectsInput.Prefix := aws.String fp;
                s3.ListObjectsInput.Marker := None |}
        with (list_request bucket fp None).
      rewrite (GetObjects_loop_continued bucket prefix fp ps Hps _ None [] w _ Hw).
      erewrite GetObjects_loop_failed_page by (simpl; reflexivity).
      rewrite mock_after_step. do 2 f_equal. apply paged_requests_calls.
    + unfold S3Backend.classify.
      now destruct (isS3NotFoundError (Some err)).
  - intros W b listing w w1 steps err rest Hcall Hne.
    exists (GoogleCSBackend.classify err GCSGetObjects). split.
    + unfold GoogleCSBackend.GetObjects. rewrite Hcall. f_equal.
      rewrite GetObjects_loop_steps. simpl.
      destruct err; [congruence | reflexivity].
    + unfold GoogleCSBackend.classify.
      now destruct (GoogleCSBackend.isNotExist err).
Qed.

(** Three pages, fuel for five iterations: four Objects, and three requests
    with the markers none, ["pre/test/b"] and ["pre/test/c"]; the result the
    mock holds beyond the third page is not asked for. *)
Lemma GetObjects_marker_pagination_witness :
  let run :=
    S3Backend.GetObjects (MockS3.backend "bkt" "pre") 5 "test"
      (MockS3.set_listResults
         ((inl <$> [sample_page_ab; sample_page_c] ++ [sample_page_d])
            ++ [inr MockS3.unexpected])
         MockS3.quiet) in
  run.1 = Returned ([sample_object "a" 1; sample_object "b" 2;
                     sample_object "c" 3; sample_object "d" 4], None)
  /\ MockS3.calls run.2
     = [MockS3.ListObjects (list_request "bkt" "pre/test" None);
        MockS3.ListObjects (list_request "bkt" "pre/test" (Some "pre/test/b"));
        MockS3.ListObjects (list_request "bkt" "pre/test" (Some "pre/test/c"))]
  /\ MockS3.listResults run.2 = [inr MockS3.unexpected].
Proof.
  rewrite (proj1 (GetObjects_marker_pagination "bkt" "pre" "test" _ 5)
             [sample_page_ab; sample_page_c] sample_page_d
             [inr MockS3.unexpected]).
  - repeat split.
  - repeat constructor; simpl; try discriminate; eauto.
  - repeat constructor; simpl; eauto.
  - left. reflexivity.
  - reflexivity.
  - simpl. lia.
Defined.

(** Two pages, then a failure: the two pages' Objects come back with the
    error, after three requests; the page the mock holds behind the failure
    is never asked for. *)
Lemma GetObjects_failure_keeps_partial_witness :
  (exists appErr,
      S3Backend.GetObjects (MockS3.backend "bkt" "pre") 5 "test"
        (MockS3.set_listResults
           ((inl <$> [sample_page_ab; sample_page_c])
              ++ inr (errors_New "RequestTimeout") :: [inl sample_page_d])
           MockS3.quiet)
      = (Returned (pages_objects (pathutil.Join ["pre"; "test"])
                     [sample_page_ab; sample_page_c], Some appErr),
         mock_after
           (MockS3.set_listResults
              ((inl <$> [sample_page_ab; sample_page_c])
                 ++ inr (errors_New "RequestTimeout") :: [inl sample_page_d])
              MockS3.quiet)
           [inl sample_page_d]
           (MockS3.ListObjects
              <$> paged_requests "bkt" (pathutil.Join ["pre"; "test"])
                    [sample_page_ab; sample_page_c]))
      /\ ae.Cause appErr = errors_New "RequestTimeout"
      /\ ae.Custom appErr = S3GetObjects)
  /\ (exists appErr,
         GoogleCSBackend.GetObjects (MockGCS.backend "pre") "test"
           (MockGCS.set_objectsResult
              ((inl <$> [sample_attrs "pre/test/a" 1; sample_attrs "pre/test/b" 2])
                 ++ inr (errors_New "context canceled")
                      :: [inl (sample_attrs "pre/test/c" 3)])
              MockGCS.quiet)
         = ((attrs_object (pathutil.Join ["pre"; "test"])
               <$> [sample_attrs "pre/test/a" 1; sample_attrs "pre/test/b" 2],
             Some appErr),
            MockGCS.record
              (MockGCS.Objects
                 {| storage.Query.Prefix := pathutil.Join ["pre"; "test"] |})
              (MockGCS.set_objectsResult
                 ((inl <$> [sample_attrs "pre/test/a" 1; sample_attrs "pre/test/b" 2])
                    ++ inr (errors_New "context canceled")
                         :: [inl (sample_attrs "pre/test/c" 3)])
                 MockGCS.quiet))
         /\ ae.Cause appErr = errors_New "context canceled"
         /\ ae.Custom appErr = GCSGetObjects).
Proof.
  split.
  - apply (proj1 GetObjects_failure_keeps_partial).
    + repeat constructor; simpl; try discriminate; eauto.
    + reflexivity.
    + simpl. lia.
  - apply (proj2 GetObjects_failure_keeps_partial _ (MockGCS.backend "pre")
             "test" _ _ [sample_attrs "pre/test/a" 1; sample_attrs "pre/test/b" 2]
             (errors_New "context canceled")
             [inl (sample_attrs "pre/test/c" 3)]).
    + reflexivity.
    + discriminate.
Defined.

(** C9.  In the loop of [S3Backend.GetObjects], a page whose IsTruncated is
    nil or false ends the call before the marker is touched; the marker is
    set only behind a truncated page, to the key of its last entry; and a
    truncated page without entries makes the index [len(Contents)-1] run out
    of range.  So the index stays in bounds on every run provided the client
    never answers with a truncated page that has no entry, and without that
    proviso the panic is reached (the mock that answers with such a page). *)
Theorem GetObjects_marker_index_bounds {W : Type} (b : S3Backend.t W) :
  (forall fuel fullPrefix input objects objects' w w1 page,
      @ListObjectsWithContext W (S3Backend.Client b) input w = (inl page, w1) ->
      S3Backend.range_Contents fullPrefix (s3.ListObjectsOutput.Contents page)
        objects = Some objects' ->
      (~ truncated page ->
       S3Backend.GetObjects_loop b (S fuel) fullPrefix input objects w
       = (Returned (objects', None), w1))
      /\ (truncated page -> s3.ListObjectsOutput.Contents page = [] ->
          S3Backend.GetObjects_loop b (S fuel) fullPrefix input objects w
          = (Panicked IndexOutOfRange, w1))
      /\ (truncated page ->
          forall lastObj,
            last (s3.ListObjectsOutput.Contents page) = Some lastObj ->
            S3Backend.GetObjects_loop b (S fuel) fullPrefix input objects w
            = S3Backend.GetObjects_loop b fuel fullPrefix
                (s3.ListObjectsInput.set_Marker input (s3.Object.Key lastObj))
                objects' w1))
  /\ ((forall input w page w1,
          @ListObjectsWithContext W (S3Backend.Client b) input w = (inl page, w1) ->
          truncated page -> s3.ListObjectsOutput.Contents page <> []) ->
      forall fuel prefix w,
        (S3Backend.GetObjects b fuel prefix w).1 <> Panicked IndexOutOfRange)
  /\ (forall bucket prefix listing fuel,
         (S3Backend.GetObjects (MockS3.backend bucket prefix) (S fuel) listing
            (MockS3.set_listResults [inl sample_page_hollow] MockS3.quiet)).1
         = Panicked IndexOutOfRange).
Proof.
  split; [|split].
  - intros fuel fullPrefix input objects objects' w w1 page Hcall Hrange.
    rewrite (GetObjects_loop_page b fuel fullPrefix input objects objects' w w1 page
               Hcall Hrange).
    unfold truncated, S3Backend.not_truncated.
    destruct (s3.ListObjectsOutput.IsTruncated page) as [[]|]; simpl.
    + split; [intros H; now contradiction H|]. split.
      * intros _ ->. reflexivity.
      * intros _ lastObj ->. reflexivity.
    + split; [reflexivity|]. split; discriminate.
    + split; [reflexivity|]. split; discriminate.
  - intros Hclient fuel prefix w. unfold S3Backend.GetObjects.
    now apply GetObjects_loop_in_bounds.
  - reflexivity.
Qed.

(** The in-memory provider never truncates, so listing against it cannot
    panic on the index; and the hollow page does. *)
Lemma GetObjects_marker_index_bounds_witness :
  (S3Backend.GetObjects (MemBucket.s3_backend "bkt" "pre") 3 "test"
     (MemBucket.empty "bkt")).1 <> Panicked IndexOutOfRange
  /\ (S3Backend.GetObjects (MockS3.backend "bkt" "pre") 3 "test"
        (MockS3.set_listResults [inl sample_page_hollow] MockS3.quiet)).1
     = Panicked IndexOutOfRange.
Proof.
  split.
  - apply (proj1 (proj2 (GetObjects_marker_index_bounds
                           (MemBucket.s3_backend "bkt" "pre")))).
    intros input w page w1. simpl.
    destruct (MemBucket.is_bucket _ _); [|discriminate].
    intros [= <- _]. discriminate.
  - apply (proj2 (proj2 (GetObjects_marker_index_bounds
                           (MockS3.backend "bkt" "pre")))).
Defined.

(** C8.  Every Object that GetObjects returns, on either backend, has an
    empty Content: this holds for a successful call (no error) and equally
    for the partial result that comes with an error. *)
Theorem GetObjects_content_empty :
  (forall (W : Type) (b : S3Backend.t W) (fuel : nat) (prefix : string)
          (w w' : W) (objs : list Object) (r : option ae.AppError),
      S3Backend.GetObjects b fuel prefix w = (Returned (objs, r), w') ->
      Forall (fun o => Content o = []) objs)
  /\ (forall (W : Type) (b : GoogleCSBackend.t W) (prefix : string)
             (w w' : W) (objs : list Object) (r : option ae.AppError),
         GoogleCSBackend.GetObjects b prefix w = ((objs, r), w') ->
         Forall (fun o => Content o = []) objs).
Proof.
  split.
  - intros W b fuel prefix w w' objs r Hrun. unfold S3Backend.GetObjects in Hrun.
    eapply GetObjects_loop_empty_content; [|exact Hrun]. constructor.
  - intros W b prefix w w' objs r Hrun. unfold GoogleCSBackend.GetObjects in Hrun.
    destruct (Client_Objects _ w) as [it w1].
    injection Hrun as Hrun _.
    pose proof (GetObjects_loop_gcs_empty_content
                  (pathutil.Join [GoogleCSBackend.Prefix b; prefix]) it []
                  (List.Forall_nil _)) as H.
    now rewrite Hrun in H.
Qed.

(** Listings of a bucket that holds one object with content. *)
Lemma GetObjects_content_empty_witness :
  (S3Backend.GetObjects (MemBucket.s3_backend "bkt" "pre") 1 "test/"
     (MemBucket.store "pre/test/hello.txt" hello (MemBucket.empty "bkt"))).1
  = Returned ([sample_object "hello.txt" 1], None)
  /\ (GoogleCSBackend.GetObjects (MemBucket.gcs_backend "pre") "test/"
        (MemBucket.store "pre/test/hello.txt" hello (MemBucket.empty "bkt"))).1
     = ([sample_object "hello.txt" 1], None)
  /\ Forall (fun o => Content o = []) [sample_object "hello.txt" 1]
  /\ Forall (fun o => Content o = []) [sample_object "hello.txt" 1].
Proof.
  split; [vm_compute; reflexivity|]. split; [vm_compute; reflexivity|]. split.
  - apply (proj1 GetObjects_content_empty _ (MemBucket.s3_backend "bkt" "pre")
             1%nat "test/"
             (MemBucket.store "pre/test/hello.txt" hello (MemBucket.empty "bkt"))
             (MemBucket.store "pre/test/hello.txt" hello (MemBucket.empty "bkt"))
             _ None).
    vm_compute. reflexivity.
  - apply (proj2 GetObjects_content_empty _ (MemBucket.gcs_backend "pre")
             "test/"
             (MemBucket.store "pre/test/hello.txt" hello (MemBucket.empty "bkt"))
             (MemBucket.store "pre/test/hello.txt" hello (MemBucket.empty "bkt"))
             _ None).
    vm_compute. reflexivity.
Defined.

(** ** Which key reaches the client *)


(** Settles [calls_added] when the calls made stand in the goal. *)
Ltac calls_added_here :=
  simpl; rewrite <- ?app_assoc; eexists;
  split; [reflexivity|]; split; [discriminate|]; now repeat constructor.

Section CallsRecorded.

Lemma calls_added_one {C K : Type} (keys_of : C -> list K) (before : list C)
  (c : C) (keys : list K) :
  keys_of c = keys -> calls_added keys_of before (before ++ [c]) keys.
Proof.
  intros H. exists [c]. split; [reflexivity|]. split; [discriminate|].
  now constructor.
Qed.

(** Every list request of one run carries the same Prefix. *)
Lemma mock_GetObjects_loop_calls (bucket prefix fullPrefix : string) (fuel : nat) :
  forall (input : s3.ListObjectsInput.t) (objects : list Object)
         (w : MockS3.World),
    s3.ListObjectsInput.Prefix input = Some fullPrefix ->
    exists new,
      MockS3.calls
        (S3Backend.GetObjects_loop (MockS3.backend bucket prefix) fuel fullPrefix
           input objects w).2
      = MockS3.calls w ++ new
      /\ Forall (fun c => s3_call_keys c = [Some fullPrefix]) new.
Proof.
  induction fuel as [|fuel IH]; intros input objects w Hin.
  - exists []. split; [now rewrite app_nil_r | constructor].
  - cbn [S3Backend.GetObjects_loop].
    assert (exists r w0,
               @ListObjectsWithContext _
                 (S3Backend.Client (MockS3.backend bucket prefix)) input w
               = (r, MockS3.record (MockS3.ListObjects input) w0)
               /\ MockS3.calls w0 = MockS3.calls w) as (r & w0 & -> & Hw0).
    { simpl. destruct (MockS3.listResults w) as [|r rs]; eauto. }
    assert (Hone : MockS3.calls (MockS3.record (MockS3.ListObjects input) w0)
                   = MockS3.calls w ++ [MockS3.ListObjects input])
      by (simpl; now rewrite Hw0).
    assert (Hkeys : Forall (fun c => s3_call_keys c = [Some fullPrefix])
                      [MockS3.ListObjects input])
      by (constructor; [simpl; now rewrite Hin | constructor]).
    destruct r as [page|err]; [|now exists [MockS3.ListObjects input]].
    destruct (S3Backend.range_Contents _ _ _) as [objects'|];
      [|now exists [MockS3.ListObjects input]].
    destruct (S3Backend.not_truncated page);
      [now exists [MockS3.ListObjects input]|].
    destruct (last _) as [lastObj|]; [|now exists [MockS3.ListObjects input]].
    destruct (IH (s3.ListObjectsInput.set_Marker input (s3.Object.Key lastObj))
                objects' (MockS3.record (MockS3.ListObjects input) w0) Hin)
      as (new & -> & Hnew).
    exists (MockS3.ListObjects input :: new). split.
    + now rewrite Hone, <- app_assoc.
    + constructor; [simpl; now rewrite Hin | assumption].
Qed.

End CallsRecorded.

(** C3.  GoogleCSBackend.CopyObject hands [srcPath] and [dstPath] to the
    client as they are: its outcome is the same under any two configured
    prefixes, for every client, and the mock records a copy from the object
    [srcPath] to the object [dstPath].  S3Backend.CopyObject copies from
    [Join(Bucket, Prefix, srcPath)] (path-escaped) to [Join(Prefix, dstPath)].
    And whatever state the mock is in, every call that any other operation of
    either backend makes addresses [Join(Prefix, path)]. *)
Theorem CopyObject_prefix_asymmetry (bucket prefix srcPath dstPath path : string)
  (content : list byte) (fuel : nat) :
  (forall (W : Type) (client : IGCSClient W) (prefix' : string) (w : W),
      GoogleCSBackend.CopyObject
        {| GoogleCSBackend.Prefix := prefix; GoogleCSBackend.Client := client |}
        srcPath dstPath w
      = GoogleCSBackend.CopyObject
          {| GoogleCSBackend.Prefix := prefix'; GoogleCSBackend.Client := client |}
          srcPath dstPath w)
  /\ (forall w : MockGCS.World,
         calls_added gcs_call_keys (MockGCS.calls w)
           (MockGCS.calls
              (GoogleCSBackend.CopyObject (MockGCS.backend prefix) srcPath dstPath
                 w).2)
           [srcPath; dstPath])
  /\ (forall w : MockS3.World,
         calls_added s3_call_keys (MockS3.calls w)
           (MockS3.calls
              (S3Backend.CopyObject (MockS3.backend bucket prefix) srcPath dstPath
                 w).2)
           [Some (url.PathEscape (pathutil.Join [bucket; prefix; srcPath]));
            Some (pathutil.Join [prefix; dstPath])])
  /\ (forall w : MockS3.World,
         calls_added s3_call_keys (MockS3.calls w)
           (MockS3.calls
              (S3Backend.GetObject (MockS3.backend bucket prefix) path w).2)
           [Some (pathutil.Join [prefix; path])]
         /\ calls_added s3_call_keys (MockS3.calls w)
              (MockS3.calls
                 (S3Backend.GetObjects (MockS3.backend bucket prefix) (S fuel)
                    path w).2)
              [Some (pathutil.Join [prefix; path])]
         /\ calls_added s3_call_keys (MockS3.calls w)
              (MockS3.calls
                 (S3Backend.PutObject (MockS3.backend bucket prefix) path content
                    w).2)
              [Some (pathutil.Join [prefix; path])]
         /\ calls_added s3_call_keys (MockS3.calls w)
              (MockS3.calls
                 (S3Backend.DeleteObject (MockS3.backend bucket prefix) path w).2)
              [Some (pathutil.Join [prefix; path])])
  /\ (forall w : MockGCS.World,
         calls_added gcs_call_keys (MockGCS.calls w)
           (MockGCS.calls
              (GoogleCSBackend.GetObject (MockGCS.backend prefix) path w).2)
           [pathutil.Join [prefix; path]]
         /\ calls_added gcs_call_keys (MockGCS.calls w)
              (MockGCS.calls
                 (GoogleCSBackend.GetObjects (MockGCS.backend prefix) path w).2)
              [pathutil.Join [prefix; path]]
         /\ calls_added gcs_call_keys (MockGCS.calls w)
              (MockGCS.calls
                 (GoogleCSBackend.PutObject (MockGCS.backend prefix) path content
                    w).2)
              [pathutil.Join [prefix; path]]
         /\ calls_added gcs_call_keys (MockGCS.calls w)
              (MockGCS.calls
                 (GoogleCSBackend.DeleteObject (MockGCS.backend prefix) path w).2)
              [pathutil.Join [prefix; path]]).
Proof.
  split; [reflexivity|]. split; [|split; [|split]].
  - intros w. unfold GoogleCSBackend.CopyObject. simpl.
    destruct (MockGCS.copyResult w); now apply calls_added_one.
  - intros w. unfold S3Backend.CopyObject. simpl.
    destruct (MockS3.copyResult w); now apply calls_added_one.
  - intros w. repeat split.
    + unfold S3Backend.GetObject. simpl.
      destruct (MockS3.getResult w) as [out|err]; [|now apply calls_added_one].
      destruct (io.read_err _); now apply calls_added_one.
    + unfold S3Backend.GetObjects. cbn [S3Backend.GetObjects_loop].
      set (fp := pathutil.Join [prefix; path]).
      set (input := {| s3.ListObjectsInput.Bucket := _ |}).
      assert (exists r w0,
                 @ListObjectsWithContext _
                   (S3Backend.Client (MockS3.backend bucket prefix)) input w
                 = (r, MockS3.record (MockS3.ListObjects input) w0)
                 /\ MockS3.calls w0 = MockS3.calls w) as (r & w0 & -> & Hw0).
      { simpl. destruct (MockS3.listResults w) as [|r rs]; eauto. }
      assert (Hone : calls_added s3_call_keys (MockS3.calls w)
                       (MockS3.calls (MockS3.record (MockS3.ListObjects input) w0))
                       [Some fp])
        by (simpl; rewrite Hw0; now apply calls_added_one).
      destruct r as [page|err]; [|exact Hone].
      destruct (S3Backend.range_Contents _ _ _) as [objects'|]; [|exact Hone].
      destruct (S3Backend.not_truncated page); [exact Hone|].
      destruct (last _) as [lastObj|]; [|exact Hone].
      destruct (mock_GetObjects_loop_calls bucket prefix fp fuel
                  (s3.ListObjectsInput.set_Marker input (s3.Object.Key lastObj))
                  objects' (MockS3.record (MockS3.ListObjects input) w0) eq_refl)
        as (new & Hcalls & Hnew).
      exists (MockS3.ListObjects input :: new). split.
      * etransitivity; [exact Hcalls|].
        simpl. now rewrite Hw0, <- app_assoc.
      * split; [discriminate|]. now constructor.
    + unfold S3Backend.PutObject. simpl.
      destruct (MockS3.uploadResult w); now apply calls_added_one.
    + unfold S3Backend.DeleteObject. simpl.
      destruct (MockS3.deleteResult w); now apply calls_added_one.
  - intros w. repeat split.
    + unfold GoogleCSBackend.GetObject. simpl.
      destruct (MockGCS.attrsResult w) as [attrs|err];
        [|now apply calls_added_one].
      assert (calls_added gcs_call_keys (MockGCS.calls w)
                ((MockGCS.calls w
                    ++ [MockGCS.Attrs
                          {| storage.object := pathutil.Join [prefix; path] |}])
                   ++ [MockGCS.NewReader
                         {| storage.object := pathutil.Join [prefix; path] |}])
                [pathutil.Join [prefix; path]]) as Htwo.
      { calls_added_here. }
      destruct (MockGCS.readerResult w) as [rc|err]; [|exact Htwo].
      destruct (io.read_err rc); [exact Htwo|].
      destruct (io.Close rc); exact Htwo.
    + unfold GoogleCSBackend.GetObjects. simpl. now apply calls_added_one.
    + unfold GoogleCSBackend.PutObject. simpl.
      destruct (MockGCS.writeResult w); [calls_added_here|].
      destruct (MockGCS.closeResult w); calls_added_here.
    + unfold GoogleCSBackend.DeleteObject. simpl.
      destruct (MockGCS.deleteResult w); now apply calls_added_one.
Qed.

(** Under the prefix ["pre"], a copy from ["a"] to ["b"] reaches the GCS
    client as ["a"] and ["b"], and the S3 client as ["bkt/pre/a"] (escaped)
    and ["pre/b"]. *)
Lemma CopyObject_prefix_asymmetry_witness :
  calls_added gcs_call_keys []
    (MockGCS.calls
       (GoogleCSBackend.CopyObject (MockGCS.backend "pre") "a" "b" MockGCS.quiet).2)
    ["a"; "b"]
  /\ calls_added s3_call_keys []
       (MockS3.calls
          (S3Backend.CopyObject (MockS3.backend "bkt" "pre") "a" "b" MockS3.quiet).2)
       [Some "bkt%2Fpre%2Fa"; Some "pre/b"].
Proof.
  destruct (CopyObject_prefix_asymmetry "bkt" "pre" "a" "b" "p" [] 0)
    as (_ & Hgcs & Hs3 & _).
  split; [exact (Hgcs MockGCS.quiet) | exact (Hs3 MockS3.quiet)].
Defined.

(** ** Errors of PutObject *)

(** The claim that every provider error during PutObject comes back as
    internal fails on the GCS backend: when the writer's Write fails with the
    text of [storage.ErrObjectNotExist], PutObject answers not-found (404). *)
Lemma PutObject_gcs_not_found_counterexample :
  exists appErr,
    (GoogleCSBackend.PutObject (MockGCS.backend "pre") "test/hello.txt" hello
       (MockGCS.set_writeResult (Some storage.ErrObjectNotExist) MockGCS.quiet)).1
    = Some appErr
    /\ ae.Cause appErr = storage.ErrObjectNotExist
    /\ ae.HTTPCode appErr = http.StatusNotFound
    /\ ae.HTTPCode appErr <> http.StatusInternalServerError.
Proof.
  eexists. split; [reflexivity|]. repeat split. discriminate.
Qed.

(** C5, amended.  S3Backend.PutObject answers every error of the uploader
    as internal (HTTP 500).  GoogleCSBackend.PutObject answers an error of
    the writer's Close as internal, and an error of the writer's Write as
    internal unless its text is that of [storage.ErrObjectNotExist], in which
    case it answers not-found (HTTP 404). *)
Theorem PutObject_error_classification :
  (forall (W : Type) (b : S3Backend.t W) (path : string) (content : list byte)
          (w w1 : W) (err : error),
      @UploadWithContext W (S3Backend.Uploader b)
        {| s3manager.UploadInput.Bucket := Some (S3Backend.Bucket b);
           s3manager.UploadInput.Key :=
             Some (pathutil.Join [S3Backend.Prefix b; path]);
           s3manager.UploadInput.Body := content |} w
      = (Some err, w1) ->
      S3Backend.PutObject b path content w
      = (Some {| ae.Cause := err; ae.Custom := S3PutObject;
                 ae.HTTPCode := http.StatusInternalServerError |}, w1))
  /\ (forall (W : Type) (b : GoogleCSBackend.t W) (path : string)
             (content : list byte) (w w1 w2 : W) (wc wc' : storage.Writer)
             (err : error),
         @Handle_NewWriter W (GoogleCSBackend.Client b)
           (@Client_Object W (GoogleCSBackend.Client b)
              (pathutil.Join [GoogleCSBackend.Prefix b; path])) w = (wc, w1) ->
         @Writer_Write W (GoogleCSBackend.Client b) wc content w1
         = ((wc', Some err), w2) ->
         GoogleCSBackend.PutObject b path content w
         = (Some {| ae.Cause := err; ae.Custom := GCSPutObject;
                    ae.HTTPCode :=
                      if String.eqb (Error err) "storage: object doesn't exist"
                      then http.StatusNotFound
                      else http.StatusInternalServerError |}, w2))
  /\ (forall (W : Type) (b : GoogleCSBackend.t W) (path : string)
             (content : list byte) (w w1 w2 w3 : W) (wc wc' : storage.Writer)
             (err : error),
         @Handle_NewWriter W (GoogleCSBackend.Client b)
           (@Client_Object W (GoogleCSBackend.Client b)
              (pathutil.Join [GoogleCSBackend.Prefix b; path])) w = (wc, w1) ->
         @Writer_Write W (GoogleCSBackend.Client b) wc content w1
         = ((wc', None), w2) ->
         @Writer_Close W (GoogleCSBackend.Client b) wc' w2 = (Some err, w3) ->
         GoogleCSBackend.PutObject b path content w
         = (Some {| ae.Cause := err; ae.Custom := GCSPutObject;
                    ae.HTTPCode := http.StatusInternalServerError |}, w3)).
Proof.
  split; [|split].
  - intros W b path content w w1 err Hcall.
    unfold S3Backend.PutObject, aws.String. now rewrite Hcall.
  - intros W b path content w w1 w2 wc wc' err Hnew Hwrite.
    unfold GoogleCSBackend.PutObject. rewrite Hnew, Hwrite.
    unfold GoogleCSBackend.classify, GoogleCSBackend.isNotExist. simpl.
    now destruct (String.eqb (Error err) _).
  - intros W b path content w w1 w2 w3 wc wc' err Hnew Hwrite Hclose.
    unfold GoogleCSBackend.PutObject. now rewrite Hnew, Hwrite, Hclose.
Qed.

(** An upload that fails with a text full of not-found words is internal on
    S3; a Close that fails is internal on GCS; a Write that fails with an
    ordinary error is internal on GCS. *)
Lemma PutObject_error_classification_witness :
  S3Backend.PutObject (MockS3.backend "bkt" "pre") "test/hello.txt" hello
    (MockS3.failing MemBucket.NoSuchKey)
  = (Some {| ae.Cause := MemBucket.NoSuchKey; ae.Custom := S3PutObject;
             ae.HTTPCode := 500 |},
     MockS3.record
       (MockS3.Upload
          {| s3manager.UploadInput.Bucket := Some "bkt";
             s3manager.UploadInput.Key := Some "pre/test/hello.txt";
             s3manager.UploadInput.Body := hello |})
       (MockS3.failing MemBucket.NoSuchKey))
  /\ (GoogleCSBackend.PutObject (MockGCS.backend "pre") "test/hello.txt" hello
        (MockGCS.set_writeResult (Some (errors_New "unauthorized")) MockGCS.quiet)).1
     = Some {| ae.Cause := errors_New "unauthorized"; ae.Custom := GCSPutObject;
               ae.HTTPCode := 500 |}
  /\ (GoogleCSBackend.PutObject (MockGCS.backend "pre") "test/hello.txt" hello
        (MockGCS.set_closeResult (Some storage.ErrObjectNotExist) MockGCS.quiet)).1
     = Some {| ae.Cause := storage.ErrObjectNotExist; ae.Custom := GCSPutObject;
               ae.HTTPCode := 500 |}.
Proof.
  split; [|split].
  - apply (proj1 PutObject_error_classification _ (MockS3.backend "bkt" "pre")).
    reflexivity.
  - rewrite (proj1 (proj2 PutObject_error_classification) _
               (MockGCS.backend "pre") "test/hello.txt" hello
               (MockGCS.set_writeResult (Some (errors_New "unauthorized"))
                  MockGCS.quiet)
               _ _ _ _ (errors_New "unauthorized") eq_refl eq_refl).
    reflexivity.
  - rewrite (proj2 (proj2 PutObject_error_classification) _
               (MockGCS.backend "pre") "test/hello.txt" hello
               (MockGCS.set_closeResult (Some storage.ErrObjectNotExist)
                  MockGCS.quiet)
               _ _ _ _ _ storage.ErrObjectNotExist eq_refl eq_refl eq_refl).
    reflexivity.
Defined.

(** ** Package [path]: joining a prefix and a path *)

Section PathFacts.
Import pathutil.

Lemma elements_nonempty (p : string) : elements p <> [].
Proof.
  induction p as [|c p IH]; simpl; [discriminate|].
  destruct (Ascii.eqb c slash); [discriminate|].
  now destruct (elements p).
Qed.

(** The elements of [a/y] are those of [a] followed by those of [y]. *)
Lemma elements_app_slash (a y : string) :
  elements (a +:+ "/" +:+ y) = elements a ++ elements y.
Proof.
  induction a as [|c a IH].
  - reflexivity.
  - rewrite str_app_cons. simpl. rewrite IH.
    destruct (Ascii.eqb c slash); [reflexivity|].
    pose proof (elements_nonempty a) as Hne.
    now destruct (elements a).
Qed.

Lemma join_slash_snoc (es : list string) (e : string) :
  es <> [] -> join_slash (es ++ [e]) = join_slash es +:+ "/" +:+ e.
Proof.
  induction es as [|x es IH]; [congruence|]. intros _.
  destruct es as [|y es].
  - reflexivity.
  - change (join_slash ((x :: y :: es) ++ [e]))
      with (x +:+ "/" +:+ join_slash ((y :: es) ++ [e])).
    rewrite IH by discriminate.
    change (join_slash (x :: y :: es)) with (x +:+ "/" +:+ join_slash (y :: es)).
    now rewrite !str_app_assoc.
Qed.

Lemma join_slash_snoc_nonempty (es : list string) (e : string) :
  e <> "" -> join_slash (es ++ [e]) <> "".
Proof.
  intros He. destruct es as [|x es]; [exact He|].
  rewrite join_slash_snoc by discriminate. intros E.
  apply (f_equal GoString.len) in E. rewrite !len_app in E.
  simpl in E. lia.
Qed.

(** [Join] of a prefix and a path that is not empty. *)
Lemma Join_prefix_path (prefix path : string) :
  path <> "" ->
  Join [prefix; path]
  = Clean (if String.eqb prefix "" then path else prefix +:+ "/" +:+ path).
Proof.
  intros Hp. unfold Join.
  assert ((foldr (fun e n => GoString.len e + n)%nat 0%nat [prefix; path]
             =? 0)%nat = false) as ->.
  { apply Nat.eqb_neq. simpl. destruct path; [congruence|].
    unfold GoString.len. simpl. lia. }
  f_equal. destruct prefix as [|c prefix]; simpl.
  - destruct path; [congruence|]. reflexivity.
  - now rewrite str_app_assoc.
Qed.

(** What [Clean] makes of [prefix/dir/name] and of [prefix/dir/], for plain
    names [dir] and [name]: the second, a slash and [name]. *)
Lemma Clean_under (prefix : string) :
  prefix <> "" ->
  Clean (prefix +:+ "/" +:+ "test/hello.txt")
  = Clean (prefix +:+ "/" +:+ "test/") +:+ "/" +:+ "hello.txt"
  /\ Clean (prefix +:+ "/" +:+ "test/") <> "".
Proof.
  intros Hp. destruct prefix as [|c prefix]; [congruence|].
  unfold Clean. rewrite !elements_app_slash, !fold_left_app.
  rewrite !str_app_cons.
  cbn [String.eqb is_rooted].
  set (r := Ascii.eqb c slash).
  set (out := fold_left (clean_element r) (elements (String c prefix)) []).
  change (fold_left (clean_element r) (elements "test/hello.txt") out)
    with ("hello.txt" :: "test" :: out).
  change (fold_left (clean_element r) (elements "test/") out)
    with ("test" :: out).
  cbn [rev].
  rewrite (join_slash_snoc (rev out ++ ["test"]) "hello.txt")
    by (destruct (rev out); discriminate).
  destruct r.
  - split; [reflexivity | discriminate].
  - split; [reflexivity|]. now apply join_slash_snoc_nonempty.
Qed.

Lemma Join_listing_key (prefix : string) :
  Join [prefix; "test/hello.txt"]
  = Join [prefix; "test/"] +:+ "/" +:+ "hello.txt"
  /\ Join [prefix; "test/"] <> "".
Proof.
  rewrite !Join_prefix_path by discriminate.
  destruct (String.eqb prefix "") eqn:E.
  - split; [reflexivity | discriminate].
  - apply Clean_under. now apply String.eqb_neq.
Qed.

End PathFacts.

(** ** The in-memory bucket: store, fetch, list *)

Section MemBucketFacts.
Import MemBucket.

Lemma is_bucket_store (name : option string) (k : string) (c : list byte)
  (w : World) :
  is_bucket name (store k c w) = is_bucket name w.
Proof. reflexivity. Qed.

Lemma lookup_store (k : string) (c : list byte) (w : World) :
  objects (store k c w) !! k = Some {| bytes := c; modified := clock w |}.
Proof. unfold store. simpl. apply lookup_insert_eq. Qed.

(** A successful upload through the S3 backend stores the content under
    [Join(Prefix, path)]. *)
Lemma s3_PutObject_stores (bucket prefix path : string) (c : list byte)
  (w w1 : World) :
  S3Backend.PutObject (s3_backend bucket prefix) path c w = (None, w1) ->
  is_bucket (Some bucket) w = true
  /\ w1 = store (pathutil.Join [prefix; path]) c w.
Proof.
  unfold S3Backend.PutObject, UploadWithContext, s3_backend, s3_uploader,
    aws.String.
  cbn [S3Backend.Uploader S3Backend.Bucket S3Backend.Prefix
       s3manager.UploadInput.Bucket s3manager.UploadInput.Key
       s3manager.UploadInput.Body].
  destruct (is_bucket (Some bucket) w); [|discriminate].
  now intros [= <-].
Qed.

(** A successful write through the GCS backend does the same. *)
Lemma gcs_PutObject_stores (prefix path : string) (c : list byte)
  (w w1 : World) :
  GoogleCSBackend.PutObject (gcs_backend prefix) path c w = (None, w1) ->
  w1 = store (pathutil.Join [prefix; path]) c w.
Proof.
  unfold GoogleCSBackend.PutObject, gcs_backend, gcs_client.
  cbn [GoogleCSBackend.Client GoogleCSBackend.Prefix Handle_NewWriter
       Client_Object Writer_Write Writer_Close storage.target storage.object
       storage.written].
  destruct (String.eqb (pathutil.Join [prefix; path]) ""); [discriminate|].
  now intros [= <-].
Qed.

End MemBucketFacts.

(** C1.  Round trip, on the provider as a key-value map.  For either backend,
    any configured prefix, any path [p] and any content [c]: when
    [PutObject p c] succeeds, the map holds [c] under [Join(Prefix, p)], and
    a [GetObject p] that follows reads that same key and returns an Object
    with the path [p] and a Content equal to [c], byte for byte. *)
Theorem PutObject_GetObject_roundtrip :
  (forall (bucket prefix p : string) (c : list byte) (w w1 : MemBucket.World),
      S3Backend.PutObject (MemBucket.s3_backend bucket prefix) p c w = (None, w1) ->
      MemBucket.objects w1 !! pathutil.Join [prefix; p]
        = Some {| MemBucket.bytes := c; MemBucket.modified := MemBucket.clock w |}
      /\ S3Backend.GetObject (MemBucket.s3_backend bucket prefix) p w1
         = (({| Meta := Meta Object_zero; Path := p; Content := c;
                LastModified := MemBucket.clock w |}, None), w1))
  /\ (forall (prefix p : string) (c : list byte) (w w1 : MemBucket.World),
         GoogleCSBackend.PutObject (MemBucket.gcs_backend prefix) p c w = (None, w1) ->
         MemBucket.objects w1 !! pathutil.Join [prefix; p]
           = Some {| MemBucket.bytes := c; MemBucket.modified := MemBucket.clock w |}
         /\ GoogleCSBackend.GetObject (MemBucket.gcs_backend prefix) p w1
            = (({| Meta := Meta Object_zero; Path := p; Content := c;
                   LastModified := MemBucket.clock w |}, None), w1)).
Proof.
  split.
  - intros bucket prefix p c w w1 Hput.
    apply s3_PutObject_stores in Hput as [Hb ->].
    split; [apply lookup_store|].
    unfold S3Backend.GetObject, GetObjectWithContext, MemBucket.s3_backend,
      MemBucket.s3_client, aws.String.
    cbn [S3Backend.Client S3Backend.Bucket S3Backend.Prefix
         s3.GetObjectInput.Bucket s3.GetObjectInput.Key].
    rewrite is_bucket_store, Hb, lookup_store. reflexivity.
  - intros prefix p c w w1 Hput.
    apply gcs_PutObject_stores in Hput as ->.
    split; [apply lookup_store|].
    unfold GoogleCSBackend.GetObject, MemBucket.gcs_backend, MemBucket.gcs_client.
    cbn [GoogleCSBackend.Client GoogleCSBackend.Prefix Handle_Attrs
         Handle_NewReader Client_Object storage.object].
    rewrite !lookup_store. reflexivity.
Qed.

(** Storing ["Hello, World!"] at ["test/hello.txt"] under the prefix ["pre"]
    in an empty bucket, and fetching it back, on both backends. *)
Lemma PutObject_GetObject_roundtrip_witness :
  (S3Backend.GetObject (MemBucket.s3_backend "bkt" "pre") "test/hello.txt"
     (MemBucket.store "pre/test/hello.txt" hello (MemBucket.empty "bkt"))).1
  = ({| Meta := Meta Object_zero; Path := "test/hello.txt"; Content := hello;
        LastModified := 1 |}, None)
  /\ (GoogleCSBackend.GetObject (MemBucket.gcs_backend "pre") "test/hello.txt"
        (MemBucket.store "pre/test/hello.txt" hello (MemBucket.empty "bkt"))).1
     = ({| Meta := Meta Object_zero; Path := "test/hello.txt"; Content := hello;
           LastModified := 1 |}, None).
Proof.
  split.
  - rewrite (proj2 (proj1 PutObject_GetObject_roundtrip "bkt" "pre"
                      "test/hello.txt" hello (MemBucket.empty "bkt")
                      (MemBucket.store "pre/test/hello.txt" hello
                         (MemBucket.empty "bkt")) eq_refl)).
    reflexivity.
  - rewrite (proj2 (proj2 PutObject_GetObject_roundtrip "pre"
                      "test/hello.txt" hello (MemBucket.empty "bkt")
                      (MemBucket.store "pre/test/hello.txt" hello
                         (MemBucket.empty "bkt")) eq_refl)).
    reflexivity.
Defined.

Section MemBucketListing.
Import MemBucket.

(** A stored key that starts with the listing prefix is among the matching
    entries. *)
Lemma matching_stored (fullPrefix rest : string) (c : list byte) (w : World) :
  (fullPrefix +:+ rest, {| bytes := c; modified := clock w |})
    ∈ matching fullPrefix None (store (fullPrefix +:+ rest) c w).
Proof.
  unfold matching. apply list_elem_of_In, filter_In. split.
  - apply list_elem_of_In, elem_of_map_to_list, lookup_store.
  - simpl. now rewrite HasPrefix_app.
Qed.

(** Listing through the S3 backend: one page, never truncated. *)
Lemma s3_GetObjects_mem (bucket prefix listing : string) (fuel : nat) (w : World) :
  is_bucket (Some bucket) w = true ->
  S3Backend.GetObjects (s3_backend bucket prefix) (S fuel) listing w
  = (Returned
       ((fun kv : string * Entry =>
           {| Meta := Meta Object_zero;
              Path := removePrefixFromObjectPath
                        (pathutil.Join [prefix; listing]) kv.1;
              Content := [];
              LastModified := modified kv.2 |})
          <$> matching (pathutil.Join [prefix; listing]) None w, None), w).
Proof.
  intros Hb. unfold S3Backend.GetObjects.
  erewrite GetObjects_loop_page; cycle 1.
  - unfold ListObjectsWithContext, s3_backend, s3_client, aws.String.
    cbn [S3Backend.Client S3Backend.Bucket S3Backend.Prefix
         s3.ListObjectsInput.Bucket s3.ListObjectsInput.Prefix
         s3.ListObjectsInput.Marker default].
    rewrite Hb. reflexivity.
  - apply range_Contents_ok.
    cbn [s3.ListObjectsOutput.Contents].
    apply Forall_fmap, Forall_true. intros kv. split; eexists; reflexivity.
  - cbn [S3Backend.not_truncated s3.ListObjectsOutput.IsTruncated negb
         s3.ListObjectsOutput.Contents app].
    rewrite <- list_fmap_compose. reflexivity.
Qed.

(** Listing through the GCS backend. *)
Lemma gcs_GetObjects_mem (prefix listing : string) (w : World) :
  GoogleCSBackend.GetObjects (gcs_backend prefix) listing w
  = (((fun kv : string * Entry =>
         {| Meta := Meta Object_zero;
            Path := removePrefixFromObjectPath
                      (pathutil.Join [prefix; listing]) kv.1;
            Content := [];
            LastModified := modified kv.2 |})
        <$> matching (pathutil.Join [prefix; listing]) None w, None), w).
Proof.
  unfold GoogleCSBackend.GetObjects, gcs_backend, gcs_client.
  cbn [GoogleCSBackend.Client GoogleCSBackend.Prefix Client_Objects
       storage.Query.Prefix].
  f_equal. generalize (matching (pathutil.Join [prefix; listing]) None w).
  intros kvs.
  enough (forall objects,
             GoogleCSBackend.GetObjects_loop (pathutil.Join [prefix; listing])
               ((fun kv : string * Entry =>
                   inl {| storage.ObjectAttrs.Name := kv.1;
                          storage.ObjectAttrs.Updated := modified kv.2 |})
                  <$> kvs) objects
             = (objects
                  ++ ((fun kv : string * Entry =>
                         {| Meta := Meta Object_zero;
                            Path := removePrefixFromObjectPath
                                      (pathutil.Join [prefix; listing]) kv.1;
                            Content := [];
                            LastModified := modified kv.2 |}) <$> kvs),
                None)) as H by apply (H []).
  induction kvs as [|kv kvs IH]; intros objects; simpl.
  - now rewrite app_nil_r.
  - now rewrite IH, <- app_assoc.
Qed.

End MemBucketListing.

(** The claim that a listing under ["test/"] returns the path
    ["test/hello.txt"] fails: with the configured prefix ["pre"], and with
    none, on both backends, the one Object listed has the path
    ["hello.txt"]. *)
Lemma GetObjects_listing_path_counterexample :
  (S3Backend.GetObjects (MemBucket.s3_backend "bkt" "pre") 1 "test/"
     (S3Backend.PutObject (MemBucket.s3_backend "bkt" "pre") "test/hello.txt"
        hello (MemBucket.empty "bkt")).2).1
  = Returned ([sample_object "hello.txt" 1], None)
  /\ (S3Backend.GetObjects (MemBucket.s3_backend "bkt" "") 1 "test/"
        (S3Backend.PutObject (MemBucket.s3_backend "bkt" "") "test/hello.txt"
           hello (MemBucket.empty "bkt")).2).1
     = Returned ([sample_object "hello.txt" 1], None)
  /\ (GoogleCSBackend.GetObjects (MemBucket.gcs_backend "pre") "test/"
        (GoogleCSBackend.PutObject (MemBucket.gcs_backend "pre") "test/hello.txt"
           hello (MemBucket.empty "bkt")).2).1
     = ([sample_object "hello.txt" 1], None)
  /\ Path (sample_object "hello.txt" 1) <> "test/hello.txt".
Proof.
  repeat split; try (vm_compute; reflexivity). discriminate.
Qed.

(** C6, amended.  A listing strips the configured prefix joined with the
    listing prefix: after a successful store at ["test/hello.txt"], for every
    configured prefix and whatever else the bucket holds, GetObjects under
    ["test/"] succeeds and returns an Object whose Path is ["hello.txt"]
    (relative to the listed directory), with empty Content and the stored
    object's date. *)
Theorem GetObjects_strips_listing_prefix :
  (forall (bucket prefix : string) (c : list byte) (w w1 : MemBucket.World)
          (fuel : nat),
      S3Backend.PutObject (MemBucket.s3_backend bucket prefix) "test/hello.txt" c w
        = (None, w1) ->
      exists objs,
        S3Backend.GetObjects (MemBucket.s3_backend bucket prefix) (S fuel) "test/" w1
          = (Returned (objs, None), w1)
        /\ {| Meta := Meta Object_zero; Path := "hello.txt"; Content := [];
              LastModified := MemBucket.clock w |} ∈ objs)
  /\ (forall (prefix : string) (c : list byte) (w w1 : MemBucket.World),
         GoogleCSBackend.PutObject (MemBucket.gcs_backend prefix) "test/hello.txt" c w
           = (None, w1) ->
         exists objs,
           GoogleCSBackend.GetObjects (MemBucket.gcs_backend prefix) "test/" w1
             = ((objs, None), w1)
           /\ {| Meta := Meta Object_zero; Path := "hello.txt"; Content := [];
                 LastModified := MemBucket.clock w |} ∈ objs).
Proof.
  split.
  - intros bucket prefix c w w1 fuel Hput.
    apply s3_PutObject_stores in Hput as [Hb ->].
    destruct (Join_listing_key prefix) as [Hkey Hne].
    eexists. split.
    + apply s3_GetObjects_mem. now rewrite is_bucket_store.
    + rewrite Hkey.
      eapply list_elem_of_fmap_2'; [apply matching_stored|].
      simpl. now rewrite removePrefix_leading.
  - intros prefix c w w1 Hput.
    apply gcs_PutObject_stores in Hput as ->.
    destruct (Join_listing_key prefix) as [Hkey Hne].
    eexists. split.
    + apply gcs_GetObjects_mem.
    + rewrite Hkey.
      eapply list_elem_of_fmap_2'; [apply matching_stored|].
      simpl. now rewrite removePrefix_leading.
Qed.

(** In a bucket that already holds another object, under the prefix
    ["pre"]. *)
Lemma GetObjects_strips_listing_prefix_witness :
  (exists objs,
      S3Backend.GetObjects (MemBucket.s3_backend "bkt" "pre") 1 "test/"
        (MemBucket.store "pre/test/hello.txt" hello
           (MemBucket.store "pre/other.txt" [] (MemBucket.empty "bkt")))
      = (Returned (objs, None),
         MemBucket.store "pre/test/hello.txt" hello
           (MemBucket.store "pre/other.txt" [] (MemBucket.empty "bkt")))
      /\ sample_object "hello.txt" 2 ∈ objs)
  /\ (exists objs,
         GoogleCSBackend.GetObjects (MemBucket.gcs_backend "pre") "test/"
           (MemBucket.store "pre/test/hello.txt" hello
              (MemBucket.store "pre/other.txt" [] (MemBucket.empty "bkt")))
         = ((objs, None),
            MemBucket.store "pre/test/hello.txt" hello
              (MemBucket.store "pre/other.txt" [] (MemBucket.empty "bkt")))
         /\ sample_object "hello.txt" 2 ∈ objs).
Proof.
  split.
  - exact (proj1 GetObjects_strips_listing_prefix "bkt" "pre" hello
             (MemBucket.store "pre/other.txt" [] (MemBucket.empty "bkt"))
             _ 0%nat eq_refl).
  - exact (proj2 GetObjects_strips_listing_prefix "pre" hello
             (MemBucket.store "pre/other.txt" [] (MemBucket.empty "bkt"))
             _ eq_refl).
Defined.

(** * Further properties of the package *)

(** ** utility.go: cleanPrefix *)

Section CleanPrefix.
Import GoString.

Lemma slash_in_cutset (c : ascii) :
  in_cutset c "/" = true <-> c = "/"%char.
Proof.
  simpl. rewrite orb_false_r. apply Ascii.eqb_eq.
Qed.

Lemma TrimLeft_split (s : string) :
  exists n, s = slashes n +:+ TrimLeft s "/".
Proof.
  induction s as [|c s [n IH]].
  - now exists 0%nat.
  - cbn [TrimLeft]. destruct (in_cutset c "/") eqn:E.
    + apply slash_in_cutset in E as ->. exists (S n).
      cbn [slashes]. rewrite str_app_cons. f_equal. exact IH.
    + now exists 0%nat.
Qed.

Lemma TrimLeft_no_leading (s : string) : no_leading_slash (TrimLeft s "/").
Proof.
  induction s as [|c s IH]; intros r.
  - discriminate.
  - cbn [TrimLeft]. destruct (in_cutset c "/") eqn:E; [apply IH|].
    intros [= -> _]. now rewrite (proj2 (slash_in_cutset "/") eq_refl) in E.
Qed.

Lemma TrimLeft_id (s : string) : no_leading_slash s -> TrimLeft s "/" = s.
Proof.
  destruct s as [|c s]; [reflexivity|]. intros H. cbn [TrimLeft].
  destruct (in_cutset c "/") eqn:E; [|reflexivity].
  apply slash_in_cutset in E as ->. now contradiction (H s).
Qed.

Lemma TrimRight_unfold (c : ascii) (s : string) :
  TrimRight (String c s) "/" =
    match TrimRight s "/" with
    | "" => if in_cutset c "/" then "" else String c ""
    | r => String c r
    end.
Proof. reflexivity. Qed.

Lemma TrimRight_split (s : string) :
  exists n, s = TrimRight s "/" +:+ slashes n.
Proof.
  induction s as [|c s [n IH]].
  - now exists 0%nat.
  - rewrite TrimRight_unfold. destruct (TrimRight s "/") as [|x r] eqn:E.
    + rewrite str_app_nil_l in IH. subst s.
      destruct (in_cutset c "/") eqn:Ec.
      * apply slash_in_cutset in Ec as ->. now exists (S n).
      * now exists n.
    + exists n. rewrite str_app_cons. now rewrite <- IH.
Qed.

Lemma TrimRight_no_trailing (s : string) : no_trailing_slash (TrimRight s "/").
Proof.
  induction s as [|c s IH]; intros r.
  - destruct r; discriminate.
  - rewrite TrimRight_unfold. destruct (TrimRight s "/") as [|x t] eqn:E.
    + destruct (in_cutset c "/") eqn:Ec; [destruct r; discriminate|].
      destruct r as [|y r].
      * intros [= ->]. now rewrite (proj2 (slash_in_cutset "/") eq_refl) in Ec.
      * rewrite str_app_cons. intros [= _ H]. destruct r; discriminate.
    + destruct r as [|y r]; [discriminate|].
      rewrite str_app_cons. intros [= _ H]. now apply (IH r).
Qed.

Lemma TrimRight_id (s : string) : no_trailing_slash s -> TrimRight s "/" = s.
Proof.
  induction s as [|c s IH]; [reflexivity|]. intros H.
  rewrite TrimRight_unfold, IH.
  - destruct s as [|x s]; [|reflexivity].
    destruct (in_cutset c "/") eqn:E; [|reflexivity].
    apply slash_in_cutset in E as ->. now contradiction (H "").
  - intros r ->. now apply (H (String c r)).
Qed.

Lemma TrimRight_keeps_no_leading (s : string) :
  no_leading_slash s -> no_leading_slash (TrimRight s "/").
Proof.
  intros H r E. destruct (TrimRight_split s) as [n Hs].
  rewrite E in Hs. now apply (H (r +:+ slashes n)).
Qed.

End CleanPrefix.

(** X1.  [cleanPrefix] takes the slashes off both ends of a prefix and nothing
    else: the prefix is some slashes, the cleaned prefix, and some slashes;
    the cleaned prefix neither starts nor ends with a slash; cleaning it
    again changes nothing; and inner slashes stay. *)
Theorem cleanPrefix_trims_both_ends (prefix : string) :
  (exists n m, prefix = slashes n +:+ cleanPrefix prefix +:+ slashes m)
  /\ no_leading_slash (cleanPrefix prefix)
  /\ no_trailing_slash (cleanPrefix prefix)
  /\ cleanPrefix (cleanPrefix prefix) = cleanPrefix prefix
  /\ (no_leading_slash prefix -> no_trailing_slash prefix ->
      cleanPrefix prefix = prefix).
Proof.
  unfold cleanPrefix, GoString.Trim.
  pose proof (TrimLeft_no_leading prefix) as Hl.
  pose proof (TrimRight_no_trailing (GoString.TrimLeft prefix "/")) as Hr.
  pose proof (TrimRight_keeps_no_leading _ Hl) as Hlr.
  split; [|split; [exact Hlr|split; [exact Hr|split]]].
  - destruct (TrimLeft_split prefix) as [n Hn].
    destruct (TrimRight_split (GoString.TrimLeft prefix "/")) as [m Hm].
    exists n, m. now rewrite <- Hm.
  - now rewrite (TrimLeft_id _ Hlr), (TrimRight_id _ Hr).
  - intros H1 H2. now rewrite (TrimLeft_id _ H1), (TrimRight_id _ H2).
Qed.

(** A prefix written with slashes around and inside it. *)
Lemma cleanPrefix_trims_both_ends_witness :
  cleanPrefix "a/b" = "a/b"
  /\ (exists n m, "//a/b/" = slashes n +:+ cleanPrefix "//a/b/" +:+ slashes m).
Proof.
  split.
  - apply (proj2 (proj2 (proj2 (proj2 (cleanPrefix_trims_both_ends "a/b"))))).
    + intros r. discriminate.
    + intros [|x [|y [|z r]]]; try discriminate. destruct r; discriminate.
  - exact (proj1 (cleanPrefix_trims_both_ends "//a/b/")).
Defined.

(** ** The S3 backend: the substring test *)

(** X2.  [contains] is a correct substring test: it answers true exactly when
    [substr] occurs somewhere in [s]; in particular the empty string is
    contained in every string, and nothing but the empty string in the empty
    one. *)
Theorem contains_is_substring_test (s substr : string) :
  (contains s substr = true <-> occurs substr s)
  /\ contains s "" = true
  /\ (substr <> "" -> contains "" substr = false)
  /\ contains s s = true.
Proof.
  split; [apply contains_occurs|]. split; [|split].
  - apply contains_occurs. exists 0%nat, "", s. now split.
  - intros H. destruct substr; [congruence | reflexivity].
  - apply contains_occurs. exists 0%nat, "", "".
    now rewrite str_app_nil_l, str_app_nil_r.
Qed.

(** An occurrence at the very end of the text is found, and a near miss is
    not. *)
Lemma contains_is_substring_test_witness :
  contains "status code: 404" "404" = true
  /\ contains "" "NotFound" = false.
Proof.
  split.
  - apply (proj1 (contains_is_substring_test "status code: 404" "404")).
    exists 13%nat, "status code: ", "". now split.
  - apply (proj1 (proj2 (proj2 (contains_is_substring_test "" "NotFound")))).
    discriminate.
Defined.

(** ** The GCS backend: not-found classification *)

Section GCSErrors.

Lemma classify_gcs_classified (e : error) (ce : ae.CustomErr) :
  gcs_classified e ce (GoogleCSBackend.classify e ce).
Proof.
  unfold gcs_classified, GoogleCSBackend.classify, GoogleCSBackend.isNotExist.
  change (Error storage.ErrObjectNotExist) with "storage: object doesn't exist".
  destruct (String.eqb_spec (Error e) "storage: object doesn't exist") as [E|E];
    simpl; (split; [reflexivity|]); (split; [reflexivity|]); [left|right];
    now split.
Qed.

(** Every error the listing loop returns is a result of the iterator other
    than [iterator.Done], classified. *)
Lemma GetObjects_loop_gcs_error (prefix : string) (it : storage.ObjectIterator)
  (objects objs : list Object) (appErr : ae.AppError) :
  GoogleCSBackend.GetObjects_loop prefix it objects = (objs, Some appErr) ->
  exists err, In (inr err) it /\ err <> iterator_Done
              /\ gcs_classified err GCSGetObjects appErr.
Proof.
  revert objects. induction it as [|[a|err] it IH]; intros objects; simpl.
  - discriminate.
  - intros H. destruct (IH _ H) as (err & Hin & Hne & Hc). eauto.
  - destruct err as [|msg]; simpl; [discriminate|].
    intros [= <- <-]. exists (errors_New msg).
    split; [now left|]. split; [discriminate|]. apply classify_gcs_classified.
Qed.

End GCSErrors.

(** X3.  Not-found on the GCS backend.  For every client: the error of a
    failed Attrs call in GetObject, of a failed Delete in DeleteObject, of a
    failed copy in CopyObject, and any error GetObjects returns (which is a
    result of the iterator other than [iterator.Done]) comes back as
    not-found (HTTP 404) exactly when its text is that of
    [storage.ErrObjectNotExist], and as internal (HTTP 500) otherwise.  The
    later steps of GetObject (opening the reader, reading, closing) always
    fail as internal, whatever the error says. *)
Theorem gcs_not_found_classification {W : Type} (b : GoogleCSBackend.t W)
  (path : string) (w : W) :
  let h := @Client_Object W (GoogleCSBackend.Client b)
             (pathutil.Join [GoogleCSBackend.Prefix b; path]) in
  (forall err w1,
      @Handle_Attrs W (GoogleCSBackend.Client b) h w = (inr err, w1) ->
      exists appErr,
        GoogleCSBackend.GetObject b path w
        = ((set_Path Object_zero path, Some appErr), w1)
        /\ gcs_classified err GCSGetObject appErr)
  /\ (forall attrs w1,
         @Handle_Attrs W (GoogleCSBackend.Client b) h w = (inl attrs, w1) ->
         let object :=
           set_LastModified (set_Path Object_zero path)
             (storage.ObjectAttrs.Updated attrs) in
         (forall err w2,
             @Handle_NewReader W (GoogleCSBackend.Client b) h w1 = (inr err, w2) ->
             exists appErr,
               GoogleCSBackend.GetObject b path w = ((object, Some appErr), w2)
               /\ internal_error err GCSGetObject appErr)
         /\ (forall rc w2,
                @Handle_NewReader W (GoogleCSBackend.Client b) h w1 = (inl rc, w2) ->
                (forall err,
                    io.read_err rc = Some err ->
                    exists appErr,
                      GoogleCSBackend.GetObject b path w
                      = ((object, Some appErr), w2)
                      /\ internal_error
                           (errors_New ("failed to read from reader stream: "
                                          +:+ Error err))
                           GCSGetObject appErr)
                /\ (forall err,
                       io.read_err rc = None -> io.close_err rc = Some err ->
                       exists appErr,
                         GoogleCSBackend.GetObject b path w
                         = ((object, Some appErr), w2)
                         /\ internal_error err GCSGetObject appErr)))
  /\ (forall objs appErr w1,
         GoogleCSBackend.GetObjects b path w = ((objs, Some appErr), w1) ->
         exists it err,
           @Client_Objects W (GoogleCSBackend.Client b)
             {| storage.Query.Prefix :=
                  pathutil.Join [GoogleCSBackend.Prefix b; path] |} w = (it, w1)
           /\ In (inr err) it /\ err <> iterator_Done
           /\ gcs_classified err GCSGetObjects appErr)
  /\ (forall err w1,
         @Handle_Delete W (GoogleCSBackend.Client b) h w = (Some err, w1) ->
         exists appErr,
           GoogleCSBackend.DeleteObject b path w = (Some appErr, w1)
           /\ gcs_classified err GCSDeleteObject appErr)
  /\ (forall dstPath err w1,
         @Copier_Run W (GoogleCSBackend.Client b)
           (@Client_Object W (GoogleCSBackend.Client b) dstPath)
           (@Client_Object W (GoogleCSBackend.Client b) path) w = (Some err, w1) ->
         exists appErr,
           GoogleCSBackend.CopyObject b path dstPath w = (Some appErr, w1)
           /\ gcs_classified err GCSCopyObject appErr).
Proof.
  intros h. split; [|split; [|split; [|split]]].
  - intros err w1 Hcall. eexists. split.
    + unfold GoogleCSBackend.GetObject. fold h. rewrite Hcall. reflexivity.
    + apply classify_gcs_classified.
  - intros attrs w1 Hattrs object. split.
    + intros err w2 Hcall. eexists. split; [|reflexivity].
      unfold GoogleCSBackend.GetObject. fold h. rewrite Hattrs, Hcall. reflexivity.
    + intros rc w2 Hcall. split.
      * intros err Hread. eexists. split; [|reflexivity].
        unfold GoogleCSBackend.GetObject, io.ReadAll. fold h.
        rewrite Hattrs, Hcall, Hread. reflexivity.
      * intros err Hread Hclose. eexists. split; [|reflexivity].
        unfold GoogleCSBackend.GetObject, io.ReadAll, io.Close. fold h.
        rewrite Hattrs, Hcall, Hread, Hclose. reflexivity.
  - intros objs appErr w1. unfold GoogleCSBackend.GetObjects.
    destruct (Client_Objects _ w) as [it w0]. intros [= Hloop <-].
    apply GetObjects_loop_gcs_error in Hloop as (err & Hin & Hne & Hc).
    exists it, err. auto.
  - intros err w1 Hcall. eexists. split.
    + unfold GoogleCSBackend.DeleteObject. fold h. rewrite Hcall. reflexivity.
    + apply classify_gcs_classified.
  - intros dstPath err w1 Hcall. eexists. split.
    + unfold GoogleCSBackend.CopyObject. rewrite Hcall. reflexivity.
    + apply classify_gcs_classified.
Qed.

(** A missing object on GetObject is not-found; a reader that cannot be
    opened because the object is gone is internal all the same. *)
Lemma gcs_not_found_classification_witness :
  (exists appErr,
      GoogleCSBackend.GetObject (MemBucket.gcs_backend "pre") "a.txt"
        (MemBucket.empty "bkt")
      = ((set_Path Object_zero "a.txt", Some appErr), MemBucket.empty "bkt")
      /\ gcs_classified storage.ErrObjectNotExist GCSGetObject appErr)
  /\ (exists appErr,
         (GoogleCSBackend.GetObject (MockGCS.backend "pre") "a.txt"
            sample_gcs_reader_fails).1
         = (set_LastModified (set_Path Object_zero "a.txt") 7, Some appErr)
         /\ internal_error storage.ErrObjectNotExist GCSGetObject appErr).
Proof.
  split.
  - exact (proj1 (gcs_not_found_classification (MemBucket.gcs_backend "pre")
                    "a.txt" (MemBucket.empty "bkt"))
             storage.ErrObjectNotExist _ eq_refl).
  - destruct (proj1 (proj1 (proj2 (gcs_not_found_classification
                                     (MockGCS.backend "pre") "a.txt"
                                     sample_gcs_reader_fails))
                      (sample_attrs "pre/a.txt" 7) _ eq_refl)
                storage.ErrObjectNotExist _ eq_refl) as (appErr & Hrun & Hint).
    exists appErr. split; [now rewrite Hrun | exact Hint].
Defined.

(** ** GetObject: what comes back *)

(** X4.  On either backend and for every client, the Object that GetObject
    returns carries the requested path and no metadata, whether the call
    succeeds or fails; and whenever the call fails, the Object has no
    content. *)
Theorem GetObject_returned_object :
  (forall (W : Type) (b : S3Backend.t W) (path : string) (w w' : W)
          (o : Object) (r : option ae.AppError),
      S3Backend.GetObject b path w = ((o, r), w') ->
      Path o = path /\ Meta o = Meta Object_zero
      /\ (r <> None -> Content o = [] /\ LastModified o = time.zero))
  /\ (forall (W : Type) (b : GoogleCSBackend.t W) (path : string) (w w' : W)
             (o : Object) (r : option ae.AppError),
         GoogleCSBackend.GetObject b path w = ((o, r), w') ->
         Path o = path /\ Meta o = Meta Object_zero
         /\ (r <> None -> Content o = [])).
Proof.
  split.
  - intros W b path w w' o r. unfold S3Backend.GetObject.
    destruct (GetObjectWithContext _ w) as [[out|err] w1].
    + destruct (io.ReadAll _) as [data [err|]].
      * intros [= <- <- <-]. now repeat split.
      * destruct (s3.GetObjectOutput.LastModified out);
          intros [= <- <- <-]; repeat split; congruence.
    + intros [= <- <- <-]. now repeat split.
  - intros W b path w w' o r. unfold GoogleCSBackend.GetObject.
    destruct (Handle_Attrs _ w) as [[attrs|err] w1];
      [|intros [= <- <- <-]; now repeat split].
    destruct (Handle_NewReader _ w1) as [[rc|err] w2];
      [|intros [= <- <- <-]; now repeat split].
    destruct (io.ReadAll rc) as [data [err|]];
      [intros [= <- <- <-]; now repeat split|].
    destruct (io.Close rc); intros [= <- <- <-]; repeat split; congruence.
Qed.

(** A fetch of a missing key from the in-memory bucket through S3, and a
    fetch through GCS whose reader fails after the attributes were read. *)
Lemma GetObject_returned_object_witness :
  (let o := (S3Backend.GetObject (MemBucket.s3_backend "bkt" "pre") "a.txt"
               (MemBucket.empty "bkt")).1.1 in
   Path o = "a.txt" /\ Meta o = Meta Object_zero
   /\ Content o = [] /\ LastModified o = time.zero)
  /\ (let o := (GoogleCSBackend.GetObject (MockGCS.backend "pre") "a.txt"
                  sample_gcs_reader_fails).1.1 in
      Path o = "a.txt" /\ Meta o = Meta Object_zero /\ Content o = []).
Proof.
  split.
  - destruct (proj1 GetObject_returned_object _
                (MemBucket.s3_backend "bkt" "pre") "a.txt" (MemBucket.empty "bkt")
                _ _ _ eq_refl) as (Hp & Hm & Hr).
    intros o. exact (conj Hp (conj Hm (Hr ltac:(discriminate)))).
  - destruct (proj2 GetObject_returned_object _
                (MockGCS.backend "pre") "a.txt" sample_gcs_reader_fails
                _ _ _ eq_refl) as (Hp & Hm & Hr).
    intros o. exact (conj Hp (conj Hm (Hr ltac:(discriminate)))).
Defined.

(** X5.  S3Backend.GetObject once the client has answered.  A failure to
    read the body comes back as internal (HTTP 500) without a look at its
    text, so even a text that contains "404" or "NotFound" is not classified
    as not-found, and the Object has neither content nor date.  When the
    body is read, the Object has the bytes read as its Content and the
    provider's LastModified, or the zero time when the provider gave none. *)
Theorem s3_GetObject_body {W : Type} (b : S3Backend.t W) (path : string)
  (w w1 : W) (out : s3.GetObjectOutput.t) :
  @GetObjectWithContext W (S3Backend.Client b)
    {| s3.GetObjectInput.Bucket := Some (S3Backend.Bucket b);
       s3.GetObjectInput.Key := Some (pathutil.Join [S3Backend.Prefix b; path]) |} w
  = (inl out, w1) ->
  (forall err,
      io.read_err (s3.GetObjectOutput.Body out) = Some err ->
      S3Backend.GetObject b path w
      = ((set_Path Object_zero path,
          Some {| ae.Cause := err; ae.Custom := S3GetObject;
                  ae.HTTPCode := http.StatusInternalServerError |}), w1))
  /\ (io.read_err (s3.GetObjectOutput.Body out) = None ->
      S3Backend.GetObject b path w
      = (({| Meta := Meta Object_zero; Path := path;
             Content := io.data (s3.GetObjectOutput.Body out);
             LastModified :=
               default time.zero (s3.GetObjectOutput.LastModified out) |},
          None), w1)).
Proof.
  intros Hcall. split.
  - intros err Hread. unfold S3Backend.GetObject, aws.String, io.ReadAll.
    now rewrite Hcall, Hread.
  - intros Hread. unfold S3Backend.GetObject, aws.String, io.ReadAll.
    rewrite Hcall, Hread.
    now destruct (s3.GetObjectOutput.LastModified out).
Qed.

(** A body whose read fails with a text full of not-found words. *)
Lemma s3_GetObject_body_witness :
  (S3Backend.GetObject (MockS3.backend "bkt" "pre") "a.txt"
     sample_s3_body_fails).1
  = (set_Path Object_zero "a.txt",
     Some {| ae.Cause := errors_New "read: 404 NotFound"; ae.Custom := S3GetObject;
             ae.HTTPCode := 500 |})
  /\ not_found_text "read: 404 NotFound".
Proof.
  split.
  - rewrite (proj1 (s3_GetObject_body (MockS3.backend "bkt" "pre") "a.txt"
                      sample_s3_body_fails _ _ eq_refl)
               (errors_New "read: 404 NotFound") eq_refl).
    reflexivity.
  - right. right. exists 6%nat, "read: ", " NotFound". now split.
Defined.

(** ** The in-memory bucket: how the operations compose *)

Section MemBucketCompose.
Import MemBucket.

Lemma lookup_store_ne (k k' : string) (c : list byte) (w : World) :
  k <> k' -> objects (store k c w) !! k' = objects w !! k'.
Proof. intros H. unfold store. simpl. now apply lookup_insert_ne. Qed.

Lemma lookup_remove (k : string) (w : World) : objects (remove k w) !! k = None.
Proof. unfold remove. simpl. apply lookup_delete_eq. Qed.

(** What GetObject through the S3 backend reads off the bucket. *)
Lemma s3_GetObject_mem (bucket prefix path : string) (w : World) :
  is_bucket (Some bucket) w = true ->
  S3Backend.GetObject (s3_backend bucket prefix) path w
  = (match objects w !! pathutil.Join [prefix; path] with
     | Some e =>
         ({| Meta := Meta Object_zero; Path := path; Content := bytes e;
             LastModified := modified e |}, None)
     | None =>
         (set_Path Object_zero path,
          Some {| ae.Cause := NoSuchKey; ae.Custom := S3GetObject;
                  ae.HTTPCode := http.StatusNotFound |})
     end, w).
Proof.
  intros Hb.
  unfold S3Backend.GetObject, GetObjectWithContext, s3_backend, s3_client,
    aws.String.
  cbn [S3Backend.Client S3Backend.Bucket S3Backend.Prefix
       s3.GetObjectInput.Bucket s3.GetObjectInput.Key].
  rewrite Hb. destruct (objects w !! pathutil.Join [prefix; path]); reflexivity.
Qed.

(** And through the GCS backend. *)
Lemma gcs_GetObject_mem (prefix path : string) (w : World) :
  GoogleCSBackend.GetObject (gcs_backend prefix) path w
  = (match objects w !! pathutil.Join [prefix; path] with
     | Some e =>
         ({| Meta := Meta Object_zero; Path := path; Content := bytes e;
             LastModified := modified e |}, None)
     | None =>
         (set_Path Object_zero path,
          Some {| ae.Cause := storage.ErrObjectNotExist; ae.Custom := GCSGetObject;
                  ae.HTTPCode := http.StatusNotFound |})
     end, w).
Proof.
  unfold GoogleCSBackend.GetObject, gcs_backend, gcs_client.
  cbn [GoogleCSBackend.Client GoogleCSBackend.Prefix Handle_Attrs
       Handle_NewReader Client_Object storage.object].
  destruct (objects w !! pathutil.Join [prefix; path]) as [e|] eqn:E;
    [|reflexivity].
  cbv beta iota. rewrite E. reflexivity.
Qed.

End MemBucketCompose.

(** X6.  Store, delete, fetch.  On the provider as a key-value map, for
    either backend, every configured prefix and every path: after a
    successful PutObject, DeleteObject of the same path succeeds and removes
    the key [Join(Prefix, path)], and a GetObject that follows fails as
    not-found (HTTP 404) with an Object that has the path and no content. *)
Theorem PutObject_DeleteObject_GetObject :
  (forall (bucket prefix p : string) (c : list byte) (w w1 : MemBucket.World),
      S3Backend.PutObject (MemBucket.s3_backend bucket prefix) p c w = (None, w1) ->
      exists w2 appErr,
        S3Backend.DeleteObject (MemBucket.s3_backend bucket prefix) p w1 = (None, w2)
        /\ MemBucket.objects w2 !! pathutil.Join [prefix; p] = None
        /\ S3Backend.GetObject (MemBucket.s3_backend bucket prefix) p w2
           = ((set_Path Object_zero p, Some appErr), w2)
        /\ ae.HTTPCode appErr = http.StatusNotFound
        /\ ae.Custom appErr = S3GetObject)
  /\ (forall (prefix p : string) (c : list byte) (w w1 : MemBucket.World),
         GoogleCSBackend.PutObject (MemBucket.gcs_backend prefix) p c w = (None, w1) ->
         exists w2 appErr,
           GoogleCSBackend.DeleteObject (MemBucket.gcs_backend prefix) p w1
             = (None, w2)
           /\ MemBucket.objects w2 !! pathutil.Join [prefix; p] = None
           /\ GoogleCSBackend.GetObject (MemBucket.gcs_backend prefix) p w2
              = ((set_Path Object_zero p, Some appErr), w2)
           /\ ae.HTTPCode appErr = http.StatusNotFound
           /\ ae.Custom appErr = GCSGetObject).
Proof.
  split.
  - intros bucket prefix p c w w1 Hput.
    apply s3_PutObject_stores in Hput as [Hb ->].
    set (k := pathutil.Join [prefix; p]).
    exists (MemBucket.remove k (MemBucket.store k c w)).
    exists {| ae.Cause := MemBucket.NoSuchKey; ae.Custom := S3GetObject;
              ae.HTTPCode := http.StatusNotFound |}.
    split; [|split; [apply lookup_remove|split; [|split; reflexivity]]].
    + unfold S3Backend.DeleteObject, DeleteObjectWithContext,
        MemBucket.s3_backend, MemBucket.s3_client, aws.String.
      cbn [S3Backend.Client S3Backend.Bucket S3Backend.Prefix
           s3.DeleteObjectInput.Bucket s3.DeleteObjectInput.Key].
      rewrite is_bucket_store, Hb. reflexivity.
    + rewrite s3_GetObject_mem by exact Hb. fold k.
      now rewrite lookup_remove.
  - intros prefix p c w w1 Hput.
    apply gcs_PutObject_stores in Hput as ->.
    set (k := pathutil.Join [prefix; p]).
    exists (MemBucket.remove k (MemBucket.store k c w)).
    exists {| ae.Cause := storage.ErrObjectNotExist; ae.Custom := GCSGetObject;
              ae.HTTPCode := http.StatusNotFound |}.
    split; [|split; [apply lookup_remove|split; [|split; reflexivity]]].
    + unfold GoogleCSBackend.DeleteObject, MemBucket.gcs_backend,
        MemBucket.gcs_client.
      cbn [GoogleCSBackend.Client GoogleCSBackend.Prefix Handle_Delete
           Client_Object storage.object].
      fold k. now rewrite lookup_store.
    + rewrite gcs_GetObject_mem. fold k. now rewrite lookup_remove.
Qed.

(** The scenario of the example program's clean-up, on an empty bucket. *)
Lemma PutObject_DeleteObject_GetObject_witness :
  (exists w2 appErr,
      S3Backend.DeleteObject (MemBucket.s3_backend "bkt" "pre") "test/hello.txt"
        (MemBucket.store "pre/test/hello.txt" hello (MemBucket.empty "bkt"))
      = (None, w2)
      /\ MemBucket.objects w2 !! pathutil.Join ["pre"; "test/hello.txt"] = None
      /\ S3Backend.GetObject (MemBucket.s3_backend "bkt" "pre") "test/hello.txt" w2
         = ((set_Path Object_zero "test/hello.txt", Some appErr), w2)
      /\ ae.HTTPCode appErr = http.StatusNotFound
      /\ ae.Custom appErr = S3GetObject)
  /\ (exists w2 appErr,
         GoogleCSBackend.DeleteObject (MemBucket.gcs_backend "pre") "test/hello.txt"
           (MemBucket.store "pre/test/hello.txt" hello (MemBucket.empty "bkt"))
         = (None, w2)
         /\ MemBucket.objects w2 !! pathutil.Join ["pre"; "test/hello.txt"] = None
         /\ GoogleCSBackend.GetObject (MemBucket.gcs_backend "pre")
              "test/hello.txt" w2
            = ((set_Path Object_zero "test/hello.txt", Some appErr), w2)
         /\ ae.HTTPCode appErr = http.StatusNotFound
         /\ ae.Custom appErr = GCSGetObject).
Proof.
  split.
  - exact (proj1 PutObject_DeleteObject_GetObject "bkt" "pre" "test/hello.txt"
             hello (MemBucket.empty "bkt") _ eq_refl).
  - exact (proj2 PutObject_DeleteObject_GetObject "pre" "test/hello.txt"
             hello (MemBucket.empty "bkt") _ eq_refl).
Defined.



(** X8.  Which paths a stored object answers to.  On the provider as a
    key-value map, for either backend and every configured prefix: after a
    successful PutObject at [p], a GetObject at any path [q] that joins to
    the same key (as ["a/./b"] and ["a/b"] do) returns the content just
    stored, under the path [q]; and a GetObject at a path that joins to
    another key returns what it returned before the store. *)
Theorem PutObject_GetObject_other_path :
  (forall (bucket prefix p q : string) (c : list byte) (w w1 : MemBucket.World),
      S3Backend.PutObject (MemBucket.s3_backend bucket prefix) p c w = (None, w1) ->
      (pathutil.Join [prefix; q] = pathutil.Join [prefix; p] ->
       S3Backend.GetObject (MemBucket.s3_backend bucket prefix) q w1
       = (({| Meta := Meta Object_zero; Path := q; Content := c;
              LastModified := MemBucket.clock w |}, None), w1))
      /\ (pathutil.Join [prefix; q] <> pathutil.Join [prefix; p] ->
          (S3Backend.GetObject (MemBucket.s3_backend bucket prefix) q w1).1
          = (S3Backend.GetObject (MemBucket.s3_backend bucket prefix) q w).1))
  /\ (forall (prefix p q : string) (c : list byte) (w w1 : MemBucket.World),
         GoogleCSBackend.PutObject (MemBucket.gcs_backend prefix) p c w = (None, w1) ->
         (pathutil.Join [prefix; q] = pathutil.Join [prefix; p] ->
          GoogleCSBackend.GetObject (MemBucket.gcs_backend prefix) q w1
          = (({| Meta := Meta Object_zero; Path := q; Content := c;
                 LastModified := MemBucket.clock w |}, None), w1))
         /\ (pathutil.Join [prefix; q] <> pathutil.Join [prefix; p] ->
             (GoogleCSBackend.GetObject (MemBucket.gcs_backend prefix) q w1).1
             = (GoogleCSBackend.GetObject (MemBucket.gcs_backend prefix) q w).1)).
Proof.
  split.
  - intros bucket prefix p q c w w1 Hput.
    apply s3_PutObject_stores in Hput as [Hb ->]. split.
    + intros Hq. rewrite s3_GetObject_mem by exact Hb.
      now rewrite Hq, lookup_store.
    + intros Hne. rewrite !s3_GetObject_mem by exact Hb.
      rewrite lookup_store_ne by congruence. reflexivity.
  - intros prefix p q c w w1 Hput.
    apply gcs_PutObject_stores in Hput as ->. split.
    + intros Hq. rewrite gcs_GetObject_mem. now rewrite Hq, lookup_store.
    + intros Hne. rewrite !gcs_GetObject_mem.
      rewrite lookup_store_ne by congruence. reflexivity.
Qed.

(** Stored at ["a/./b"], fetched at ["a/b"]; and ["c"] still missing. *)
Lemma PutObject_GetObject_other_path_witness :
  S3Backend.GetObject (MemBucket.s3_backend "bkt" "pre") "a/b"
    (MemBucket.store "pre/a/b" hello (MemBucket.empty "bkt"))
  = (({| Meta := Meta Object_zero; Path := "a/b"; Content := hello;
         LastModified := 1 |}, None),
     MemBucket.store "pre/a/b" hello (MemBucket.empty "bkt"))
  /\ (GoogleCSBackend.GetObject (MemBucket.gcs_backend "pre") "c"
        (MemBucket.store "pre/a/b" hello (MemBucket.empty "bkt"))).1
     = (GoogleCSBackend.GetObject (MemBucket.gcs_backend "pre") "c"
          (MemBucket.empty "bkt")).1.
Proof.
  split.
  - apply (proj1 (proj1 PutObject_GetObject_other_path "bkt" "pre" "a/./b" "a/b"
                    hello (MemBucket.empty "bkt") _ eq_refl)).
    reflexivity.
  - apply (proj2 (proj2 PutObject_GetObject_other_path "pre" "a/./b" "c"
                    hello (MemBucket.empty "bkt") _ eq_refl)).
    discriminate.
Defined.

(** ** Listing: edges *)

Section ListingEdges.

Lemma range_Contents_None (fullPrefix : string) (cs : list s3.Object.t)
  (objects : list Object) :
  ~ Forall entry_ok cs ->
  S3Backend.range_Contents fullPrefix cs objects = None.
Proof.
  intros H. destruct (S3Backend.range_Contents _ _ _) eqn:E; [|reflexivity].
  apply range_Contents_Some in E as [Hok _]. now contradiction H.
Qed.

Lemma GetObjects_loop_bad_page {W : Type} (b : S3Backend.t W) (fuel : nat)
  (fullPrefix : string) (input : s3.ListObjectsInput.t) (objects : list Object)
  (w w1 : W) (page : s3.ListObjectsOutput.t) :
  @ListObjectsWithContext W (S3Backend.Client b) input w = (inl page, w1) ->
  S3Backend.range_Contents fullPrefix (s3.ListObjectsOutput.Contents page) objects
    = None ->
  S3Backend.GetObjects_loop b (S fuel) fullPrefix input objects w
  = (Panicked NilPointerDereference, w1).
Proof. intros Hcall Hrange. simpl. now rewrite Hcall, Hrange. Qed.

Lemma entry_object_verbatim (e : s3.Object.t) :
  entry_object "" e
  = verbatim_object (default "" (s3.Object.Key e))
      (default time.zero (s3.Object.LastModified e)).
Proof. reflexivity. Qed.

Lemma attrs_object_verbatim (a : storage.ObjectAttrs.t) :
  attrs_object "" a
  = verbatim_object (storage.ObjectAttrs.Name a) (storage.ObjectAttrs.Updated a).
Proof. reflexivity. Qed.

Lemma pages_objects_verbatim (ps : list s3.ListObjectsOutput.t) :
  pages_objects "" ps
  = (fun e => verbatim_object (default "" (s3.Object.Key e))
                (default time.zero (s3.Object.LastModified e)))
      <$> concat (s3.ListObjectsOutput.Contents <$> ps).
Proof.
  unfold pages_objects. induction ps as [|p ps IH]; [reflexivity|].
  cbn [fmap list_fmap concat]. rewrite fmap_app. f_equal. exact IH.
Qed.

(** A client that always answers with a page to be continued keeps the loop
    running. *)
Lemma GetObjects_loop_runs_on {W : Type} (b : S3Backend.t W) (fullPrefix : string) :
  (forall input w, exists page w1,
      @ListObjectsWithContext W (S3Backend.Client b) input w = (inl page, w1)
      /\ continued_page page) ->
  forall fuel input objects w,
    (S3Backend.GetObjects_loop b fuel fullPrefix input objects w).1 = OutOfFuel.
Proof.
  intros Hclient. induction fuel as [|fuel IH]; intros input objects w.
  - reflexivity.
  - destruct (Hclient input w) as (page & w1 & Hcall & Ht & Hne & Hok).
    erewrite GetObjects_loop_page;
      [|exact Hcall|now apply range_Contents_ok].
    unfold S3Backend.not_truncated. unfold truncated in Ht. rewrite Ht. simpl.
    destruct (last _) as [lastObj|] eqn:Hl; [apply IH|].
    now apply last_None in Hl.
Qed.

End ListingEdges.

(** X9.  With no prefix configured and an empty listing prefix, GetObjects
    asks the provider for the empty prefix and returns every key as it is:
    on the S3 backend the Paths are the keys of the pages' entries, on the
    GCS backend the names the iterator gave, in order. *)
Theorem GetObjects_root_listing_verbatim :
  (forall (bucket : string) (ps : list s3.ListObjectsOutput.t)
          (lastp : s3.ListObjectsOutput.t)
          (rest : list (s3.ListObjectsOutput.t + error)) (w : MockS3.World)
          (fuel : nat),
      Forall continued_page ps ->
      page_ok lastp ->
      (s3.ListObjectsOutput.IsTruncated lastp = None
       \/ s3.ListObjectsOutput.IsTruncated lastp = Some false) ->
      MockS3.listResults w = (inl <$> ps ++ [lastp]) ++ rest ->
      (length ps < fuel)%nat ->
      S3Backend.GetObjects (MockS3.backend bucket "") fuel "" w
      = (Returned
           ((fun e => verbatim_object (default "" (s3.Object.Key e))
                        (default time.zero (s3.Object.LastModified e)))
              <$> concat (s3.ListObjectsOutput.Contents <$> ps ++ [lastp]), None),
         mock_after w rest (MockS3.ListObjects <$> paged_requests bucket "" ps)))
  /\ (forall (W : Type) (client : IGCSClient W) (w w1 : W)
             (steps : list storage.ObjectAttrs.t),
         @Client_Objects W client {| storage.Query.Prefix := "" |} w
         = (inl <$> steps, w1) ->
         GoogleCSBackend.GetObjects
           {| GoogleCSBackend.Prefix := ""; GoogleCSBackend.Client := client |} "" w
         = (((fun a => verbatim_object (storage.ObjectAttrs.Name a)
                         (storage.ObjectAttrs.Updated a)) <$> steps, None), w1)).
Proof.
  split.
  - intros bucket ps lastp rest w fuel Hps Hok Hlast Hw Hfuel.
    rewrite (GetObjects_pages_run bucket "" "" ps lastp rest w fuel
               Hps Hok Hlast Hw Hfuel).
    change (pathutil.Join [""; ""]) with "".
    now rewrite pages_objects_verbatim.
  - intros W client w w1 steps Hcall.
    unfold GoogleCSBackend.GetObjects.
    cbn [GoogleCSBackend.Prefix GoogleCSBackend.Client].
    change (pathutil.Join [""; ""]) with "". rewrite Hcall. f_equal.
    rewrite <- (app_nil_r (inl <$> steps)), GetObjects_loop_steps. reflexivity.
Qed.

(** Three pages of keys, listed from the root of a bucket. *)
Lemma GetObjects_root_listing_verbatim_witness :
  (S3Backend.GetObjects (MockS3.backend "bkt" "") 3 ""
     (MockS3.set_listResults
        (inl <$> [sample_page_ab; sample_page_c] ++ [sample_page_d])
        MockS3.quiet)).1
  = Returned ([verbatim_object "pre/test/a" 1; verbatim_object "pre/test/b" 2;
               verbatim_object "pre/test/c" 3; verbatim_object "pre/test/d" 4],
              None).
Proof.
  rewrite (proj1 GetObjects_root_listing_verbatim "bkt"
             [sample_page_ab; sample_page_c] sample_page_d [] _ 3%nat).
  - reflexivity.
  - repeat constructor; simpl; try discriminate; eauto.
  - repeat constructor; simpl; eauto.
  - left. reflexivity.
  - reflexivity.
  - simpl. lia.
Defined.

(** X10.  An entry whose Key or LastModified pointer is nil makes
    S3Backend.GetObjects panic on the dereference, as soon as the page that
    holds it is read: the Objects of the pages read before are not returned,
    and the client is asked nothing more. *)
Theorem GetObjects_nil_entry_panics (bucket prefix listing : string)
  (ps : list s3.ListObjectsOutput.t) (page : s3.ListObjectsOutput.t)
  (rest : list (s3.ListObjectsOutput.t + error)) (w : MockS3.World) (fuel : nat) :
  Forall continued_page ps ->
  ~ page_ok page ->
  MockS3.listResults w = (inl <$> ps) ++ inl page :: rest ->
  (length ps < fuel)%nat ->
  S3Backend.GetObjects (MockS3.backend bucket prefix) fuel listing w
  = (Panicked NilPointerDereference,
     mock_after w rest
       (MockS3.ListObjects
          <$> paged_requests bucket (pathutil.Join [prefix; listing]) ps)).
Proof.
  intros Hps Hbad Hw Hfuel.
  unfold S3Backend.GetObjects. simpl S3Backend.Prefix. simpl S3Backend.Bucket.
  set (fp := pathutil.Join [prefix; listing]).
  replace fuel with (length ps + S (fuel - S (length ps)))%nat by lia.
  change {| s3.ListObjectsInput.Bucket := aws.String bucket;
            s3.ListObjectsInput.Prefix := aws.String fp;
            s3.ListObjectsInput.Marker := None |}
    with (list_request bucket fp None).
  rewrite (GetObjects_loop_continued bucket prefix fp ps Hps _ None [] w _ Hw).
  erewrite GetObjects_loop_bad_page;
    [|simpl; reflexivity|now apply range_Contents_None].
  rewrite mock_after_step. do 2 f_equal. apply paged_requests_calls.
Qed.

(** Two good pages, then a page with a keyless entry. *)
Lemma GetObjects_nil_entry_panics_witness :
  (S3Backend.GetObjects (MockS3.backend "bkt" "pre") 5 "test"
     (MockS3.set_listResults
        ((inl <$> [sample_page_ab; sample_page_c]) ++ [inl sample_page_keyless])
        MockS3.quiet)).1
  = Panicked NilPointerDereference.
Proof.
  rewrite (GetObjects_nil_entry_panics "bkt" "pre" "test"
             [sample_page_ab; sample_page_c] sample_page_keyless [] _ 5).
  - reflexivity.
  - repeat constructor; simpl; try discriminate; eauto.
  - intros H. inversion H as [|? ? _ H2]; subst.
    inversion H2 as [|? ? [[k Hk] _] _]; subst. discriminate.
  - reflexivity.
  - simpl. lia.
Defined.

(** X11.  S3Backend.GetObjects has no bound of its own on the number of
    pages: against a client that answers every list call with a truncated
    page that has entries, the loop is still running after any number of
    iterations, and the call never returns. *)
Theorem GetObjects_never_returns {W : Type} (b : S3Backend.t W) :
  (forall input w, exists page w1,
      @ListObjectsWithContext W (S3Backend.Client b) input w = (inl page, w1)
      /\ continued_page page) ->
  forall (fuel : nat) (prefix : string) (w : W),
    (S3Backend.GetObjects b fuel prefix w).1 = OutOfFuel.
Proof.
  intros Hclient fuel prefix w. unfold S3Backend.GetObjects.
  now apply GetObjects_loop_runs_on.
Qed.

(** The client that repeats one truncated page, after a thousand rounds. *)
Lemma GetObjects_never_returns_witness :
  (S3Backend.GetObjects (RepeatS3.backend sample_page_c "bkt" "pre") 1000
     "test" tt).1 = OutOfFuel.
Proof.
  apply (GetObjects_never_returns (RepeatS3.backend sample_page_c "bkt" "pre")).
  intros input w. exists sample_page_c, w. split; [reflexivity|].
  repeat constructor; simpl; try discriminate; eauto.
Defined.

(** X12.  GoogleCSBackend.GetObjects ends a listing without an error at the
    first [iterator.Done], or when the iterator has nothing more to give: it
    returns the Objects of the results before that point, in order, and
    whatever the iterator would have given after [iterator.Done] is not
    read. *)
Theorem gcs_GetObjects_until_Done {W : Type} (b : GoogleCSBackend.t W)
  (listing : string) (w w1 : W) (steps : list storage.ObjectAttrs.t) :
  (forall rest : storage.ObjectIterator,
      @Client_Objects W (GoogleCSBackend.Client b)
        {| storage.Query.Prefix :=
             pathutil.Join [GoogleCSBackend.Prefix b; listing] |} w
      = ((inl <$> steps) ++ inr iterator_Done :: rest, w1) ->
      GoogleCSBackend.GetObjects b listing w
      = ((attrs_object (pathutil.Join [GoogleCSBackend.Prefix b; listing])
            <$> steps, None), w1))
  /\ (@Client_Objects W (GoogleCSBackend.Client b)
        {| storage.Query.Prefix :=
             pathutil.Join [GoogleCSBackend.Prefix b; listing] |} w
      = (inl <$> steps, w1) ->
      GoogleCSBackend.GetObjects b listing w
      = ((attrs_object (pathutil.Join [GoogleCSBackend.Prefix b; listing])
            <$> steps, None), w1)).
Proof.
  split.
  - intros rest Hcall. unfold GoogleCSBackend.GetObjects.
    rewrite Hcall, GetObjects_loop_steps. reflexivity.
  - intros Hcall. unfold GoogleCSBackend.GetObjects.
    rewrite Hcall, <- (app_nil_r (inl <$> steps)), GetObjects_loop_steps.
    reflexivity.
Qed.

(** Two objects, [iterator.Done], and an error that is never seen. *)
Lemma gcs_GetObjects_until_Done_witness :
  (GoogleCSBackend.GetObjects (MockGCS.backend "pre") "test"
     (MockGCS.set_objectsResult
        ((inl <$> [sample_attrs "pre/test/a" 1; sample_attrs "pre/test/b" 2])
           ++ inr iterator_Done :: [inr (errors_New "never read")])
        MockGCS.quiet)).1
  = ([sample_object "a" 1; sample_object "b" 2], None).
Proof.
  erewrite (proj1 (gcs_GetObjects_until_Done (MockGCS.backend "pre") "test"
                     _ _ [sample_attrs "pre/test/a" 1; sample_attrs "pre/test/b" 2])
              [inr (errors_New "never read")]).
  - reflexivity.
  - reflexivity.
Defined.

(** ** S3Backend.CopyObject: the copy source *)

Section CopySource.

Lemma upperhex_not_slash (n : N) : url.upperhex n <> "/"%char.
Proof.
  unfold url.upperhex. generalize (N.to_nat n). intros k.
  do 16 (destruct k as [|k]; [discriminate|]). discriminate.
Qed.

Lemma shouldEscape_slash (c : ascii) :
  url.shouldEscape c = false -> c <> "/"%char.
Proof. intros H ->. discriminate. Qed.

(** No slash is left in an escaped path. *)
Lemma PathEscape_no_slash (s : string) : ~ occurs "/" (url.PathEscape s).
Proof.
  intros (i & a & c & E & _). revert a E.
  induction s as [|x s IH]; intros a E; simpl in E.
  - destruct a; discriminate.
  - destruct (url.shouldEscape x) eqn:Hx.
    + destruct a as [|a0 [|a1 [|a2 a]]]; try discriminate.
      * injection E as _ E _. now apply upperhex_not_slash in E.
      * injection E as _ _ E _. now apply upperhex_not_slash in E.
      * injection E as _ _ _ E. now apply (IH a).
    + destruct a as [|a0 a].
      * injection E as E _. now apply shouldEscape_slash in Hx.
      * injection E as _ E. now apply (IH a).
Qed.

End CopySource.

(** X13.  The copy request S3Backend.CopyObject sends, from any state of the
    mock: its CopySource is the path-escaped join of bucket, prefix and
    source path, in which no slash is left (the separators are sent as
    "%2F"), and its Key is the join of prefix and destination path, sent as
    it is. *)
Theorem s3_CopyObject_source_escaped (bucket prefix srcPath dstPath : string)
  (w : MockS3.World) :
  exists source,
    MockS3.calls
      (S3Backend.CopyObject (MockS3.backend bucket prefix) srcPath dstPath w).2
    = MockS3.calls w
        ++ [MockS3.CopyObject
              {| s3.CopyObjectInput.Bucket := Some bucket;
                 s3.CopyObjectInput.CopySource := Some source;
                 s3.CopyObjectInput.Key := Some (pathutil.Join [prefix; dstPath]) |}]
    /\ source = url.PathEscape (pathutil.Join [bucket; prefix; srcPath])
    /\ ~ occurs "/" source.
Proof.
  exists (url.PathEscape (pathutil.Join [bucket; prefix; srcPath])).
  split; [|split; [reflexivity | apply PathEscape_no_slash]].
  unfold S3Backend.CopyObject. simpl.
  now destruct (MockS3.copyResult w).
Qed.

(** The source and the key of a copy of ["a b/c"] under the prefix ["pre"]. *)
Lemma s3_CopyObject_source_escaped_witness :
  exists source,
    MockS3.calls
      (S3Backend.CopyObject (MockS3.backend "bkt" "pre") "a b/c" "d/e"
         MockS3.quiet).2
    = [MockS3.CopyObject
         {| s3.CopyObjectInput.Bucket := Some "bkt";
            s3.CopyObjectInput.CopySource := Some source;
            s3.CopyObjectInput.Key := Some "pre/d/e" |}]
    /\ source = "bkt%2Fpre%2Fa%20b%2Fc"
    /\ ~ occurs "/" source.
Proof.
  exact (s3_CopyObject_source_escaped "bkt" "pre" "a b/c" "d/e" MockS3.quiet).
Defined.

(** ** Errors: one descriptor per operation *)

Section ErrorsOf.

Lemma s3_classify_error_of (e : error) (ce : ae.CustomErr) :
  error_of ce (S3Backend.classify e ce).
Proof.
  unfold error_of, S3Backend.classify.
  destruct (isS3NotFoundError (Some e)); simpl; auto.
Qed.

Lemma gcs_classify_error_of (e : error) (ce : ae.CustomErr) :
  error_of ce (GoogleCSBackend.classify e ce).
Proof.
  unfold error_of, GoogleCSBackend.classify.
  destruct (GoogleCSBackend.isNotExist e); simpl; auto.
Qed.

Lemma internal_error_of (e : error) (ce : ae.CustomErr) :
  error_of ce (ae.GetAppErr e ce http.StatusInternalServerError).
Proof. unfold error_of. simpl. auto. Qed.

Lemma s3_classified_error_of (e : error) (ce : ae.CustomErr) (a : ae.AppError) :
  s3_classified e ce a -> error_of ce a.
Proof. intros (_ & Hc & [[_ H]|[_ H]]); split; auto. Qed.

Lemma gcs_classified_error_of (e : error) (ce : ae.CustomErr) (a : ae.AppError) :
  gcs_classified e ce a -> error_of ce a.
Proof. intros (_ & Hc & [[_ H]|[_ H]]); split; auto. Qed.

End ErrorsOf.

(** X14.  Every application error that an operation of either backend
    returns, for every client and on every path through the operation,
    carries the descriptor of that very operation and the HTTP code 404 or
    500; an error of S3Backend.PutObject is always 500.  The codes of the
    twelve descriptors are pairwise different, so the code names the
    provider and the operation. *)
Theorem errors_carry_operation_descriptor :
  (forall (W : Type) (b : S3Backend.t W) (w w' : W) (a : ae.AppError),
      (forall path o,
          S3Backend.GetObject b path w = ((o, Some a), w') ->
          error_of S3GetObject a)
      /\ (forall fuel prefix objs,
             S3Backend.GetObjects b fuel prefix w = (Returned (objs, Some a), w') ->
             error_of S3GetObjects a)
      /\ (forall path content,
             S3Backend.PutObject b path content w = (Some a, w') ->
             ae.Custom a = S3PutObject
             /\ ae.HTTPCode a = http.StatusInternalServerError)
      /\ (forall path,
             S3Backend.DeleteObject b path w = (Some a, w') ->
             error_of S3DeleteObject a)
      /\ (forall srcPath dstPath,
             S3Backend.CopyObject b srcPath dstPath w = (Some a, w') ->
             error_of S3CopyObject a))
  /\ (forall (W : Type) (b : GoogleCSBackend.t W) (w w' : W) (a : ae.AppError),
         (forall path o,
             GoogleCSBackend.GetObject b path w = ((o, Some a), w') ->
             error_of GCSGetObject a)
         /\ (forall prefix objs,
                GoogleCSBackend.GetObjects b prefix w = ((objs, Some a), w') ->
                error_of GCSGetObjects a)
         /\ (forall path content,
                GoogleCSBackend.PutObject b path content w = (Some a, w') ->
                error_of GCSPutObject a)
         /\ (forall path,
                GoogleCSBackend.DeleteObject b path w = (Some a, w') ->
                error_of GCSDeleteObject a)
         /\ (forall srcPath dstPath,
                GoogleCSBackend.CopyObject b srcPath dstPath w = (Some a, w') ->
                error_of GCSCopyObject a))
  /\ NoDup (ae.Code <$> descriptors).
Proof.
  split; [|split].
  - intros W b w w' a. split; [|split; [|split; [|split]]].
    + intros path o. unfold S3Backend.GetObject.
      destruct (GetObjectWithContext _ w) as [[out|err] w1].
      * destruct (io.ReadAll _) as [data [err|]].
        -- intros [= _ <- _]. apply internal_error_of.
        -- destruct (s3.GetObjectOutput.LastModified out); discriminate.
      * intros [= _ <- _]. apply s3_classify_error_of.
    + intros fuel prefix objs Hrun. unfold S3Backend.GetObjects in Hrun.
      apply GetObjects_loop_error in Hrun as (input & w0 & err & _ & Hc).
      eapply s3_classified_error_of, Hc.
    + intros path content. unfold S3Backend.PutObject.
      destruct (UploadWithContext _ w) as [[err|] w1]; [|discriminate].
      intros [= <- _]. now split.
    + intros path. unfold S3Backend.DeleteObject.
      destruct (DeleteObjectWithContext _ w) as [[err|] w1]; [|discriminate].
      intros [= <- _]. apply s3_classify_error_of.
    + intros srcPath dstPath. unfold S3Backend.CopyObject.
      destruct (CopyObjectWithContext _ w) as [[err|] w1]; [|discriminate].
      intros [= <- _]. apply s3_classify_error_of.
  - intros W b w w' a. split; [|split; [|split; [|split]]].
    + intros path o. unfold GoogleCSBackend.GetObject.
      destruct (Handle_Attrs _ w) as [[attrs|err] w1];
        [|intros [= _ <- _]; apply gcs_classify_error_of].
      destruct (Handle_NewReader _ w1) as [[rc|err] w2];
        [|intros [= _ <- _]; apply internal_error_of].
      destruct (io.ReadAll rc) as [data [err|]];
        [intros [= _ <- _]; apply internal_error_of|].
      destruct (io.Close rc); [|discriminate].
      intros [= _ <- _]. apply internal_error_of.
    + intros prefix objs. unfold GoogleCSBackend.GetObjects.
      destruct (Client_Objects _ w) as [it w1]. intros [= Hloop _].
      apply GetObjects_loop_gcs_error in Hloop as (err & _ & _ & Hc).
      eapply gcs_classified_error_of, Hc.
    + intros path content. unfold GoogleCSBackend.PutObject.
      destruct (Handle_NewWriter _ w) as [wc w1].
      destruct (Writer_Write wc content w1) as [[wc' [err|]] w2].
      * intros [= <- _]. apply gcs_classify_error_of.
      * destruct (Writer_Close wc' w2) as [[err|] w3]; [|discriminate].
        intros [= <- _]. apply internal_error_of.
    + intros path. unfold GoogleCSBackend.DeleteObject.
      destruct (Handle_Delete _ w) as [[err|] w1]; [|discriminate].
      intros [= <- _]. apply gcs_classify_error_of.
    + intros srcPath dstPath. unfold GoogleCSBackend.CopyObject.
      destruct (Copier_Run _ _ w) as [[err|] w1]; [|discriminate].
      intros [= <- _]. apply gcs_classify_error_of.
  - apply NoDup_ListNoDup. vm_compute.
    repeat (constructor; [intros H; repeat (destruct H as [H|H]; [discriminate|]);
                          exact H|]).
    constructor.
Qed.

(** The error of a fetch of a missing key, through S3 and through GCS. *)
Lemma errors_carry_operation_descriptor_witness :
  error_of S3GetObject
    {| ae.Cause := MemBucket.NoSuchKey; ae.Custom := S3GetObject;
       ae.HTTPCode := http.StatusNotFound |}
  /\ error_of GCSGetObject
       {| ae.Cause := storage.ErrObjectNotExist; ae.Custom := GCSGetObject;
          ae.HTTPCode := http.StatusNotFound |}.
Proof.
  split.
  - apply (proj1 (proj1 errors_carry_operation_descriptor _
                    (MemBucket.s3_backend "bkt" "pre") (MemBucket.empty "bkt")
                    (MemBucket.empty "bkt") _)
             "a.txt" (set_Path Object_zero "a.txt")).
    reflexivity.
  - apply (proj1 (proj1 (proj2 errors_carry_operation_descriptor) _
                    (MemBucket.gcs_backend "pre") (MemBucket.empty "bkt")
                    (MemBucket.empty "bkt") _)
             "a.txt" (set_Path Object_zero "a.txt")).
    reflexivity.
Defined.
